(** * pypdfium2: bitmap ownership, coordinate translation, version records

    A shallow embedding of the helper layer of pypdfium2
    ([_helpers/bitmap.py], [_helpers/utilities.py], [version.py]) and the
    properties its specification states about it.

    Python integers are unbounded and are modelled by [Z].  A raised
    exception is a value of [exn], named after the Python exception class
    the source raises; a function that may raise returns [exn + A]. *)

From Stdlib Require Import ZArith Lia Ascii String List Bool.
From Stdlib Require Import DecimalString HexadecimalString.
From stdpp Require Import gmap strings list.

Open Scope Z_scope.

(** ** Python values and exceptions *)

(** The dynamically typed values that reach the modelled functions. A float
    is kept opaque (by its bit pattern): no modelled function computes on
    one. *)
#[warnings="-register-all"]
Inductive pyval : Type :=
  | VNone
  | VBool (b : bool)
  | VInt (z : Z)
  | VFloat (bits : Z)
  | VStr (s : string)
  | VList (l : list pyval)
  | VTuple (l : list pyval)
  | VFun (name : string).

(** The exceptions the modelled code raises.  The specification names error
    kinds abstractly; the source raises these classes:
    - [AssertionError]: a failed [assert] (spec: InvalidArgument),
    - [PdfiumError]: spec AllocationError (in [from_raw]) and
      TranslationError (in [PdfPosConv]),
    - [RuntimeError]: spec PrecondReferenceError,
    - [AttributeError]: spec ImmutableStateError,
    - [KeyError], [ValueError], [TypeError]: raised by the Python runtime on a
      failed dictionary lookup, a bad value and a bad call.
    [NotModelled] is no Python exception: it marks a run that leaves the
    fragment of the runtime modelled here (the text of a float or of a
    container, arithmetic on floats). *)
Inductive exn : Type :=
  | AssertionError
  | PdfiumError (msg : string)
  | RuntimeError (msg : string)
  | AttributeError (msg : string)
  | KeyError (key : pyval)
  | ValueError
  | TypeError
  | NotModelled.

(** The error monad of functions without side effects. *)
Definition result (A : Type) : Type := exn + A.

Definition ret {A} (a : A) : result A := inr a.
Definition raise {A} (e : exn) : result A := inl e.
Definition rbind {A B} (m : result A) (k : A -> result B) : result B :=
  match m with
  | inl e => inl e
  | inr a => k a
  end.

Declare Scope result_scope.
Delimit Scope result_scope with result.
Notation "'let*' x ':=' m 'in' k" := (rbind m (fun x => k))
  (at level 10, x pattern, m at level 100, k at level 200) : result_scope.

(** [assert cond], as the interpreter runs it by default (assertions are
    stripped only under [-O]). *)
Definition py_assert (cond : bool) : result unit :=
  if cond then ret tt else raise AssertionError.

(** [isinstance(c, int)] together with the integer it denotes: [bool] is a
    subclass of [int] in Python, [True] is 1 and [False] is 0. *)
Definition as_int (c : pyval) : option Z :=
  match c with
  | VInt z => Some z
  | VBool b => Some (Z.b2z b)
  | _ => None
  end.

(** ** Strings of digits *)

(** [s[n:]] on a string. *)
Fixpoint str_drop (n : nat) (s : string) : string :=
  match n, s with
  | O, _ => s
  | S n', EmptyString => EmptyString
  | S n', String _ s' => str_drop n' s'
  end.

(** [hex(c)] of an integer: sign, the prefix [0x], lowercase digits. *)
Definition py_hex (c : Z) : string :=
  if c <? 0
  then ("-0x" ++ NilZero.string_of_uint (N.to_hex_uint (Z.to_N (- c))))%string
  else ("0x" ++ NilZero.string_of_uint (N.to_hex_uint (Z.to_N c)))%string.

(** [str(c)] of an integer. *)
Definition py_str_int (c : Z) : string :=
  DecimalString.NilZero.string_of_int (Z.to_int c).

(** The value of a digit character in bases up to 36. *)
Definition digit_val (c : ascii) : option Z :=
  let n := Z.of_nat (nat_of_ascii c) in
  if (48 <=? n) && (n <=? 57) then Some (n - 48)
  else if (97 <=? n) && (n <=? 122) then Some (n - 97 + 10)
  else if (65 <=? n) && (n <=? 90) then Some (n - 65 + 10)
  else None.

(** Digits of [s] in [base], most significant first, added onto [acc]. *)
Fixpoint parse_digits_from (base : Z) (acc : Z) (s : string) : option Z :=
  match s with
  | EmptyString => Some acc
  | String c s' =>
      match digit_val c with
      | Some d => if d <? base then parse_digits_from base (acc * base + d) s' else None
      | None => None
      end
  end.

Definition parse_digits (base : Z) (s : string) : option Z :=
  match s with
  | EmptyString => None
  | _ => parse_digits_from base 0 s
  end.

(** [int(s, 0)]: the base is read off the literal's prefix.  The fragment
    modelled is an optional sign followed by [0x], [0o] or [0b] and digits,
    or by a decimal literal (one without leading zeros, or zeros only);
    surrounding white space and underscores between digits, which Python
    also accepts, are not. *)
Definition parse_unsigned0 (s : string) : option Z :=
  match s with
  | String "0" (String p s') =>
      if (Ascii.eqb p "x" || Ascii.eqb p "X")%bool then parse_digits 16 s'
      else if (Ascii.eqb p "o" || Ascii.eqb p "O")%bool then parse_digits 8 s'
      else if (Ascii.eqb p "b" || Ascii.eqb p "B")%bool then parse_digits 2 s'
      else match parse_digits 10 s with
           | Some 0 => Some 0
           | _ => None
           end
  | String "0" EmptyString => Some 0
  | _ => parse_digits 10 s
  end.

Definition py_int_base0 (s : string) : result Z :=
  let r := match s with
           | String "-" s' => option_map Z.opp (parse_unsigned0 s')
           | String "+" s' => parse_unsigned0 s'
           | _ => parse_unsigned0 s
           end in
  match r with
  | Some z => ret z
  | None => raise ValueError
  end.

(** ** [_helpers/utilities.py] *)

Module Utilities.

(** [translate_rotation]. *)
Definition translate_rotation (rotation : Z) : result Z :=
  if rotation =? 0 then ret 0
  else if rotation =? 90 then ret 1
  else if rotation =? 180 then ret 2
  else if rotation =? 270 then ret 3
  else raise ValueError.

(** [_hex_digits]: [hex(c)] without its first two characters, padded to two
    digits when it has one. *)
Definition _hex_digits (c : Z) : string :=
  let hxc := str_drop 2 (py_hex c) in
  if Nat.eqb (String.length hxc) 1 then ("0" ++ hxc)%string else hxc.

(** The first loop of [colour_as_hex]: both assertions on every colour, in
    the order of the tuple.  It yields the integers the colours denote. *)
Fixpoint check_colours (colours : list pyval) : result (list Z) :=
  match colours with
  | [] => ret []
  | c :: rest =>
      match as_int c with
      | None => raise AssertionError
      | Some z =>
          (let* _ := py_assert ((0 <=? z) && (z <=? 255)) in
           let* zs := check_colours rest in
           ret (z :: zs))%result
      end
  end.

(** The second loop: the digits of every colour appended to [0x]. *)
Definition hxc_str_of (colours : list Z) : string :=
  fold_left (fun s c => (s ++ _hex_digits c)%string) colours "0x"%string.

Definition colour_as_hex (r g b a : pyval) : result Z :=
  let colours := [a; r; g; b] in
  (let* cs := check_colours colours in
   py_int_base0 (hxc_str_of cs))%result.

(** The call with [a] left at its default, 255. *)
Definition colour_as_hex_default (r g b : pyval) : result Z :=
  colour_as_hex r g b (VInt 255).

End Utilities.


(** ** [_helpers/bitmap.py] *)

Module Bitmap.

(** *** The native library and the tables of [pypdfium2.internal] *)

(** An [FPDF_BITMAP] handle and a buffer pointer are addresses; 0 is the
    null pointer, the one value of either that Python takes for false. *)
Definition handle : Type := Z.
Definition pointer : Type := Z.

(** A buffer object as the wrapper holds it.  A ctypes array's length is
    part of its type and a [bytes] object is immutable, so a buffer carries
    its length.
    - [PyArray id len]: a ctypes array or [bytes] object allocated by
      Python; its contents are object [id] of the Python heap;
    - [PtrView addr len]: the array [from_raw] obtains by casting a pointer
      returned by the library, a view of memory the library allocated. *)
Inductive cbuffer : Type :=
  | PyArray (id : nat) (len : Z)
  | PtrView (addr : pointer) (len : Z).

(** [len(buffer)]. *)
Definition buffer_len (b : cbuffer) : Z :=
  match b with
  | PyArray _ len => len
  | PtrView _ len => len
  end.

(** The five canvas arguments recorded on rendering:
    [(start_x, start_y, size_x, size_y, rotate)]. *)
Record PosArgs : Type := mkPosArgs {
  start_x : Z;
  start_y : Z;
  size_x : Z;
  size_y : Z;
  rotate : Z
}.

(** The functions of the native library ([pypdfium2.raw]) the module
    calls.  The library is foreign code: it is an interface here, with its
    own state, and the wrapper is modelled for every implementation of it.
    The getters and the two transforms read that state, creation and
    destruction change it.  A page reaches the library as the page object's
    handle; [None] is the null handle.  The two transforms return the
    library's [FPDF_BOOL] and what it left in the two output cells. *)
Class NativeLib : Type := {
  lib_state : Type;
  c_double : Type;
  FPDFBitmap_GetWidth : lib_state -> handle -> Z;
  FPDFBitmap_GetHeight : lib_state -> handle -> Z;
  FPDFBitmap_GetFormat : lib_state -> handle -> Z;
  FPDFBitmap_GetStride : lib_state -> handle -> Z;
  FPDFBitmap_GetBuffer : lib_state -> handle -> pointer;
  FPDFBitmap_CreateEx :
    lib_state -> Z -> Z -> Z -> option cbuffer -> Z -> handle * lib_state;
  FPDFBitmap_Create : lib_state -> Z -> Z -> bool -> handle * lib_state;
  FPDFBitmap_Destroy : lib_state -> handle -> lib_state;
  FPDF_DeviceToPage :
    lib_state -> option nat -> PosArgs -> Z -> Z -> Z * (c_double * c_double);
  FPDF_PageToDevice :
    lib_state -> option nat -> PosArgs -> c_double -> c_double -> Z * (Z * Z)
}.

(** The constant tables of [pypdfium2.internal] the module reads; the file
    that defines them is not among the sources, so they are parameters. *)
Class InternalTables : Type := {
  BitmapTypeToNChannels : gmap Z Z;
  BitmapTypeToStr : gmap Z string;
  BitmapTypeToStrReverse : gmap Z string;
  BitmapStrToConst : gmap string Z;
  BitmapStrReverseToConst : gmap string Z
}.

(** The operations of the imaging library (PIL) that [from_pil] uses, again
    an interface: [convert] and [merge] may raise, [split] gives the bands
    as images, and [im_tobytes] is the byte string that [tobytes()]
    serialises the pixel data to. *)
Class Pillow : Type := {
  image : Type;
  im_mode : image -> string;
  im_size : image -> Z * Z;
  im_convert : image -> string -> result image;
  im_split : image -> list image;
  im_merge : string -> list image -> result image;
  im_tobytes : image -> list Z
}.

Section Wrapper.

Context {L : NativeLib} {T : InternalTables} {P : Pillow}.

(** A call into the native library, as recorded in the trace. *)
Inductive call : Type :=
  | CGetWidth (raw : handle)
  | CGetHeight (raw : handle)
  | CGetFormat (raw : handle)
  | CGetStride (raw : handle)
  | CGetBuffer (raw : handle)
  | CCreateEx (width height format : Z) (buf : option cbuffer) (stride : Z)
  | CCreate (width height : Z) (use_alpha : bool)
  | CDestroy (raw : handle)
  | CDeviceToPage (page : option nat) (args : PosArgs) (bitmap_x bitmap_y : Z)
  | CPageToDevice (page : option nat) (args : PosArgs) (page_x page_y : c_double).

(** The state the wrapper runs in:
    - the native library's own state,
    - the trace of the native calls made so far, oldest first,
    - the Python heap: the contents of the buffers Python allocated, an
      object's identity being its index; the calls modelled here (creation,
      getters, destruction, transforms) do not write pixels, so the library
      is given a buffer's identity and not the heap,
    - the page objects that are alive (those a weak reference resolves). *)
Record World : Type := mkWorld {
  w_lib : lib_state;
  w_calls : list call;
  w_heap : list (list Z);
  w_pages : gset nat
}.

(** A computation reads and changes the world and returns or raises; a
    raised exception keeps the changes made before it. *)
Definition M (A : Type) : Type := World -> World * result A.

Definition mret {A} (a : A) : M A := fun w => (w, inr a).
Definition mraise {A} (e : exn) : M A := fun w => (w, inl e).
Definition mbind {A B} (m : M A) (k : A -> M B) : M B :=
  fun w =>
    match m w with
    | (w', inl e) => (w', inl e)
    | (w', inr a) => k a w'
    end.
Definition lift {A} (r : result A) : M A := fun w => (w, r).

Declare Scope world_scope.
Delimit Scope world_scope with world.
Notation "'let*' x ':=' m 'in' k" := (mbind m (fun x => k))
  (at level 10, x pattern, m at level 100, k at level 200) : world_scope.

(** A native call that only reads the library's state. *)
Definition native_read {A} (c : call) (f : lib_state -> A) : M A :=
  fun w =>
    (mkWorld (w_lib w) (w_calls w ++ [c]) (w_heap w) (w_pages w),
     inr (f (w_lib w))).

(** A native call that changes the library's state. *)
Definition native_call {A} (c : call) (f : lib_state -> A * lib_state) : M A :=
  fun w =>
    let '(a, s) := f (w_lib w) in
    (mkWorld s (w_calls w ++ [c]) (w_heap w) (w_pages w), inr a).

(** A new Python object with the given contents: its identity. *)
Definition py_alloc (bytes : list Z) : M nat :=
  fun w =>
    (mkWorld (w_lib w) (w_calls w) (w_heap w ++ [bytes]) (w_pages w),
     inr (length (w_heap w))).

(** [(ctypes.c_ubyte * n)()]: a new array of [n] zero bytes; ctypes refuses
    a negative length with a [ValueError].  The heap has no bound here: an
    interpreter that cannot serve the length raises [MemoryError] (or
    [OverflowError], past the range of an index), which is a failure of the
    machine and the one outcome of this expression the model leaves out. *)
Definition new_c_ubyte_array (n : Z) : M cbuffer :=
  if n <? 0 then mraise ValueError
  else (let* id := py_alloc (replicate (Z.to_nat n) 0) in
        mret (PyArray id n))%world.

(** [ctypes.cast(ptr, POINTER(c_ubyte * n)).contents]: the array type is
    built first, then the view. *)
Definition cast_contents (ptr : pointer) (n : Z) : M cbuffer :=
  if n <? 0 then mraise ValueError else mret (PtrView ptr n).

(** [d[k]] on a dictionary. *)
Definition py_getitem {K V} `{Countable K} (key : K -> pyval)
    (d : gmap K V) (k : K) : result V :=
  match d !! k with
  | Some v => ret v
  | None => raise (KeyError (key k))
  end.

(** *** [AutoCloseable] *)

(** The close function a class hands to its base class; [PdfBitmap] hands
    over [pdfium_c.FPDFBitmap_Destroy]. *)
Inductive close_func : Type :=
  | Close_FPDFBitmap_Destroy.

(** Modelled from the spec: the base class [AutoCloseable] of
    [pypdfium2.internal] is not among the sources.  The spec describes it
    as a thin finalizer object wrapping a raw library handle with a boolean
    needs-free flag, destruction dispatching on that flag: the close
    function the subclass registered is run on the handle when the flag is
    set, and nothing is released otherwise.  Its state is what the subclass
    passes to its constructor: the close function, the flag and the object
    the finalizer is tied to. *)
Record AutoCloseable : Type := mkAutoCloseable {
  ac_close_func : close_func;
  ac_needs_free : bool;
  ac_obj : cbuffer
}.

(** *** [PdfBitmap] *)

(** The attributes of a [PdfBitmap].  [_pos_args] is [None] or the tuple
    set on page rendering: a weak reference to the page (the identity of
    the page object it refers to) and the five canvas arguments. *)
Record PdfBitmap : Type := mkPdfBitmap {
  raw : handle;
  buffer : cbuffer;
  width : Z;
  height : Z;
  stride : Z;
  format : Z;
  rev_byteorder : bool;
  n_channels : Z;
  mode : string;
  _pos_args : option (nat * PosArgs);
  autoclose : AutoCloseable
}.

(** The [needs_free] argument the bitmap was constructed with. *)
Definition needs_free (bm : PdfBitmap) : bool := ac_needs_free (autoclose bm).

(** [PdfBitmap.__init__]. *)
Definition PdfBitmap_init (raw : handle) (buf : cbuffer)
    (width height stride format : Z) (rev_byteorder needs_free : bool)
    : result PdfBitmap :=
  (let* n_channels := py_getitem VInt BitmapTypeToNChannels format in
   let* mode :=
     py_getitem VInt
       (if rev_byteorder then BitmapTypeToStrReverse else BitmapTypeToStr)
       format in
   ret (mkPdfBitmap raw buf width height stride format rev_byteorder
          n_channels mode None
          (mkAutoCloseable Close_FPDFBitmap_Destroy needs_free buf)))%result.

(** [PdfBitmap.from_raw]; [ex_buffer] is [None] by default. *)
Definition from_raw (raw : handle) (rev_byteorder : bool)
    (ex_buffer : option cbuffer) : M PdfBitmap :=
  (let* width := native_read (CGetWidth raw) (fun s => FPDFBitmap_GetWidth s raw) in
   let* height := native_read (CGetHeight raw) (fun s => FPDFBitmap_GetHeight s raw) in
   let* format := native_read (CGetFormat raw) (fun s => FPDFBitmap_GetFormat s raw) in
   let* stride := native_read (CGetStride raw) (fun s => FPDFBitmap_GetStride s raw) in
   let* owned :=
     match ex_buffer with
     | None =>
         let* buffer_ptr :=
           native_read (CGetBuffer raw) (fun s => FPDFBitmap_GetBuffer s raw) in
         if buffer_ptr =? 0
         then mraise (PdfiumError "Failed to get bitmap buffer (null pointer returned)")
         else let* buf := cast_contents buffer_ptr (stride * height) in
              mret (true, buf)
     | Some ex => mret (false, ex)
     end in
   let (needs_free, buf) := owned : bool * cbuffer in
   lift (PdfBitmap_init raw buf width height stride format rev_byteorder needs_free))%world.

(** [PdfBitmap.new_native]; [buffer] and [stride] are [None] by default. *)
Definition new_native (width height format : Z) (rev_byteorder : bool)
    (buf : option cbuffer) (stride : option Z) : M PdfBitmap :=
  (let* bpc := lift (py_getitem VInt BitmapTypeToNChannels format) in
   let* stride :=
     match stride with
     | None => mret (width * bpc)
     | Some stride =>
         let* _ := lift (py_assert (width * bpc <=? stride)) in
         mret stride
     end in
   let* buf :=
     match buf with
     | None => new_c_ubyte_array (stride * height)
     | Some buf =>
         let* _ := lift (py_assert (stride * height <=? buffer_len buf)) in
         mret buf
     end in
   let* raw :=
     native_call (CCreateEx width height format (Some buf) stride)
       (fun s => FPDFBitmap_CreateEx s width height format (Some buf) stride) in
   from_raw raw rev_byteorder (Some buf))%world.

(** [PdfBitmap.new_foreign]; the table is read only when [force_packed]. *)
Definition new_foreign (width height format : Z) (rev_byteorder : bool)
    (force_packed : bool) : M PdfBitmap :=
  (let* stride :=
     if force_packed
     then let* bpc := lift (py_getitem VInt BitmapTypeToNChannels format) in
          mret (width * bpc)
     else mret 0 in
   let* raw :=
     native_call (CCreateEx width height format None stride)
       (fun s => FPDFBitmap_CreateEx s width height format None stride) in
   from_raw raw rev_byteorder None)%world.

(** [PdfBitmap.new_foreign_simple]. *)
Definition new_foreign_simple (width height : Z) (use_alpha : bool)
    (rev_byteorder : bool) : M PdfBitmap :=
  (let* raw :=
     native_call (CCreate width height use_alpha)
       (fun s => FPDFBitmap_Create s width height use_alpha) in
   from_raw raw rev_byteorder None)%world.

(** Modelled from the spec: [close], inherited from [AutoCloseable], is not
    among the sources.  The registered close function is run on the raw
    handle when the needs-free flag is set; the handle's destroy operation
    is what frees a buffer of the library.  With the flag clear nothing is
    released: the buffer belongs to Python and goes with ordinary scope
    rules. *)
Definition close (bm : PdfBitmap) : M unit :=
  if ac_needs_free (autoclose bm)
  then match ac_close_func (autoclose bm) with
       | Close_FPDFBitmap_Destroy =>
           native_call (CDestroy (raw bm))
             (fun s => (tt, FPDFBitmap_Destroy s (raw bm)))
       end
  else mret tt.

(** *** [from_pil] *)

(** ["A" in s]. *)
Fixpoint str_contains (c : ascii) (s : string) : bool :=
  match s with
  | EmptyString => false
  | String c' s' => Ascii.eqb c c' || str_contains c s'
  end.

(** [_pil_convert_for_pdfium]: the mode is brought to one the library
    supports, then the red and blue bands change places.  Unpacking
    [split()] into a fixed number of names raises [ValueError] when the
    count differs. *)
Definition _pil_convert_for_pdfium (pil_image : image) : result image :=
  (let* pil_image :=
     if String.eqb (im_mode pil_image) "1" then im_convert pil_image "L"
     else if String.prefix "RGB" (im_mode pil_image) then ret pil_image
     else if str_contains "A" (im_mode pil_image) then im_convert pil_image "RGBA"
     else im_convert pil_image "RGB" in
   if String.eqb (im_mode pil_image) "RGB" then
     match im_split pil_image with
     | [r; g; b] => im_merge "RGB" [b; g; r]
     | _ => raise ValueError
     end
   else if String.eqb (im_mode pil_image) "RGBA" then
     match im_split pil_image with
     | [r; g; b; a] => im_merge "RGBA" [b; g; r; a]
     | _ => raise ValueError
     end
   else if String.eqb (im_mode pil_image) "RGBX" then
     match im_split pil_image with
     | [r; g; b; x] => im_merge "RGBX" [b; g; r; x]
     | _ => raise ValueError
     end
   else ret pil_image)%result.

(** [pil_image.tobytes()]: a new [bytes] object holding the pixel data. *)
Definition tobytes (pil_image : image) : M cbuffer :=
  (let* id := py_alloc (im_tobytes pil_image) in
   mret (PyArray id (Z.of_nat (length (im_tobytes pil_image)))))%world.

(** [PdfBitmap.from_pil]. *)
Definition from_pil (pil_image : image) : M PdfBitmap :=
  (let* converted :=
     match BitmapStrToConst !! im_mode pil_image with
     | Some format => mret (pil_image, format)
     | None =>
         let* pil_image := lift (_pil_convert_for_pdfium pil_image) in
         let* format :=
           lift (py_getitem VStr BitmapStrReverseToConst (im_mode pil_image)) in
         mret (pil_image, format)
     end in
   let (pil_image, format) := converted : image * Z in
   let (w, h) := im_size pil_image in
   let* buf := tobytes pil_image in
   new_native w h format false (Some buf) None)%world.

(** *** [get_posconv] and [PdfPosConv] *)

(** A page argument is a page object, known by its identity, or [None]. *)
Definition page_ref : Type := option nat.

(** [bool(page)]: [None] is false.  The class of pages is not among the
    sources; a page object is taken to be true, as a Python object is
    unless its class defines [__bool__] or [__len__]. *)
Definition page_bool (page : page_ref) : bool :=
  match page with Some _ => true | None => false end.

(** Calling a weak reference: the object while it is alive, else [None]. *)
Definition weakref_call (ref : nat) : M page_ref :=
  fun w => (w, inr (if decide (ref ∈ w_pages w) then Some ref else None)).

(** [a is b] on page arguments. *)
Definition page_is (a b : page_ref) : bool := bool_decide (a = b).

Record PdfPosConv : Type := mkPdfPosConv {
  page : page_ref;
  pos_args : PosArgs
}.

(** [PdfPosConv.__init__]. *)
Definition PdfPosConv_init (page : page_ref) (pos_args : PosArgs)
    : result PdfPosConv :=
  (let* _ := py_assert (page_bool page) in
   ret (mkPdfPosConv page pos_args))%result.

(** [PdfBitmap.get_posconv]: [or] evaluates its second operand, the call of
    the weak reference, only when [_pos_args] is set. *)
Definition get_posconv (self : PdfBitmap) (page : page_ref) : M PdfPosConv :=
  match _pos_args self with
  | None => mraise (RuntimeError "This bitmap does not belong to the given page.")
  | Some (ref, args) =>
      (let* resolved := weakref_call ref in
       if negb (page_is resolved page)
       then mraise (RuntimeError "This bitmap does not belong to the given page.")
       else lift (PdfPosConv_init page args))%world
  end.

(** The value a [ctypes.c_int] cell reads back: a C [int] has 32 bits. *)
Definition c_int_value (v : Z) : Z := (v + 2 ^ 31) mod 2 ^ 32 - 2 ^ 31.

(** [PdfPosConv.to_page]. *)
Definition to_page (self : PdfPosConv) (bitmap_x bitmap_y : Z)
    : M (c_double * c_double) :=
  (let* r :=
     native_read (CDeviceToPage (page self) (pos_args self) bitmap_x bitmap_y)
       (fun s => FPDF_DeviceToPage s (page self) (pos_args self) bitmap_x bitmap_y) in
   let '(ok, (page_x, page_y)) := r in
   if ok =? 0
   then mraise (PdfiumError "Failed to translate to page coordinates.")
   else mret (page_x, page_y))%world.

(** [PdfPosConv.to_bitmap]. *)
Definition to_bitmap (self : PdfPosConv) (page_x page_y : c_double)
    : M (Z * Z) :=
  (let* r :=
     native_read (CPageToDevice (page self) (pos_args self) page_x page_y)
       (fun s => FPDF_PageToDevice s (page self) (pos_args self) page_x page_y) in
   let '(ok, (bitmap_x, bitmap_y)) := r in
   if ok =? 0
   then mraise (PdfiumError "Failed to translate to bitmap coordinates.")
   else mret (c_int_value bitmap_x, c_int_value bitmap_y))%world.

End Wrapper.

End Bitmap.

(** ** [_helpers/bitmap.py]: the views of the buffer *)

Module BitmapViews.

Import Bitmap.





(** The call of [PIL.Image.frombuffer] that [to_pil] makes, with the flag
    it sets on the image afterwards. *)
Record frombuffer_call : Type := mkFrombufferCall {
  fb_mode : string;
  fb_size : Z * Z;
  fb_data : cbuffer;
  fb_decoder : string;
  fb_rawmode : string;
  fb_stride : Z;
  fb_orientation : Z;
  fb_readonly : bool
}.

(** [PdfBitmap.to_pil]. *)
Definition to_pil {T : InternalTables} (self : PdfBitmap) : result frombuffer_call :=
  (let* dest_mode := py_getitem VInt BitmapTypeToStrReverse (format self) in
   ret (mkFrombufferCall dest_mode (width self, height self) (buffer self)
          "raw" (mode self) (stride self) 1 false))%result.

End BitmapViews.

(** ** [version.py] *)

Module Version.

(** *** The fragment of the Python object model the module relies on *)

(** The class bodies of the module; every class also inherits [object]. *)
Inductive class_name : Type :=
  | _version_interface
  | _version_pypdfium2
  | _version_pdfium.

(** The names each class body binds. *)
Definition class_defines (c : class_name) (name : string) : bool :=
  match c with
  | _version_interface =>
      bool_decide (name ∈ ["__init__"; "__repr__"; "_craft_tag"; "_craft_desc"]%string)
  | _version_pypdfium2 | _version_pdfium =>
      bool_decide (name ∈ ["_FILE"; "_TAG_FIELDS"; "_hook"]%string)
  end.

(** The method resolution order of a class, [object] left out. *)
Definition mro (c : class_name) : list class_name :=
  match c with
  | _version_interface => [_version_interface]
  | _version_pypdfium2 => [_version_pypdfium2; _version_interface]
  | _version_pdfium => [_version_pdfium; _version_interface]
  end.

(** The first class of the resolution order that binds [name]. *)
Definition type_lookup (c : class_name) (name : string) : option class_name :=
  List.find (fun k => class_defines k name) (mro c).

(** The value of a class attribute: a method is a function object, known by
    its name; [_FILE] is a path, kept as its last component. *)
Definition class_attr (c : class_name) (name : string) : option pyval :=
  match type_lookup c name with
  | None => None
  | Some k =>
      if String.eqb name "_TAG_FIELDS" then
        match k with
        | _version_pdfium =>
            Some (VTuple [VStr "major"; VStr "minor"; VStr "build"; VStr "patch"])
        | _ => Some (VTuple [VStr "major"; VStr "minor"; VStr "patch"])
        end
      else if String.eqb name "_FILE" then Some (VStr "version.json")
      else Some (VFun name)
  end.

(** An instance: its class and its [__dict__]. *)
Record instance : Type := mkInstance {
  inst_class : class_name;
  inst_dict : gmap string pyval
}.

(** [o.__dict__[name] = value]: the instance with one more entry. *)
Definition dict_store (o : instance) (name : string) (value : pyval)
    : instance :=
  mkInstance (inst_class o) (<[name := value]> (inst_dict o)).

(** The data descriptors the type of an instance has.  The classes have no
    [__slots__] and bind no descriptor of their own, so these are the three
    Python gives every such class: [__class__], from [object], and
    [__dict__] and [__weakref__]. *)
Definition data_descriptors : list string :=
  ["__class__"; "__dict__"; "__weakref__"]%string.

(** [object.__setattr__]: a data descriptor of the type takes the
    assignment, any other name goes to the instance dictionary.
    [__class__] accepts a class only and [__dict__] a dictionary only; no
    value here is either (a descriptor value that is a JSON object is
    outside [pyval]), so both raise [TypeError].  [__weakref__] is not
    writable: [AttributeError], which carries the name. *)
Definition object_setattr (o : instance) (name : string) (value : pyval)
    : result instance :=
  if String.eqb name "__class__" then raise TypeError
  else if String.eqb name "__dict__" then raise TypeError
  else if String.eqb name "__weakref__" then raise (AttributeError name)
  else ret (dict_store o name value).

(** The statement [o.name = value] and the builtin [setattr(o, name,
    value)].  Python runs [type(o).__setattr__(o, name, value)]: a special
    method is looked up on the type, along its resolution order, and not in
    the dictionary of the instance (Python Language Reference, Special
    method lookup).  When no class of the order binds [__setattr__] the
    lookup ends at [object]. A class-level hook, which none of the classes
    here has, would run in the other branch. *)
Definition py_setattr (o : instance) (name : string) (value : pyval)
    : result instance :=
  match type_lookup (inst_class o) "__setattr__" with
  | None => object_setattr o name value
  | Some _ => raise NotModelled
  end.

(** [o.name]: the instance dictionary, then the classes; the
    [AttributeError] for a name found in neither carries the name. *)
Definition py_getattr (o : instance) (name : string) : result pyval :=
  match inst_dict o !! name with
  | Some v => ret v
  | None =>
      match class_attr (inst_class o) name with
      | Some v => ret v
      | None => raise (AttributeError name)
      end
  end.

(** [str(v)], also what an f-string and [%s] insert. *)
Definition py_str (v : pyval) : result string :=
  match v with
  | VNone => ret "None"%string
  | VBool true => ret "True"%string
  | VBool false => ret "False"%string
  | VInt z => ret (py_str_int z)
  | VStr s => ret s
  | _ => raise NotModelled
  end.

(** [bool(v)]. A float is false when it is a zero of either sign. *)
Definition py_truthy (v : pyval) : bool :=
  match v with
  | VNone => false
  | VBool b => b
  | VInt z => negb (z =? 0)
  | VFloat bits => negb ((bits =? 0) || (bits =? 2 ^ 63))
  | VStr s => negb (String.eqb s "")
  | VList l | VTuple l => match l with [] => false | _ => true end
  | VFun _ => true
  end.

(** [v > 0]. *)
Definition py_gt_zero (v : pyval) : result bool :=
  match v with
  | VInt z => ret (0 <? z)
  | VBool b => ret b
  | VFloat _ => raise NotModelled
  | _ => raise TypeError
  end.

(** [v != s] for a string [s]. *)
Definition py_ne_str (v : pyval) (s : string) : bool :=
  match v with
  | VStr s' => negb (String.eqb s' s)
  | _ => true
  end.

(** [a + b] where it is used, on strings; other pairs of values that Python
    can add are left out. *)
Definition py_add (a b : pyval) : result pyval :=
  match a, b with
  | VStr x, VStr y => ret (VStr (x ++ y))
  | VStr _, _ | _, VStr _ => raise TypeError
  | VNone, _ | _, VNone => raise TypeError
  | _, _ => raise NotModelled
  end.

(** The items an iteration yields. *)
Definition py_iter (v : pyval) : result (list pyval) :=
  match v with
  | VList l | VTuple l => ret l
  | VStr s => ret (map (fun c => VStr (String c EmptyString)) (list_ascii_of_string s))
  | _ => raise TypeError
  end.

(** Every element through [f], left to right, up to the first that raises. *)
Fixpoint mapM {A B} (f : A -> result B) (l : list A) : result (list B) :=
  match l with
  | [] => ret []
  | x :: l' =>
      (let* y := f x in
       let* ys := mapM f l' in
       ret (y :: ys))%result
  end.

(** [sep.join(items)]: every item has to be a string. *)
Definition py_join (sep : string) (items : list pyval) : result string :=
  (let* strs :=
     mapM (fun v => match v with VStr s => ret s | _ => raise TypeError end) items in
   ret (String.concat sep strs))%result.

(** [data[k]] on the dictionary [json.load] returned, given by its items. *)
Definition data_getitem (data : list (string * pyval)) (k : pyval)
    : result pyval :=
  match k with
  | VStr s =>
      match List.find (fun kv => String.eqb (fst kv) s) data with
      | Some kv => ret (snd kv)
      | None => raise (KeyError k)
      end
  | VList _ => raise TypeError
  | _ => raise (KeyError k)
  end.

(** A method call [self.name(...)]: the attribute is looked up as any
    other, and has to be the function of that name that the class binds. *)
Definition get_method (self : instance) (name : string) : result unit :=
  (let* f := py_getattr self name in
   match f with
   | VFun name' => if String.eqb name' name then ret tt else raise NotModelled
   | _ => raise TypeError
   end)%result.

(** [self.name += text] for a string [text]. *)
Definition append_attr (self : instance) (name : string) (text : string)
    : result instance :=
  (let* old := py_getattr self name in
   let* new := py_add old (VStr text) in
   py_setattr self name new)%result.

(** *** The classes *)

(** [_version_interface._craft_tag]. *)
Definition _craft_tag (self : instance) : result pyval :=
  (let* api_tag := py_getattr self "api_tag" in
   let* items := py_iter api_tag in
   let* strs := mapM py_str items in
   ret (VStr (String.concat "." strs)))%result.

(** [_version_interface._craft_desc]; [suffix] is [[]] by default. *)
Definition _craft_desc (self : instance) (suffix : list string) : result pyval :=
  (let* n_commits := py_getattr self "n_commits" in
   let* positive := py_gt_zero n_commits in
   let* local_ver :=
     if positive : bool then
       let* n_commits := py_getattr self "n_commits" in
       let* s1 := py_str n_commits in
       let* hash := py_getattr self "hash" in
       let* s2 := py_str hash in
       ret [s1; s2]
     else ret [] in
   let local_ver := local_ver ++ suffix in
   ret (VStr match local_ver with
             | [] => ""
             | _ => "+" ++ String.concat "." local_ver
             end))%result.

(** [_version_pypdfium2._hook]. *)
Definition _hook_pypdfium2 (self : instance) : result instance :=
  (let* _ := get_method self "_craft_tag" in
   let* tag := _craft_tag self in
   let* self := py_setattr self "tag" tag in
   let* beta := py_getattr self "beta" in
   let* self :=
     match beta with
     | VNone => ret self
     | _ => let* b := py_str beta in append_attr self "tag" ("b" ++ b)
     end in
   let* dirty := py_getattr self "dirty" in
   let suffix := if py_truthy dirty then ["dirty"%string] else [] in
   let* _ := get_method self "_craft_desc" in
   let* desc := _craft_desc self suffix in
   let* self := py_setattr self "desc" desc in
   let* data_source := py_getattr self "data_source" in
   let* self :=
     if py_ne_str data_source "git"
     then let* text := py_str data_source in append_attr self "desc" (":" ++ text)
     else ret self in
   let* is_editable := py_getattr self "is_editable" in
   if py_truthy is_editable then append_attr self "desc" "@editable"
   else ret self)%result.

(** [_version_pdfium._hook]. *)
Definition _hook_pdfium (self : instance) : result instance :=
  (let* flags := py_getattr self "flags" in
   let* items := py_iter flags in
   let* self := py_setattr self "flags" (VTuple items) in
   let* _ := get_method self "_craft_tag" in
   let* tag := _craft_tag self in
   let* self := py_setattr self "tag" tag in
   let* _ := get_method self "_craft_desc" in
   let* desc := _craft_desc self [] in
   let* self := py_setattr self "desc" desc in
   let* flags := py_getattr self "flags" in
   let* self :=
     if py_truthy flags then
       let* items := py_iter flags in
       let* joined := py_join "," items in
       append_attr self "desc" (":{" ++ joined ++ "}")
     else ret self in
   let* origin := py_getattr self "origin" in
   if py_ne_str origin "pdfium-binaries"
   then let* text := py_str origin in append_attr self "desc" ("@" ++ text)
   else ret self)%result.

(** [self._hook()], dispatched on the class; the base class has none. *)
Definition call_hook (self : instance) : result instance :=
  (let* _ := get_method self "_hook" in
   match inst_class self with
   | _version_pypdfium2 => _hook_pypdfium2 self
   | _version_pdfium => _hook_pdfium self
   | _version_interface => raise NotModelled
   end)%result.

(** The nested function [frozen_setattr]: it raises whatever it is given. *)
Definition frozen_setattr (self : instance) (name : string) (value : pyval)
    : result instance :=
  (let* text := py_str value in
   raise (AttributeError
            ("Version class is immutable - assignment '" ++ name ++ " = "
               ++ text ++ "' not allowed")))%result.

(** The loop [for k, v in data.items(): setattr(self, k, v)]. *)
Fixpoint set_items (self : instance) (items : list (string * pyval))
    : result instance :=
  match items with
  | [] => ret self
  | (k, v) :: rest =>
      (let* self := py_setattr self k v in set_items self rest)%result
  end.

(** [_version_interface.__init__] on a new instance of class [c]; [data] is
    what [json.load] read from the descriptor file, as the items of the
    dictionary in order. *)
Definition __init__ (c : class_name) (data : list (string * pyval))
    : result instance :=
  (let self := mkInstance c ∅ in
   let* self := set_items self data in
   let* tag_fields := py_getattr self "_TAG_FIELDS" in
   let* keys := py_iter tag_fields in
   let* api_tag := mapM (data_getitem data) keys in
   let* self := py_setattr self "api_tag" (VTuple api_tag) in
   let* self := call_hook self in
   let* tag := py_getattr self "tag" in
   let* desc := py_getattr self "desc" in
   let* version := py_add tag desc in
   let* self := py_setattr self "version" version in
   py_setattr self "__setattr__" (VFun "frozen_setattr"))%result.

(** [PYPDFIUM_INFO] and [PDFIUM_INFO], for the contents of the two files. *)
Definition PYPDFIUM_INFO (data : list (string * pyval)) : result instance :=
  __init__ _version_pypdfium2 data.

Definition PDFIUM_INFO (data : list (string * pyval)) : result instance :=
  __init__ _version_pdfium data.

(** A descriptor of the wrapper and one of the library, as shipped. *)
Definition pypdfium2_json : list (string * pyval) :=
  [("major", VInt 4); ("minor", VInt 30); ("patch", VInt 0);
   ("beta", VNone); ("n_commits", VInt 0); ("hash", VNone);
   ("dirty", VBool false); ("data_source", VStr "git");
   ("is_editable", VBool false)]%string.

Definition pdfium_json : list (string * pyval) :=
  [("major", VInt 127); ("minor", VInt 0); ("build", VInt 6517);
   ("patch", VInt 0); ("n_commits", VInt 0); ("hash", VNone);
   ("origin", VStr "pdfium-binaries"); ("flags", VList [])]%string.

End Version.

(** ** [platform_setup/build_pdfium.py] *)

Module BuildPdfium.

(** The double quote and the line feed, as strings of one character. *)
Definition dquote : string := String (ascii_of_nat 34) EmptyString.
Definition newline : string := String (ascii_of_nat 10) EmptyString.

(** *** The build configuration *)

(** A Python dictionary with string keys, by its items in the order of
    insertion; the keys are distinct. *)
Definition dict : Type := list (string * pyval).

(** [d[k]], as an option. *)
Fixpoint dict_get (d : dict) (k : string) : option pyval :=
  match d with
  | [] => None
  | (k', v) :: rest => if String.eqb k' k then Some v else dict_get rest k
  end.

(** [d[k] = v]: the value of an existing key is replaced where it stands,
    a new key goes to the end. *)
Fixpoint dict_set (d : dict) (k : string) (v : pyval) : dict :=
  match d with
  | [] => [(k, v)]
  | (k', v') :: rest =>
      if String.eqb k' k then (k, v) :: rest else (k', v') :: dict_set rest k v
  end.

(** [d.update(u)]: the items of [u] are set one after the other. *)
Definition dict_update (d u : dict) : dict :=
  fold_left (fun d kv => dict_set d (fst kv) (snd kv)) u d.

(** [DefaultConfig], as the module leaves it for the value of
    [sys.platform]. *)
Definition DefaultConfig (platform : string) : dict :=
  let base : dict :=
    [("is_debug", VBool false);
     ("treat_warnings_as_errors", VBool false);
     ("pdf_is_standalone", VBool true);
     ("pdf_enable_v8", VBool false);
     ("pdf_enable_xfa", VBool false);
     ("pdf_use_skia", VBool false)]%string in
  if String.prefix "linux" platform
  then dict_set base "use_custom_libcxx" (VBool true)
  else if String.prefix "win32" platform
  then dict_set base "pdf_use_win32_gdi" (VBool true)
  else if String.prefix "darwin" platform
  then dict_set base "mac_deployment_target" (VStr "10.11.0")
  else base.

(** [NativebuildConfig]. *)
Definition NativebuildConfig : dict :=
  [("clang_use_chrome_plugins", VBool false)]%string.

(** [SyslibsConfig], likewise for the value of [sys.platform]. *)
Definition SyslibsConfig (platform : string) : dict :=
  let base : dict :=
    [("use_system_freetype", VBool true);
     ("use_system_lcms2", VBool true);
     ("use_system_libjpeg", VBool true);
     ("use_system_libopenjpeg2", VBool true);
     ("use_system_libpng", VBool true);
     ("use_system_zlib", VBool true);
     ("sysroot", VStr "/")]%string in
  if String.prefix "linux" platform
  then dict_set base "use_custom_libcxx" (VBool false)
  else if String.prefix "darwin" platform
  then dict_set base "use_system_xcode" (VBool true)
  else base.

(** The text of a value in [_create_config_str]: [str(value).lower()] for
    a [bool], [str(value)] between double quotes for anything else. *)
Definition config_value (value : pyval) : result string :=
  match value with
  | VBool b => ret (if b then "true" else "false")%string
  | _ =>
      (let* text := Version.py_str value in
       ret (dquote ++ text ++ dquote)%string)%result
  end.

(** The loop of [_create_config_str], with its two variables. *)
Fixpoint config_loop (items : dict) (config_str sep : string) : result string :=
  match items with
  | [] => ret config_str
  | (key, value) :: rest =>
      let config_str := (config_str ++ (sep ++ (key ++ " = ")))%string in
      (let* text := config_value value in
       config_loop rest (config_str ++ text)%string newline)%result
  end.

(** [_create_config_str]. *)
Definition _create_config_str (config_dict : dict) : result string :=
  config_loop config_dict "" "".

(** The dictionary [main] builds when no argument file is given. *)
Definition main_config_dict (platform : string)
    (b_nativebuild b_use_syslibs : bool) : dict :=
  let config_dict := DefaultConfig platform in
  let config_dict :=
    if b_nativebuild then dict_update config_dict NativebuildConfig
    else config_dict in
  if b_use_syslibs then dict_update config_dict (SyslibsConfig platform)
  else config_dict.

(** The configuration text of [main]: [b_argfile] is the content of the
    argument file when one was given. *)
Definition main_config_str (platform : string) (b_argfile : option string)
    (b_nativebuild b_use_syslibs : bool) : result string :=
  match b_argfile with
  | None => _create_config_str (main_config_dict platform b_nativebuild b_use_syslibs)
  | Some content => ret content
  end.

(** *** [find_lib] *)

Section FindLib.

(** [os.path.join] of the platform on two components, the test
    [os.path.isfile] on the file system as it is during the call, and two
    constants: [Libnames] of [platform_setup.packaging_base], which is not
    among the sources, and [PDFiumBuildDir], which is built from a
    directory of that module. *)
Variable join : string -> string -> string.
Variable isfile : string -> bool.
Variable Libnames : list string.
Variable PDFiumBuildDir : string.

(** The loop over [Libnames]: it has no [break], so the last name that is
    a file is the one kept. *)
Definition search_libnames (directory : string) : option string :=
  fold_left
    (fun libpath lname =>
       let path := join directory lname in
       if isfile path then Some path else libpath)
    Libnames None.

(** [find_lib]: what it printed on the standard error and what it
    returned or raised. *)
Definition find_lib (srcname : option string) (directory : string)
    : list string * result string :=
  let search (printed : list string) : list string * result string :=
    match search_libnames directory with
    | None => (printed, raise (RuntimeError "Build artifact not found."))
    | Some libpath => (printed, ret libpath)
    end in
  match srcname with
  | Some name =>
      let path := join PDFiumBuildDir name in
      if isfile path then ([], ret path)
      else search ["Warning: The file of given srcname does not exist."%string]
  | None => search []
  end.

End FindLib.

End BuildPdfium.

(** ** Reference implementations of the interfaces

    A small native library, the tables and a small imaging library, on which
    the embedding runs on concrete inputs. *)

Module Reference.

Import Bitmap.

(** A bitmap of the reference library: what it was created with, its buffer
    address, whether the library allocated the buffer and whether the
    bitmap has been destroyed. *)
Record bitmap_rec : Type := mkBitmapRec {
  r_width : Z;
  r_height : Z;
  r_format : Z;
  r_stride : Z;
  r_buffer : pointer;
  r_owned : bool;
  r_destroyed : bool
}.

(** The bitmap behind a handle: handle [n] is the [n]-th bitmap created. *)
Definition ref_lookup (s : list bitmap_rec) (raw : handle) : option bitmap_rec :=
  if raw <=? 0 then None else s !! Z.to_nat (raw - 1).

Definition ref_get (f : bitmap_rec -> Z) (s : list bitmap_rec) (raw : handle) : Z :=
  match ref_lookup s raw with
  | Some r => f r
  | None => 0
  end.

Definition ref_channels (format : Z) : Z :=
  if format =? 1 then 1 else if format =? 2 then 3
  else if (format =? 3) || (format =? 4) then 4 else 0.

(** Creation fails, with a null handle, on an empty size or an unknown
    format.  A buffer of the library gets an address of its own; a stride
    of 0 lets the library pad each line to a multiple of four bytes. *)
Definition ref_create_ex (s : list bitmap_rec) (width height format : Z)
    (buf : option cbuffer) (stride : Z) : handle * list bitmap_rec :=
  if (width <=? 0) || (height <=? 0) || (ref_channels format =? 0)
  then (0, s)
  else
    let raw := Z.of_nat (length s) + 1 in
    let stride :=
      match buf with
      | None => if stride =? 0 then (width * ref_channels format + 3) / 4 * 4 else stride
      | Some _ => stride
      end in
    let ptr :=
      match buf with
      | None => 4096 * raw
      | Some (PyArray id _) => 16 * (Z.of_nat id + 1) + 1
      | Some (PtrView addr _) => addr
      end in
    (raw, s ++ [mkBitmapRec width height format stride ptr
                  (match buf with None => true | Some _ => false end) false]).

Definition ref_create (s : list bitmap_rec) (width height : Z) (use_alpha : bool)
    : handle * list bitmap_rec :=
  ref_create_ex s width height (if use_alpha then 4 else 3) None (width * 4).

Definition ref_destroy (s : list bitmap_rec) (raw : handle) : list bitmap_rec :=
  match ref_lookup s raw with
  | Some r =>
      <[Z.to_nat (raw - 1) :=
          mkBitmapRec (r_width r) (r_height r) (r_format r) (r_stride r)
            (r_buffer r) (r_owned r) true]> s
  | None => s
  end.

(** The transforms of the reference library work on whole numbers and know
    no rotation: a translation and a flip of the vertical axis, refused on
    a null page or an empty canvas. *)
Definition ref_transform_ok (page : option nat) (a : PosArgs) : Z :=
  match page with
  | None => 0
  | Some _ => if (size_x a <=? 0) || (size_y a <=? 0) then 0 else 1
  end.

Definition ref_device_to_page (s : list bitmap_rec) (page : option nat)
    (a : PosArgs) (x y : Z) : Z * (Z * Z) :=
  (ref_transform_ok page a, (x - start_x a, size_y a - 1 - (y - start_y a))).

Definition ref_page_to_device (s : list bitmap_rec) (page : option nat)
    (a : PosArgs) (x y : Z) : Z * (Z * Z) :=
  (ref_transform_ok page a, (x + start_x a, size_y a - 1 - y + start_y a)).

Definition RefLib : NativeLib := {|
  lib_state := list bitmap_rec;
  c_double := Z;
  FPDFBitmap_GetWidth := ref_get r_width;
  FPDFBitmap_GetHeight := ref_get r_height;
  FPDFBitmap_GetFormat := ref_get r_format;
  FPDFBitmap_GetStride := ref_get r_stride;
  FPDFBitmap_GetBuffer := ref_get r_buffer;
  FPDFBitmap_CreateEx := ref_create_ex;
  FPDFBitmap_Create := ref_create;
  FPDFBitmap_Destroy := ref_destroy;
  FPDF_DeviceToPage := ref_device_to_page;
  FPDF_PageToDevice := ref_page_to_device
|}.

(** The tables as [pypdfium2.internal] has them for the four formats of the
    library: gray (1), BGR (2), BGRx (3) and BGRA (4). *)
Definition RefTables : InternalTables := {|
  BitmapTypeToNChannels := list_to_map [(1, 1); (2, 3); (3, 4); (4, 4)];
  BitmapTypeToStr :=
    list_to_map [(1, "L"); (2, "BGR"); (3, "BGRX"); (4, "BGRA")]%string;
  BitmapTypeToStrReverse :=
    list_to_map [(1, "L"); (2, "RGB"); (3, "RGBX"); (4, "RGBA")]%string;
  BitmapStrToConst :=
    list_to_map [("L", 1); ("BGR", 2); ("BGRX", 3); ("BGRA", 4)]%string;
  BitmapStrReverseToConst :=
    list_to_map [("L", 1); ("RGB", 2); ("RGBX", 3); ("RGBA", 4)]%string
|}.

(** An image of the reference imaging library: its mode, its size and its
    bands, each a list of one byte per pixel. *)
Record ref_image : Type := mkRefImage {
  ri_mode : string;
  ri_size : Z * Z;
  ri_bands : list (list Z)
}.

Definition ref_band_count (mode : string) : nat :=
  if String.eqb mode "RGB" then 3%nat
  else if String.eqb mode "RGBA" || String.eqb mode "RGBX" then 4%nat
  else 1%nat.

(** A conversion keeps the bands it can and fills up with the first one. *)
Definition ref_convert (im : ref_image) (mode : string) : result ref_image :=
  ret (mkRefImage mode (ri_size im)
         (take (ref_band_count mode)
            (ri_bands im ++ replicate (ref_band_count mode) (hd [] (ri_bands im))))).

Definition ref_split (im : ref_image) : list ref_image :=
  map (fun band => mkRefImage "L" (ri_size im) [band]) (ri_bands im).

Definition ref_merge (mode : string) (bands : list ref_image) : result ref_image :=
  match bands with
  | [] => raise ValueError
  | first :: _ =>
      if Nat.eqb (length bands) (ref_band_count mode)
      then ret (mkRefImage mode (ri_size first)
                  (map (fun im => hd [] (ri_bands im)) bands))
      else raise ValueError
  end.

(** The bytes of [n] pixels, band after band within each pixel. *)
Fixpoint ref_interleave (n : nat) (bands : list (list Z)) : list Z :=
  match n with
  | O => []
  | S n' => map (hd 0) bands ++ ref_interleave n' (map (fun b => tl b) bands)
  end.

Definition ref_tobytes (im : ref_image) : list Z :=
  ref_interleave (Z.to_nat (fst (ri_size im) * snd (ri_size im))) (ri_bands im).

Definition RefPillow : Pillow := {|
  image := ref_image;
  im_mode := ri_mode;
  im_size := ri_size;
  im_convert := ref_convert;
  im_split := ref_split;
  im_merge := ref_merge;
  im_tobytes := ref_tobytes
|}.

(** The world before anything has run, with the given pages alive. *)
Definition world0 (pages : gset nat) : @World RefLib :=
  mkWorld (L := RefLib) [] [] [] pages.

(** A two by one image in RGB: a red pixel and a blue pixel. *)
Definition red_blue : ref_image :=
  mkRefImage "RGB" (2, 1) [[255; 0]; [0; 0]; [0; 255]].

(** The bitmap [from_pil] makes of [red_blue] in the empty world, and the
    world it leaves. *)
Definition red_blue_bitmap : PdfBitmap :=
  mkPdfBitmap 1 (PyArray 0 6) 2 1 6 2 false 3 "BGR" None
    (mkAutoCloseable Close_FPDFBitmap_Destroy false (PyArray 0 6)).

Definition red_blue_world : @World RefLib :=
  mkWorld (L := RefLib)
    [mkBitmapRec 2 1 2 6 17 false false]
    [CCreateEx 2 1 2 (Some (PyArray 0 6)) 6;
     CGetWidth 1; CGetHeight 1; CGetFormat 1; CGetStride 1]
    [[0; 0; 255; 255; 0; 0]] ∅.

(** The bitmap [new_foreign 3 3 2 True False] makes in the empty world, and
    the world it leaves. *)
Definition foreign_bitmap : PdfBitmap :=
  mkPdfBitmap 1 (PtrView 4096 36) 3 3 12 2 true 3 "RGB" None
    (mkAutoCloseable Close_FPDFBitmap_Destroy true (PtrView 4096 36)).

Definition foreign_world : @World RefLib :=
  mkWorld (L := RefLib)
    [mkBitmapRec 3 3 2 12 4096 true false]
    [CCreateEx 3 3 2 None 0;
     CGetWidth 1; CGetHeight 1; CGetFormat 1; CGetStride 1; CGetBuffer 1]
    [] ∅.

(** A bitmap as page 7 leaves it after rendering onto a canvas of 20 by 30
    at the origin: the native bitmap with its render parameters recorded. *)
Definition canvas : PosArgs := mkPosArgs 0 0 20 30 0.

Definition rendered_bitmap : PdfBitmap :=
  mkPdfBitmap 1 (PyArray 0 2400) 20 30 80 4 false 4 "BGRA" (Some (7%nat, canvas))
    (mkAutoCloseable Close_FPDFBitmap_Destroy false (PyArray 0 2400)).

End Reference.

(** ** Vocabulary of the statements *)

(** The character of a hexadecimal digit, lowercase. *)
Definition hex_char (d : Z) : ascii :=
  ascii_of_nat (Z.to_nat (if d <? 10 then 48 + d else 87 + d)).

(** A colour the assertions let through. *)
Definition valid_colour (c : pyval) : bool :=
  match as_int c with
  | Some z => (0 <=? z) && (z <=? 255)
  | None => false
  end.

(** The record a descriptor constructs, or an empty instance when the
    construction raises. *)
Definition constructed (r : result Version.instance) : Version.instance :=
  match r with
  | inr o => o
  | inl _ => Version.mkInstance Version._version_interface ∅
  end.

Section BitmapVocabulary.

Import Bitmap.

Context {L : NativeLib} {T : InternalTables}.

(** A call of one of the four constructors of [PdfBitmap]. *)
Inductive ctor_call : Type :=
  | FromRaw (raw : handle) (rev_byteorder : bool) (ex_buffer : option cbuffer)
  | NewNative (width height format : Z) (rev_byteorder : bool)
      (buf : option cbuffer) (stride : option Z)
  | NewForeign (width height format : Z) (rev_byteorder force_packed : bool)
  | NewForeignSimple (width height : Z) (use_alpha rev_byteorder : bool).

Definition run_ctor (c : ctor_call) : M PdfBitmap :=
  match c with
  | FromRaw raw rev ex => from_raw raw rev ex
  | NewNative width height format rev buf stride =>
      new_native width height format rev buf stride
  | NewForeign width height format rev packed =>
      new_foreign width height format rev packed
  | NewForeignSimple width height alpha rev =>
      new_foreign_simple width height alpha rev
  end.

(** Whether the buffer of the bitmap a call makes is one the rendering
    library allocated: [from_raw] was given no external buffer, or the
    bitmap is a foreign one. *)
Definition library_allocated (c : ctor_call) : bool :=
  match c with
  | FromRaw _ _ None => true
  | FromRaw _ _ (Some _) => false
  | NewNative _ _ _ _ _ _ => false
  | NewForeign _ _ _ _ _ => true
  | NewForeignSimple _ _ _ _ => true
  end.

(** The buffer the caller handed to the constructor, if any. *)
Definition external_buffer (c : ctor_call) : option cbuffer :=
  match c with
  | FromRaw _ _ ex => ex
  | NewNative _ _ _ _ buf _ => buf
  | NewForeign _ _ _ _ _ => None
  | NewForeignSimple _ _ _ _ => None
  end.

(** The world after one more native call [c] that left the library in
    state [s]. *)
Definition after_call (w : World) (c : call) (s : lib_state) : World :=
  mkWorld s (w_calls w ++ [c]) (w_heap w) (w_pages w).

(** The world after the four getters of [from_raw] have run. *)
Definition after_getters (w : World) (raw : handle) : World :=
  mkWorld (w_lib w)
    (w_calls w ++ [CGetWidth raw; CGetHeight raw; CGetFormat raw; CGetStride raw])
    (w_heap w) (w_pages w).

(** The world after Python has allocated one more object. *)
Definition heap_grown (w : World) (bytes : list Z) : World :=
  mkWorld (w_lib w) (w_calls w) (w_heap w ++ [bytes]) (w_pages w).

(** The library honours a creation: the handle it returns reports the
    size, the format and the stride it was created with. *)
Definition creation_reported (s : lib_state) (width height format : Z)
    (buf : option cbuffer) (stride : Z) : Prop :=
  let (raw, s') := FPDFBitmap_CreateEx s width height format buf stride in
  FPDFBitmap_GetWidth s' raw = width /\
  FPDFBitmap_GetHeight s' raw = height /\
  FPDFBitmap_GetFormat s' raw = format /\
  FPDFBitmap_GetStride s' raw = stride.

(** The image whose pixel data [from_pil] takes: the image itself when the
    tables know its mode, else its conversion. *)
Definition pil_source {P : Pillow} (pil_image : image) : result image :=
  match BitmapStrToConst !! im_mode pil_image with
  | Some _ => ret pil_image
  | None => _pil_convert_for_pdfium pil_image
  end.

(** The stride [new_native] settles on. *)
Definition resolved_stride (width bpc : Z) (stride : option Z) : Z :=
  match stride with
  | Some stride => stride
  | None => width * bpc
  end.

End BitmapVocabulary.

(** ** Vocabulary of the further properties *)

Section VersionVocabulary.

Import Version.

(** A field that may be [None]. *)
Definition opt_val {A} (f : A -> pyval) (o : option A) : pyval :=
  match o with
  | Some a => f a
  | None => VNone
  end.

(** A descriptor of the wrapper, with the fields and the types that the
    documentation of [PYPDFIUM_INFO] lists. *)
Definition pypdfium2_descriptor (major minor patch : Z) (beta : option Z)
    (n_commits : Z) (hash : option string) (dirty : bool)
    (data_source : string) (is_editable : option bool)
    : list (string * pyval) :=
  [("major", VInt major); ("minor", VInt minor); ("patch", VInt patch);
   ("beta", opt_val VInt beta); ("n_commits", VInt n_commits);
   ("hash", opt_val VStr hash); ("dirty", VBool dirty);
   ("data_source", VStr data_source);
   ("is_editable", opt_val VBool is_editable)]%string.

(** A descriptor of the library, likewise for [PDFIUM_INFO]. *)
Definition pdfium_descriptor (major minor build patch : Z)
    (n_commits : Z) (hash : option string) (origin : string)
    (flags : list string) : list (string * pyval) :=
  [("major", VInt major); ("minor", VInt minor); ("build", VInt build);
   ("patch", VInt patch); ("n_commits", VInt n_commits);
   ("hash", opt_val VStr hash); ("origin", VStr origin);
   ("flags", VList (map VStr flags))]%string.

(** The local part of a version: commits and hash when there are commits
    after the tag, then the suffix, joined by dots after a plus sign. *)
Definition local_version (n_commits : Z) (hash : option string)
    (suffix : list string) : string :=
  match app (if 0 <? n_commits
              then [py_str_int n_commits; default "None"%string hash]
              else []) suffix with
  | [] => ""%string
  | local_ver => ("+" ++ String.concat "." local_ver)%string
  end.

Definition dotted (ciphers : list Z) : string :=
  String.concat "." (map py_str_int ciphers).

Definition pypdfium2_tag (major minor patch : Z) (beta : option Z) : string :=
  (dotted [major; minor; patch]
   ++ match beta with Some b => "b" ++ py_str_int b | None => "" end)%string.

Definition pypdfium2_desc (n_commits : Z) (hash : option string) (dirty : bool)
    (data_source : string) (is_editable : option bool) : string :=
  (local_version n_commits hash (if dirty then ["dirty"%string] else [])
   ++ (if String.eqb data_source "git" then "" else ":" ++ data_source)
   ++ match is_editable with Some true => "@editable" | _ => "" end)%string.

Definition pdfium_desc (n_commits : Z) (hash : option string) (origin : string)
    (flags : list string) : string :=
  (local_version n_commits hash []
   ++ match flags with [] => "" | _ => ":{" ++ String.concat "," flags ++ "}" end
   ++ (if String.eqb origin "pdfium-binaries" then "" else "@" ++ origin))%string.

(** The tag fields of the two classes. *)
Definition tag_fields (c : class_name) : list string :=
  match c with
  | _version_pdfium => ["major"; "minor"; "build"; "patch"]%string
  | _ => ["major"; "minor"; "patch"]%string
  end.

(** The attributes [__init__] and the hooks compute: a field of the
    descriptor under one of these names is overwritten. *)
Definition derived_names : list string :=
  ["api_tag"; "tag"; "desc"; "flags"; "version"; "__setattr__"]%string.

(** The names the classes bind, which a field of the descriptor of the
    same name would shadow. *)
Definition class_names : list string :=
  ["_TAG_FIELDS"; "_hook"; "_craft_tag"; "_craft_desc"]%string.

(** The instance the loop over the items of a descriptor leaves. *)
Definition stored (self : instance) (items : list (string * pyval)) : instance :=
  fold_left (fun o kv => dict_store o (fst kv) (snd kv)) items self.

(** Two instances of one class that agree on every attribute outside
    [names]. *)
Definition same_but (names : list string) (o o' : instance) : Prop :=
  inst_class o' = inst_class o /\
  forall k : string, k ∉ names -> inst_dict o' !! k = inst_dict o !! k.

End VersionVocabulary.

Section BuildVocabulary.

Import BuildPdfium.

(** The line of one setting in the configuration text. *)
Definition config_line (item : string * pyval) : result string :=
  (let* text := config_value (snd item) in
   ret (fst item ++ " = " ++ text)%string)%result.

(** A file system with two files for [find_lib] to look at, a join with a
    slash, and three library names. *)
Definition ref_join (a b : string) : string := (a ++ "/" ++ b)%string.

Definition ref_isfile (path : string) : bool :=
  String.eqb path "out/libpdfium.so" || String.eqb path "out/pdfium.dll".

Definition ref_libnames : list string :=
  ["libpdfium.so"; "libpdfium.dylib"; "pdfium.dll"]%string.

End BuildVocabulary.

(** * Properties *)

(** ** [colour_as_hex] *)

Section ColourAsHex.

Import Utilities.

(** Every integer from 0 below [n] satisfies a boolean test that holds on
    the whole of [seq 0 n]. *)
Lemma below_forallb (n : nat) (test : Z -> bool) (z : Z) :
  forallb (fun k => test (Z.of_nat k)) (seq 0 n) = true ->
  0 <= z < Z.of_nat n -> test z = true.
Proof.
  intros Hall Hz.
  rewrite forallb_forall in Hall.
  rewrite <- (Z2Nat.id z) by lia.
  apply Hall, in_seq. lia.
Qed.

Lemma hex_digits_byte (c : Z) :
  0 <= c <= 255 ->
  _hex_digits c = String (hex_char (c / 16)) (String (hex_char (c mod 16)) "").
Proof.
  intros Hc.
  apply String.eqb_eq.
  apply (below_forallb 256
           (fun c => String.eqb (_hex_digits c)
                       (String (hex_char (c / 16)) (String (hex_char (c mod 16)) "")))).
  - vm_compute. reflexivity.
  - lia.
Qed.

Lemma digit_val_hex_char (d : Z) :
  0 <= d < 16 -> digit_val (hex_char d) = Some d.
Proof.
  intros Hd.
  pose (test := fun d => match digit_val (hex_char d) with
                         | Some d' => d' =? d
                         | None => false
                         end).
  assert (H : test d = true).
  { apply (below_forallb 16 test); [vm_compute; reflexivity | lia]. }
  unfold test in H.
  destruct (digit_val (hex_char d)) as [d'|]; [|discriminate].
  apply Z.eqb_eq in H. congruence.
Qed.

Lemma parse_hex_char (acc d : Z) (s : string) :
  0 <= d < 16 ->
  parse_digits_from 16 acc (String (hex_char d) s)
  = parse_digits_from 16 (acc * 16 + d) s.
Proof.
  intros Hd. cbn [parse_digits_from].
  rewrite digit_val_hex_char by lia.
  destruct (Z.ltb_spec d 16); [reflexivity | lia].
Qed.

(** The text built by the second loop, for four bytes. *)
Lemma hxc_str_of_bytes (a r g b : Z) :
  0 <= a <= 255 -> 0 <= r <= 255 -> 0 <= g <= 255 -> 0 <= b <= 255 ->
  hxc_str_of [a; r; g; b]
  = String "0" (String "x"
      (String (hex_char (a / 16)) (String (hex_char (a mod 16))
      (String (hex_char (r / 16)) (String (hex_char (r mod 16))
      (String (hex_char (g / 16)) (String (hex_char (g mod 16))
      (String (hex_char (b / 16)) (String (hex_char (b mod 16)) ""))))))))).
Proof.
  intros Ha Hr Hg Hb. unfold hxc_str_of. cbn [fold_left].
  rewrite !hex_digits_byte by assumption. reflexivity.
Qed.

Lemma nibbles (c : Z) :
  0 <= c <= 255 -> 0 <= c / 16 < 16 /\ 0 <= c mod 16 < 16 /\ c = 16 * (c / 16) + c mod 16.
Proof.
  intros Hc. repeat split.
  - apply Z.div_pos; lia.
  - apply Z.div_lt_upper_bound; lia.
  - apply Z.mod_pos_bound; lia.
  - apply Z.mod_pos_bound; lia.
  - apply Z.div_mod; lia.
Qed.

(** A literal that starts with [0x] is read in base 16. *)
Lemma py_int_base0_hex (c : ascii) (s : string) :
  py_int_base0 (String "0" (String "x" (String c s)))
  = match parse_digits_from 16 0 (String c s) with
    | Some z => inr z
    | None => inl ValueError
    end.
Proof. reflexivity. Qed.

Lemma int_of_hxc_str (a r g b : Z) :
  0 <= a <= 255 -> 0 <= r <= 255 -> 0 <= g <= 255 -> 0 <= b <= 255 ->
  py_int_base0 (hxc_str_of [a; r; g; b])
  = inr (a * 2 ^ 24 + r * 2 ^ 16 + g * 2 ^ 8 + b).
Proof.
  intros Ha Hr Hg Hb.
  rewrite hxc_str_of_bytes by assumption.
  destruct (nibbles a Ha) as (Ha1 & Ha0 & Ea).
  destruct (nibbles r Hr) as (Hr1 & Hr0 & Er).
  destruct (nibbles g Hg) as (Hg1 & Hg0 & Eg).
  destruct (nibbles b Hb) as (Hb1 & Hb0 & Eb).
  rewrite py_int_base0_hex.
  rewrite !parse_hex_char by assumption.
  cbn [parse_digits_from]. f_equal.
  set (a1 := a / 16) in *. set (a0 := a mod 16) in *.
  set (r1 := r / 16) in *. set (r0 := r mod 16) in *.
  set (g1 := g / 16) in *. set (g0 := g mod 16) in *.
  set (b1 := b / 16) in *. set (b0 := b mod 16) in *.
  rewrite Ea, Er, Eg, Eb. ring.
Qed.

Lemma check_colours_valid (c : pyval) (rest : list pyval) :
  valid_colour c = true ->
  exists z, as_int c = Some z /\ 0 <= z <= 255 /\
    check_colours (c :: rest)
    = (let* zs := check_colours rest in ret (z :: zs))%result.
Proof.
  unfold valid_colour. intros Hv.
  destruct (as_int c) as [z|] eqn:Hc; [|discriminate].
  exists z. split; [reflexivity|]. split; [lia|].
  cbn [check_colours]. rewrite Hc, Hv. reflexivity.
Qed.

Lemma check_colours_invalid (c : pyval) (rest : list pyval) :
  valid_colour c = false -> check_colours (c :: rest) = inl AssertionError.
Proof.
  unfold valid_colour. intros Hv. cbn [check_colours].
  destruct (as_int c) as [z|]; [|reflexivity].
  rewrite Hv. reflexivity.
Qed.

Lemma check_colours_some_invalid (colours : list pyval) :
  existsb (fun c => negb (valid_colour c)) colours = true ->
  check_colours colours = inl AssertionError.
Proof.
  induction colours as [|c rest IH]; cbn [existsb]; [discriminate|].
  destruct (valid_colour c) eqn:Hv; cbn [negb orb]; intros Hrest.
  - destruct (check_colours_valid c rest Hv) as (z & _ & _ & ->).
    rewrite (IH Hrest). reflexivity.
  - apply check_colours_invalid, Hv.
Qed.

Lemma colour_as_hex_ints (r g b a : Z) :
  0 <= r <= 255 -> 0 <= g <= 255 -> 0 <= b <= 255 -> 0 <= a <= 255 ->
  colour_as_hex (VInt r) (VInt g) (VInt b) (VInt a)
  = inr (a * 2 ^ 24 + r * 2 ^ 16 + g * 2 ^ 8 + b).
Proof.
  intros Hr Hg Hb Ha. unfold colour_as_hex.
  assert (Hcheck : check_colours [VInt a; VInt r; VInt g; VInt b] = inr [a; r; g; b]).
  { cbn [check_colours as_int].
    repeat match goal with
    | |- context [py_assert ((0 <=? ?z) && (?z <=? 255))] =>
        replace ((0 <=? z) && (z <=? 255)) with true by lia; cbn
    end.
    reflexivity. }
  rewrite Hcheck. cbn [rbind].
  apply int_of_hxc_str; assumption.
Qed.

(** C10. For integers [r], [g], [b], [a] from 0 to 255, [colour_as_hex]
    returns [a * 2^24 + r * 2^16 + g * 2^8 + b], the 8888 ARGB packing, with
    [a] at 255 when it is left out; and when any of the four arguments is
    not an integer in that range the call fails an assertion and produces
    no value. *)
Theorem colour_as_hex_argb :
  (forall r g b a : Z,
     0 <= r <= 255 -> 0 <= g <= 255 -> 0 <= b <= 255 -> 0 <= a <= 255 ->
     colour_as_hex (VInt r) (VInt g) (VInt b) (VInt a)
     = inr (a * 2 ^ 24 + r * 2 ^ 16 + g * 2 ^ 8 + b))
  /\ (forall r g b : Z,
     0 <= r <= 255 -> 0 <= g <= 255 -> 0 <= b <= 255 ->
     colour_as_hex_default (VInt r) (VInt g) (VInt b)
     = inr (255 * 2 ^ 24 + r * 2 ^ 16 + g * 2 ^ 8 + b))
  /\ (forall r g b a : pyval,
     valid_colour r && valid_colour g && valid_colour b && valid_colour a = false ->
     colour_as_hex r g b a = inl AssertionError).
Proof.
  split; [exact colour_as_hex_ints|]. split.
  - intros r g b Hr Hg Hb. unfold colour_as_hex_default.
    apply colour_as_hex_ints; lia.
  - intros r g b a Hbad. unfold colour_as_hex.
    rewrite check_colours_some_invalid; [reflexivity|].
    cbn [existsb].
    destruct (valid_colour r), (valid_colour g), (valid_colour b), (valid_colour a);
      cbn in *; congruence.
Qed.

Lemma colour_as_hex_argb_witness :
  colour_as_hex (VInt 1) (VInt 2) (VInt 3) (VInt 255) = inr 4278256131
  /\ colour_as_hex_default (VInt 1) (VInt 2) (VInt 3) = inr 4278256131
  /\ colour_as_hex (VInt 1) (VFloat 0) (VInt 3) (VInt 256) = inl AssertionError.
Proof.
  destruct colour_as_hex_argb as (Hints & Hdefault & Hbad).
  split; [|split].
  - apply (Hints 1 2 3 255); lia.
  - apply (Hdefault 1 2 3); lia.
  - apply (Hbad (VInt 1) (VFloat 0) (VInt 3) (VInt 256)). reflexivity.
Defined.

End ColourAsHex.

(** ** Bitmap construction *)

Section BitmapFacts.

Import Bitmap.

Context {L : NativeLib} {T : InternalTables} {P : Pillow}.

(** [from_raw] with an external buffer: the four getters, then the
    constructor, with the flag clear. *)
Lemma from_raw_external (raw : handle) (rev : bool) (ex : cbuffer) (w : World) :
  from_raw raw rev (Some ex) w
  = (after_getters w raw,
     PdfBitmap_init raw ex
       (FPDFBitmap_GetWidth (w_lib w) raw) (FPDFBitmap_GetHeight (w_lib w) raw)
       (FPDFBitmap_GetStride (w_lib w) raw) (FPDFBitmap_GetFormat (w_lib w) raw)
       rev false).
Proof.
  unfold from_raw, mbind, native_read, mret, lift, after_getters. cbn.
  repeat rewrite <- app_assoc. reflexivity.
Qed.

(** [from_raw] without one: the buffer pointer is fetched after the four
    getters, and a null pointer or a negative size stops the call. *)
Lemma from_raw_internal (raw : handle) (rev : bool) (w : World) :
  from_raw raw rev None w
  = (after_call (after_getters w raw) (CGetBuffer raw) (w_lib w),
     let ptr := FPDFBitmap_GetBuffer (w_lib w) raw in
     let size := FPDFBitmap_GetStride (w_lib w) raw * FPDFBitmap_GetHeight (w_lib w) raw in
     if ptr =? 0
     then inl (PdfiumError "Failed to get bitmap buffer (null pointer returned)")
     else if size <? 0 then inl ValueError
     else PdfBitmap_init raw (PtrView ptr size)
            (FPDFBitmap_GetWidth (w_lib w) raw) (FPDFBitmap_GetHeight (w_lib w) raw)
            (FPDFBitmap_GetStride (w_lib w) raw) (FPDFBitmap_GetFormat (w_lib w) raw)
            rev true).
Proof.
  unfold from_raw, mbind, native_read, mret, mraise, lift, cast_contents,
    after_call, after_getters. cbn.
  repeat rewrite <- app_assoc. cbn.
  destruct (FPDFBitmap_GetBuffer (w_lib w) raw =? 0); [reflexivity|].
  destruct (_ <? 0); reflexivity.
Qed.

(** What the constructor keeps of its arguments. *)
Lemma PdfBitmap_init_fields raw buf width height stride format rev free bm :
  PdfBitmap_init raw buf width height stride format rev free = inr bm ->
  Bitmap.raw bm = raw /\ buffer bm = buf /\ Bitmap.width bm = width /\
  Bitmap.height bm = height /\ Bitmap.stride bm = stride /\
  Bitmap.format bm = format /\ needs_free bm = free /\
  BitmapTypeToNChannels !! format = Some (n_channels bm).
Proof.
  unfold PdfBitmap_init, py_getitem, rbind, ret, raise.
  destruct (BitmapTypeToNChannels !! format) as [n|]; [|discriminate].
  destruct ((if rev then BitmapTypeToStrReverse else BitmapTypeToStr) !! format);
    [|discriminate].
  intros [= <-]. cbn. repeat split; reflexivity.
Qed.

(** [close] on a bitmap whose flag is clear does nothing at all. *)
Lemma close_keeps (bm : PdfBitmap) (w : World) :
  needs_free bm = false -> close bm w = (w, inr tt).
Proof. unfold close, needs_free. intros ->. reflexivity. Qed.

(** [close] on a bitmap whose flag is set is one call of the library's
    destroy function on the handle. *)
Lemma close_destroys (bm : PdfBitmap) (w : World) :
  needs_free bm = true ->
  close bm w
  = (after_call w (CDestroy (raw bm)) (FPDFBitmap_Destroy (w_lib w) (raw bm)), inr tt).
Proof.
  unfold close, needs_free. intros ->.
  destruct (ac_close_func (autoclose bm)). reflexivity.
Qed.

(** One step of a computation that returns, and one that raises. *)
Lemma mbind_inr {A B} (m : M A) (k : A -> M B) (w w' : World) (a : A) :
  m w = (w', inr a) -> mbind m k w = k a w'.
Proof. unfold mbind. intros ->. reflexivity. Qed.

Lemma mbind_inl {A B} (m : M A) (k : A -> M B) (w w' : World) (e : exn) :
  m w = (w', inl e) -> mbind m k w = (w', inl e).
Proof. unfold mbind. intros ->. reflexivity. Qed.

(** A new array of a length that is not negative is the next object of the
    heap, all zeros. *)
Lemma new_c_ubyte_array_run (n : Z) (w : World) :
  0 <= n ->
  new_c_ubyte_array n w
  = (heap_grown w (replicate (Z.to_nat n) 0), inr (PyArray (length (w_heap w)) n)).
Proof.
  intros Hn. unfold new_c_ubyte_array.
  destruct (Z.ltb_spec n 0); [lia | reflexivity].
Qed.

(** C2. [new_native] with a stride given below [width * channels(format)],
    or with a buffer given that is shorter than [stride * height] for the
    stride given or else the packed one, raises [AssertionError] (the
    spec's InvalidArgument); the world is as before the call: no bitmap was
    created, the library was not called and nothing was allocated. *)
Theorem new_native_rejects (width height format : Z) (rev : bool)
    (buf : option cbuffer) (stride : option Z) (bpc : Z) (w : World) :
  BitmapTypeToNChannels !! format = Some bpc ->
  (exists s, stride = Some s /\ s < width * bpc) \/
  (exists b, buf = Some b /\
     buffer_len b < resolved_stride width bpc stride * height) ->
  new_native width height format rev buf stride w = (w, inl AssertionError).
Proof.
  intros Hbpc Hbad.
  unfold new_native, mbind, lift, py_getitem, py_assert, mret, ret, raise.
  rewrite Hbpc.
  destruct stride as [s|]; cbn [resolved_stride] in Hbad.
  - destruct (Z.leb_spec (width * bpc) s) as [Hs|Hs]; [|reflexivity].
    destruct Hbad as [(s' & [= <-] & Hlt) | (b & -> & Hlen)]; [lia|].
    destruct (Z.leb_spec (s * height) (buffer_len b)); [lia | reflexivity].
  - destruct Hbad as [(s' & [=] & _) | (b & -> & Hlen)].
    destruct (Z.leb_spec (width * bpc * height) (buffer_len b)); [lia | reflexivity].
Qed.

(** C4. For a positive width and height and a format of the tables,
    [new_native] without stride and without buffer yields a bitmap whose
    stride is [width * channels(format)] and whose buffer is a new object
    of the Python heap, [stride * height] zero bytes long.  The library is
    taken to honour the creation. *)
Theorem new_native_packed (width height format : Z) (rev : bool)
    (bpc : Z) (mode : string) (w : World) :
  0 < width -> 0 < height ->
  BitmapTypeToNChannels !! format = Some bpc -> 0 < bpc ->
  (if rev then BitmapTypeToStrReverse else BitmapTypeToStr) !! format = Some mode ->
  creation_reported (w_lib w) width height format
    (Some (PyArray (length (w_heap w)) (width * bpc * height))) (width * bpc) ->
  exists w' bm,
    new_native width height format rev None None w = (w', inr bm) /\
    stride bm = width * bpc /\
    Bitmap.width bm = width /\ Bitmap.height bm = height /\
    buffer bm = PyArray (length (w_heap w)) (stride bm * height) /\
    w_heap w !! length (w_heap w) = None /\
    w_heap w' = w_heap w ++ [replicate (Z.to_nat (stride bm * height)) 0].
Proof.
  intros Hw Hh Hbpc Hpos Hmode Hlib.
  unfold creation_reported in Hlib.
  destruct (FPDFBitmap_CreateEx (w_lib w) width height format
              (Some (PyArray (length (w_heap w)) (width * bpc * height)))
              (width * bpc)) as [raw s'] eqn:Hcreate.
  destruct Hlib as (Hgw & Hgh & Hgf & Hgs).
  unfold new_native.
  rewrite (mbind_inr _ _ w w bpc)
    by (unfold lift, py_getitem; rewrite Hbpc; reflexivity).
  rewrite (mbind_inr _ _ w w (width * bpc)) by reflexivity.
  assert (Hsize : 0 <= width * bpc * height) by nia.
  rewrite (mbind_inr _ _ _ _ _ (new_c_ubyte_array_run _ w Hsize)).
  rewrite (mbind_inr _ _ _
             (after_call (heap_grown w (replicate (Z.to_nat (width * bpc * height)) 0))
                (CCreateEx width height format
                   (Some (PyArray (length (w_heap w)) (width * bpc * height)))
                   (width * bpc)) s') raw)
    by (unfold native_call, after_call, heap_grown; cbn [w_lib]; rewrite Hcreate;
        reflexivity).
  rewrite from_raw_external.
  unfold after_getters, after_call, heap_grown.
  cbn [w_lib w_calls w_heap w_pages].
  rewrite Hgw, Hgh, Hgf, Hgs.
  unfold PdfBitmap_init, py_getitem, rbind, ret.
  rewrite Hbpc, Hmode.
  eexists _, _. split; [reflexivity|].
  cbn. repeat split; try reflexivity.
  apply lookup_ge_None. lia.
Qed.

(** C9. [from_raw] without an external buffer raises [PdfiumError] (the
    spec's AllocationError) when the library returns a null buffer pointer.
    With an external buffer the native calls it makes are the four
    getters, the buffer pointer is not asked for, and no [PdfiumError] can
    come out. *)
Theorem from_raw_null_pointer :
  (forall (raw : handle) (rev : bool) (w : World),
     FPDFBitmap_GetBuffer (w_lib w) raw = 0 ->
     from_raw raw rev None w
     = (after_call (after_getters w raw) (CGetBuffer raw) (w_lib w),
        inl (PdfiumError "Failed to get bitmap buffer (null pointer returned)")))
  /\ (forall (raw : handle) (rev : bool) (ex : cbuffer) (w : World),
     fst (from_raw raw rev (Some ex) w) = after_getters w raw /\
     (forall h, CGetBuffer h ∉
        [CGetWidth raw; CGetHeight raw; CGetFormat raw; CGetStride raw]) /\
     (forall msg, snd (from_raw raw rev (Some ex) w) <> inl (PdfiumError msg))).
Proof.
  split.
  - intros raw rev w Hnull. rewrite from_raw_internal. cbn zeta.
    rewrite Hnull. reflexivity.
  - intros raw rev ex w. rewrite from_raw_external. cbn [fst snd].
    split; [reflexivity|]. split.
    + intros h Hin. repeat (apply elem_of_cons in Hin as [Hin|Hin]; [discriminate|]).
      by apply elem_of_nil in Hin.
    + intros msg. unfold PdfBitmap_init, py_getitem, rbind, ret, raise.
      destruct (BitmapTypeToNChannels !! _); [|discriminate].
      destruct (_ !! _); discriminate.
Qed.

(** A computation that returned went through each of its steps. *)
Lemma mbind_returned {A B} (m : M A) (k : A -> M B) (w w' : World) (b : B) :
  mbind m k w = (w', inr b) ->
  exists w1 a, m w = (w1, inr a) /\ k a w1 = (w', inr b).
Proof.
  unfold mbind. destruct (m w) as [w1 [e|a]]; [discriminate|].
  intros Hk. exists w1, a. split; [reflexivity | exact Hk].
Qed.

Lemma lift_returned {A} (r : result A) (w w' : World) (a : A) :
  lift r w = (w', inr a) -> w' = w /\ r = inr a.
Proof. unfold lift. intros [= -> ->]. split; reflexivity. Qed.

Lemma native_call_heap {A} (c : call) (f : lib_state -> A * lib_state)
    (w w' : World) (r : result A) :
  native_call c f w = (w', r) -> w_heap w' = w_heap w.
Proof.
  unfold native_call. destruct (f (w_lib w)). intros [= <- _]. reflexivity.
Qed.

(** What a bitmap that [from_raw] returned is made of. *)
Lemma from_raw_returned (raw : handle) (rev : bool) (ex : option cbuffer)
    (w w' : World) (bm : PdfBitmap) :
  from_raw raw rev ex w = (w', inr bm) ->
  w_heap w' = w_heap w /\ Bitmap.raw bm = raw /\
  match ex with
  | Some b => needs_free bm = false /\ buffer bm = b
  | None =>
      needs_free bm = true /\
      FPDFBitmap_GetBuffer (w_lib w) raw <> 0 /\
      buffer bm
      = PtrView (FPDFBitmap_GetBuffer (w_lib w) raw) (stride bm * height bm)
  end.
Proof.
  destruct ex as [b|].
  - rewrite from_raw_external. intros [= <- Hinit].
    apply PdfBitmap_init_fields in Hinit as (? & ? & _ & _ & _ & _ & ? & _).
    repeat split; assumption.
  - rewrite from_raw_internal. cbn zeta. intros [= <- Hinit].
    destruct (Z.eqb_spec (FPDFBitmap_GetBuffer (w_lib w) raw) 0) as [|Hptr];
      [discriminate|].
    destruct (_ <? 0); [discriminate|].
    apply PdfBitmap_init_fields in Hinit as (? & Hbuf & _ & Hh & Hs & _ & ? & _).
    rewrite Hh, Hs. repeat split; assumption.
Qed.

(** What a bitmap that [new_native] returned is made of. *)
Lemma new_native_returned (width height format : Z) (rev : bool)
    (buf : option cbuffer) (stride : option Z) (w w' : World) (bm : PdfBitmap) :
  new_native width height format rev buf stride w = (w', inr bm) ->
  needs_free bm = false /\
  match buf with
  | Some b => buffer bm = b /\ w_heap w' = w_heap w
  | None =>
      exists n, 0 <= n /\ buffer bm = PyArray (length (w_heap w)) n /\
        w_heap w' = w_heap w ++ [replicate (Z.to_nat n) 0]
  end.
Proof.
  unfold new_native. intros Hrun.
  apply mbind_returned in Hrun as (w1 & bpc & Hbpc & Hrun).
  apply lift_returned in Hbpc as [-> _].
  apply mbind_returned in Hrun as (w1 & st & Hst & Hrun).
  assert (w1 = w) as ->.
  { destruct stride as [s|].
    - apply mbind_returned in Hst as (w2 & [] & Hassert & Hst).
      apply lift_returned in Hassert as [-> _]. by injection Hst.
    - by injection Hst. }
  clear Hst.
  apply mbind_returned in Hrun as (w1 & b & Hbuf & Hrun).
  apply mbind_returned in Hrun as (w2 & raw & Hcreate & Hrun).
  apply native_call_heap in Hcreate.
  apply from_raw_returned in Hrun as (Hheap & _ & Hfree & Hb).
  split; [exact Hfree|].
  destruct buf as [b0|].
  - apply mbind_returned in Hbuf as (w3 & [] & Hassert & Hbuf).
    apply lift_returned in Hassert as [-> _]. injection Hbuf as <- <-.
    split; [exact Hb | congruence].
  - unfold new_c_ubyte_array in Hbuf.
    destruct (Z.ltb_spec (st * height) 0) as [|Hn]; [discriminate|].
    injection Hbuf as <- <-. exists (st * height).
    split; [exact Hn|]. split; [exact Hb|].
    rewrite Hheap, Hcreate. reflexivity.
Qed.

(** C1. Whichever of the four constructors made a bitmap, the needs-free
    flag it registered is set exactly when the library allocated its
    buffer, that is when [from_raw] was given no external buffer.  Closing
    a bitmap with the flag set is one call of the library's destroy
    function on its handle, which frees the buffer the library allocated;
    closing one with the flag clear (from [new_native], or from [from_raw]
    with an external buffer) calls nothing and leaves the heap of Python,
    where the buffer of the caller or of the wrapper lives, as it is. *)
Theorem bitmap_ownership (c : ctor_call) (w w' : World) (bm : PdfBitmap) :
  run_ctor c w = (w', inr bm) ->
  needs_free bm = library_allocated c /\
  (if library_allocated c
   then exists ptr, ptr <> 0 /\ buffer bm = PtrView ptr (stride bm * height bm)
   else match external_buffer c with
        | Some b => buffer bm = b
        | None => exists n, buffer bm = PyArray (length (w_heap w)) n
        end) /\
  forall w1 : World,
    close bm w1
    = if library_allocated c
      then (after_call w1 (CDestroy (raw bm)) (FPDFBitmap_Destroy (w_lib w1) (raw bm)),
            inr tt)
      else (w1, inr tt).
Proof.
  intros Hrun.
  assert (Hmade : needs_free bm = library_allocated c /\
    (if library_allocated c
     then exists ptr, ptr <> 0 /\ buffer bm = PtrView ptr (stride bm * height bm)
     else match external_buffer c with
          | Some b => buffer bm = b
          | None => exists n, buffer bm = PyArray (length (w_heap w)) n
          end)).
  { destruct c as [raw rev [ex|] | width height format rev buf stride
                   | width height format rev packed | width height alpha rev];
      cbn [run_ctor library_allocated external_buffer] in *.
    - apply from_raw_returned in Hrun as (_ & _ & Hfree & Hbuf). by split.
    - apply from_raw_returned in Hrun as (_ & _ & Hfree & Hptr & Hbuf).
      split; [exact Hfree|]. eexists. split; [exact Hptr | exact Hbuf].
    - apply new_native_returned in Hrun as (Hfree & Hbuf).
      split; [exact Hfree|]. destruct buf as [b|].
      + apply Hbuf.
      + destruct Hbuf as (n & _ & Hbuf & _). exists n. exact Hbuf.
    - unfold new_foreign in Hrun.
      apply mbind_returned in Hrun as (w1 & st & _ & Hrun).
      apply mbind_returned in Hrun as (w2 & raw & _ & Hrun).
      apply from_raw_returned in Hrun as (_ & _ & Hfree & Hptr & Hbuf).
      split; [exact Hfree|]. eexists. split; [exact Hptr | exact Hbuf].
    - unfold new_foreign_simple in Hrun.
      apply mbind_returned in Hrun as (w2 & raw & _ & Hrun).
      apply from_raw_returned in Hrun as (_ & _ & Hfree & Hptr & Hbuf).
      split; [exact Hfree|]. eexists. split; [exact Hptr | exact Hbuf]. }
  destruct Hmade as (Hfree & Hbuf).
  split; [exact Hfree|]. split; [exact Hbuf|].
  intros w1. rewrite <- Hfree.
  destruct (needs_free bm) eqn:Hflag.
  - apply close_destroys, Hflag.
  - apply close_keeps, Hflag.
Qed.

(** C8, as amended. For every image [from_pil] accepts, the buffer of the
    bitmap is a new object of the Python heap that holds a copy of the pixel
    data of the image (of its conversion, when the mode had to be
    converted); no object that existed before the call is touched.  The
    buffer belongs to the wrapper, not to the library: [from_raw] gets it
    as the external buffer and registers the bitmap with the needs-free
    flag clear. *)
Theorem from_pil_copies (pil_image : image) (w w' : World) (bm : PdfBitmap) :
  from_pil pil_image w = (w', inr bm) ->
  exists source : image,
    pil_source pil_image = inr source /\
    buffer bm
    = PyArray (length (w_heap w)) (Z.of_nat (length (im_tobytes source))) /\
    w_heap w !! length (w_heap w) = None /\
    w_heap w' = w_heap w ++ [im_tobytes source] /\
    needs_free bm = false.
Proof.
  unfold from_pil, pil_source. intros Hrun.
  apply mbind_returned in Hrun as (w1 & [source format] & Hconv & Hrun).
  assert (w1 = w /\
          match BitmapStrToConst !! im_mode pil_image with
          | Some _ => ret pil_image
          | None => _pil_convert_for_pdfium pil_image
          end = inr source) as [-> Hsource].
  { destruct (BitmapStrToConst !! im_mode pil_image) as [f|].
    - injection Hconv as <- <- _. split; reflexivity.
    - apply mbind_returned in Hconv as (w2 & im2 & Hc & Hconv).
      apply lift_returned in Hc as [-> Hc].
      apply mbind_returned in Hconv as (w2 & f & Hf & Hconv).
      apply lift_returned in Hf as [-> _].
      injection Hconv as <- <- _. split; [reflexivity | exact Hc]. }
  clear Hconv. exists source. split; [exact Hsource|].
  destruct (im_size source) as [wd ht].
  apply mbind_returned in Hrun as (w1 & buf & Hbytes & Hrun).
  unfold tobytes, mbind, py_alloc, mret in Hbytes. injection Hbytes as <- <-.
  apply new_native_returned in Hrun as (Hfree & Hbuf & Hheap).
  cbn [w_heap] in Hheap.
  repeat split; try assumption.
  apply lookup_ge_None. lia.
Qed.

End BitmapFacts.

(** ** Coordinate translation *)

Section PosConvFacts.

Import Bitmap.

Context {L : NativeLib}.

Lemma weakref_dead (ref : nat) (w : World) :
  ref ∉ w_pages w -> weakref_call ref w = (w, inr None).
Proof.
  intros Hdead. unfold weakref_call.
  destruct (decide (ref ∈ w_pages w)); [contradiction | reflexivity].
Qed.

Lemma weakref_alive (ref : nat) (w : World) :
  ref ∈ w_pages w -> weakref_call ref w = (w, inr (Some ref)).
Proof.
  intros Halive. unfold weakref_call.
  destruct (decide (ref ∈ w_pages w)); [reflexivity | contradiction].
Qed.

(** C3. [get_posconv] on a bitmap and a page object raises [RuntimeError]
    (the spec's PrecondReferenceError) when the bitmap recorded no render
    parameters, when the weak reference to the page it recorded no longer
    resolves, and when the page it resolves to is not the page passed in;
    the world is left as it was, so the native library was not called.  In
    the case that remains it returns the converter of that page and of the
    five recorded parameters. *)
Theorem get_posconv_checks_page (bm : PdfBitmap) (page : nat) (w : World) :
  ((_pos_args bm = None \/
    exists ref args, _pos_args bm = Some (ref, args) /\
      (ref ∉ w_pages w \/ ref <> page)) ->
   get_posconv bm (Some page) w
   = (w, inl (RuntimeError "This bitmap does not belong to the given page.")))
  /\ (forall args,
        _pos_args bm = Some (page, args) -> page ∈ w_pages w ->
        get_posconv bm (Some page) w = (w, inr (mkPdfPosConv (Some page) args))).
Proof.
  split.
  - intros [Hnone | (ref & args & Hsome & Hbad)]; unfold get_posconv.
    + rewrite Hnone. reflexivity.
    + rewrite Hsome. unfold mbind.
      destruct (decide (ref ∈ w_pages w)) as [Halive|Hdead].
      * destruct Hbad as [Hdead|Hne]; [contradiction|].
        rewrite (weakref_alive _ _ Halive). unfold page_is.
        rewrite bool_decide_eq_false_2 by congruence. reflexivity.
      * rewrite (weakref_dead _ _ Hdead). reflexivity.
  - intros args Hsome Halive. unfold get_posconv, mbind.
    rewrite Hsome, (weakref_alive _ _ Halive). unfold page_is.
    rewrite bool_decide_eq_true_2 by reflexivity. reflexivity.
Qed.

(** Outside C3: [None] is no page object.  Passed for the page while the
    recorded reference is dead, it gets through the identity test, and the
    constructor of the converter stops it with a failed assertion. *)
Remark get_posconv_none (bm : PdfBitmap) (ref : nat) (args : PosArgs) (w : World) :
  _pos_args bm = Some (ref, args) -> ref ∉ w_pages w ->
  get_posconv bm None w = (w, inl AssertionError).
Proof.
  intros Hsome Hdead. unfold get_posconv, mbind.
  rewrite Hsome, (weakref_dead _ _ Hdead). reflexivity.
Qed.

(** The value of a [c_int] cell is a C [int]. *)
Lemma c_int_value_range (v : Z) : - 2 ^ 31 <= c_int_value v < 2 ^ 31.
Proof.
  unfold c_int_value.
  pose proof (Z.mod_pos_bound (v + 2 ^ 31) (2 ^ 32)). lia.
Qed.

(** It is the value stored, up to the 32 bits of the cell. *)
Lemma c_int_value_congruent (v : Z) : (c_int_value v - v) mod 2 ^ 32 = 0.
Proof.
  unfold c_int_value.
  replace ((v + 2 ^ 31) mod 2 ^ 32 - 2 ^ 31 - v)
    with (- ((v + 2 ^ 31) / 2 ^ 32) * 2 ^ 32).
  - apply Z_mod_mult.
  - pose proof (Z.div_mod (v + 2 ^ 31) (2 ^ 32)). lia.
Qed.

(** A C [int] is read back as it was stored. *)
Lemma c_int_value_id (v : Z) : - 2 ^ 31 <= v < 2 ^ 31 -> c_int_value v = v.
Proof.
  intros Hv. unfold c_int_value. rewrite Z.mod_small; lia.
Qed.

(** C5. [to_page] makes one native call, the device-to-page transform on
    the page and the five parameters of the converter, and raises
    [PdfiumError] (the spec's TranslationError) exactly when the library
    reports failure; otherwise it returns the pair the library computed.
    [to_bitmap] does the same with the page-to-device transform: it raises
    exactly when the library reports failure, and what it returns on
    success are two integers, each a C [int], the ones the library left in
    the two cells: they agree with the library's outputs modulo [2 ^ 32],
    and are these outputs themselves when they are C [int]s. *)
Theorem posconv_delegates (self : PdfPosConv) (w : World) :
  (forall bitmap_x bitmap_y : Z,
     let r := FPDF_DeviceToPage (w_lib w) (page self) (pos_args self)
                bitmap_x bitmap_y in
     to_page self bitmap_x bitmap_y w
     = (after_call w (CDeviceToPage (page self) (pos_args self) bitmap_x bitmap_y)
          (w_lib w),
        if fst r =? 0
        then inl (PdfiumError "Failed to translate to page coordinates.")
        else inr (snd r)))
  /\ (forall page_x page_y : c_double,
     let r := FPDF_PageToDevice (w_lib w) (page self) (pos_args self)
                page_x page_y in
     fst (to_bitmap self page_x page_y w)
     = after_call w (CPageToDevice (page self) (pos_args self) page_x page_y)
         (w_lib w) /\
     (fst r = 0 ->
      snd (to_bitmap self page_x page_y w)
      = inl (PdfiumError "Failed to translate to bitmap coordinates.")) /\
     (fst r <> 0 ->
      exists x y : Z,
        snd (to_bitmap self page_x page_y w) = inr (x, y) /\
        (- 2 ^ 31 <= x < 2 ^ 31) /\ (- 2 ^ 31 <= y < 2 ^ 31) /\
        (x - fst (snd r)) mod 2 ^ 32 = 0 /\ (y - snd (snd r)) mod 2 ^ 32 = 0) /\
     (fst r <> 0 ->
      - 2 ^ 31 <= fst (snd r) < 2 ^ 31 -> - 2 ^ 31 <= snd (snd r) < 2 ^ 31 ->
      snd (to_bitmap self page_x page_y w) = inr (snd r))).
Proof.
  split.
  - intros bitmap_x bitmap_y r. subst r.
    unfold to_page, mbind, native_read, after_call.
    destruct (FPDF_DeviceToPage _ _ _ _ _) as [ok [x y]]. cbn [fst snd].
    destruct (ok =? 0); reflexivity.
  - intros page_x page_y r. subst r.
    unfold to_bitmap, mbind, native_read, after_call.
    destruct (FPDF_PageToDevice _ _ _ _ _) as [ok [x y]]. cbn [fst snd].
    destruct (Z.eqb_spec ok 0) as [Hok|Hok]; cbn [fst snd].
    + repeat split; try reflexivity; intros; contradiction.
    + split; [reflexivity|]. split; [intros; contradiction|]. split.
      * intros _. exists (c_int_value x), (c_int_value y).
        split; [reflexivity|].
        split; [apply c_int_value_range|]. split; [apply c_int_value_range|].
        split; apply c_int_value_congruent.
      * intros _ Hx Hy.
        rewrite (c_int_value_id x Hx), (c_int_value_id y Hy). reflexivity.
Qed.

End PosConvFacts.

(** ** Version records *)

Section VersionFacts.

Import Version.

(** No class of the module binds [__setattr__]. *)
Lemma no_class_setattr (c : class_name) : type_lookup c "__setattr__" = None.
Proof. destruct c; reflexivity. Qed.

(** Whether a name is one of the data descriptors. *)
Lemma data_descriptor_cases (name : string) :
  name ∈ data_descriptors \/
  (String.eqb name "__class__" = false /\ String.eqb name "__dict__" = false /\
   String.eqb name "__weakref__" = false).
Proof.
  unfold data_descriptors.
  destruct (String.eqb_spec name "__class__") as [->|H1]; [left; set_solver|].
  destruct (String.eqb_spec name "__dict__") as [->|H2]; [left; set_solver|].
  destruct (String.eqb_spec name "__weakref__") as [->|H3]; [left; set_solver|].
  right. done.
Qed.

(** An assignment to an attribute of an instance of these classes, but for
    the data descriptors, stores the value, whatever the dictionary of the
    instance holds. *)
Lemma py_setattr_stores (o : instance) (name : string) (value : pyval) :
  name ∉ data_descriptors ->
  py_setattr o name value = inr (dict_store o name value).
Proof.
  intros Hname. unfold py_setattr, object_setattr. rewrite no_class_setattr.
  destruct (data_descriptor_cases name) as [Hin | (-> & -> & ->)]; [done|].
  reflexivity.
Qed.

(** An assignment that returns has stored the value. *)
Lemma py_setattr_returned (o o' : instance) (name : string) (value : pyval) :
  py_setattr o name value = inr o' ->
  (name ∉ data_descriptors) /\ o' = dict_store o name value.
Proof.
  unfold py_setattr, object_setattr. rewrite no_class_setattr.
  destruct (data_descriptor_cases name) as [Hin | (H1 & H2 & H3)].
  - unfold data_descriptors in Hin.
    apply elem_of_cons in Hin as [-> | Hin]; [discriminate|].
    apply elem_of_cons in Hin as [-> | Hin]; [discriminate|].
    apply elem_of_cons in Hin as [-> | Hin]; [discriminate|].
    by apply elem_of_nil in Hin.
  - rewrite H1, H2, H3. intros [= <-]. split; [|reflexivity].
    unfold data_descriptors. intros Hin.
    apply elem_of_cons in Hin as [-> | Hin]; [discriminate|].
    apply elem_of_cons in Hin as [-> | Hin]; [discriminate|].
    apply elem_of_cons in Hin as [-> | Hin]; [discriminate|].
    by apply elem_of_nil in Hin.
Qed.

(** A name checked by evaluation to be no data descriptor. *)
Ltac plain_name := apply (bool_decide_unpack _); vm_compute; exact I.

Lemma rbind_returned {A B} (m : result A) (k : A -> result B) (b : B) :
  rbind m k = inr b -> exists a, m = inr a /\ k a = inr b.
Proof.
  destruct m as [e|a]; [discriminate|]. intros Hk. exists a. by split.
Qed.

(** The last statement of [__init__] leaves [frozen_setattr] in the
    dictionary of the instance, under the name [__setattr__]. *)
Lemma init_stores_hook (c : class_name) (data : list (string * pyval))
    (o : instance) :
  __init__ c data = inr o ->
  inst_dict o !! "__setattr__"%string = Some (VFun "frozen_setattr").
Proof.
  unfold __init__. intros Hinit.
  repeat (apply rbind_returned in Hinit as (? & _ & Hinit)).
  apply py_setattr_returned in Hinit as [_ ->].
  apply lookup_insert_eq.
Qed.

(** A record that was constructed takes an assignment to any name that
    is no data descriptor: the assignment returns and the attribute has the
    new value. *)
Lemma init_not_frozen (c : class_name) (data : list (string * pyval))
    (o : instance) (name : string) (value : pyval) :
  __init__ c data = inr o ->
  name ∉ data_descriptors ->
  exists o', py_setattr o name value = inr o' /\
    inst_dict o' !! name = Some value.
Proof.
  intros _ Hname. exists (dict_store o name value).
  split; [by apply py_setattr_stores | apply lookup_insert_eq].
Qed.

Lemma init_not_frozen_witness :
  exists o o',
    PYPDFIUM_INFO pypdfium2_json = inr o /\
    py_setattr o "patch" (VStr "x") = inr o' /\
    inst_dict o' !! "patch"%string = Some (VStr "x").
Proof.
  pose (o := match PYPDFIUM_INFO pypdfium2_json with
             | inr o => o
             | inl _ => mkInstance _version_pypdfium2 ∅
             end).
  assert (Ho : PYPDFIUM_INFO pypdfium2_json = inr o) by (vm_compute; reflexivity).
  assert (Hname : "patch"%string ∉ data_descriptors) by plain_name.
  destruct (init_not_frozen _ _ o "patch" (VStr "x") Ho Hname) as (o' & Hset & Hget).
  exists o, o'. split; [exact Ho|]. split; [exact Hset | exact Hget].
Defined.

(** C7. The code, against the claim that the records are frozen: both
    records are constructed from their descriptors, with [frozen_setattr]
    in the dictionary of the instance, and the assignment of 99 to [major]
    of the wrapper's record, and to [build] of the library's, returns
    without an exception and changes the field. *)
Theorem version_records_take_assignment :
  (exists o o',
     PYPDFIUM_INFO pypdfium2_json = inr o /\
     inst_dict o !! "major"%string = Some (VInt 4) /\
     inst_dict o !! "__setattr__"%string = Some (VFun "frozen_setattr") /\
     py_setattr o "major" (VInt 99) = inr o' /\
     inst_dict o' !! "major"%string = Some (VInt 99))
  /\ (exists o o',
     PDFIUM_INFO pdfium_json = inr o /\
     inst_dict o !! "build"%string = Some (VInt 6517) /\
     inst_dict o !! "__setattr__"%string = Some (VFun "frozen_setattr") /\
     py_setattr o "build" (VInt 99) = inr o' /\
     inst_dict o' !! "build"%string = Some (VInt 99)).
Proof.
  split.
  - exists (constructed (PYPDFIUM_INFO pypdfium2_json)).
    exists (dict_store (constructed (PYPDFIUM_INFO pypdfium2_json)) "major" (VInt 99)).
    repeat split; try (vm_compute; reflexivity).
  - exists (constructed (PDFIUM_INFO pdfium_json)).
    exists (dict_store (constructed (PDFIUM_INFO pdfium_json)) "build" (VInt 99)).
    repeat split; try (vm_compute; reflexivity).
Qed.

End VersionFacts.

(** ** The theorems on the reference implementations *)

Section OnReference.

Import Bitmap Reference.

#[local] Existing Instances RefLib RefTables RefPillow.

(** The constructors and [from_pil] run on the reference implementations
    as recorded. *)
Lemma new_foreign_runs :
  run_ctor (NewForeign 3 3 2 true false) (world0 ∅)
  = (foreign_world, inr foreign_bitmap).
Proof. vm_compute. reflexivity. Qed.

Lemma from_pil_runs :
  from_pil red_blue (world0 ∅) = (red_blue_world, inr red_blue_bitmap).
Proof. vm_compute. reflexivity. Qed.

(** On the reference library: closing the foreign bitmap marks it as
    destroyed in the library, and closing the bitmap of [from_pil] changes
    nothing, its bytes still in the heap. *)
Example close_foreign_on_reference :
  w_lib (fst (close foreign_bitmap foreign_world))
  = [mkBitmapRec 3 3 2 12 4096 true true].
Proof. vm_compute. reflexivity. Qed.

Example close_native_on_reference :
  close red_blue_bitmap red_blue_world = (red_blue_world, inr tt)
  /\ w_heap red_blue_world !! 0%nat = Some [0; 0; 255; 255; 0; 0].
Proof. split; reflexivity. Qed.

Lemma bitmap_ownership_witness :
  needs_free foreign_bitmap = true /\
  forall w1 : World,
    close foreign_bitmap w1
    = (after_call w1 (CDestroy 1) (ref_destroy (w_lib w1) 1), inr tt).
Proof.
  destruct (bitmap_ownership (NewForeign 3 3 2 true false) (world0 ∅)
              foreign_world foreign_bitmap new_foreign_runs)
    as (Hfree & _ & Hclose).
  split; [exact Hfree | exact Hclose].
Defined.

Lemma new_native_rejects_witness :
  new_native 4 2 4 false None (Some 15) (world0 ∅)
  = (world0 ∅, inl AssertionError)
  /\ new_native 4 2 4 false (Some (PyArray 0 31)) None red_blue_world
     = (red_blue_world, inl AssertionError).
Proof.
  split.
  - apply (new_native_rejects 4 2 4 false None (Some 15) 4).
    + vm_compute. reflexivity.
    + left. exists 15. split; [reflexivity | lia].
  - apply (new_native_rejects 4 2 4 false (Some (PyArray 0 31)) None 4).
    + vm_compute. reflexivity.
    + right. exists (PyArray 0 31). split; [reflexivity | cbn; lia].
Defined.

Lemma new_native_packed_witness :
  exists w' bm,
    new_native 2 3 4 false None None (world0 ∅) = (w', inr bm) /\
    stride bm = 2 * 4 /\
    Bitmap.width bm = 2 /\ Bitmap.height bm = 3 /\
    buffer bm = PyArray (length (w_heap (world0 ∅))) (stride bm * 3) /\
    w_heap (world0 ∅) !! length (w_heap (world0 ∅)) = None /\
    w_heap w' = w_heap (world0 ∅) ++ [replicate (Z.to_nat (stride bm * 3)) 0].
Proof.
  apply (new_native_packed 2 3 4 false 4 "BGRA" (world0 ∅)).
  - lia.
  - lia.
  - vm_compute. reflexivity.
  - lia.
  - vm_compute. reflexivity.
  - vm_compute. repeat split; reflexivity.
Defined.

Lemma get_posconv_checks_page_witness :
  get_posconv rendered_bitmap (Some 8%nat) (world0 {[7%nat; 8%nat]})
  = (world0 {[7%nat; 8%nat]},
     inl (RuntimeError "This bitmap does not belong to the given page."))
  /\ get_posconv rendered_bitmap (Some 7%nat) (world0 {[7%nat; 8%nat]})
     = (world0 {[7%nat; 8%nat]}, inr (mkPdfPosConv (Some 7%nat) canvas)).
Proof.
  split.
  - apply (get_posconv_checks_page rendered_bitmap 8 (world0 {[7%nat; 8%nat]})).
    right. exists 7%nat, canvas. split; [reflexivity|]. right. lia.
  - apply (get_posconv_checks_page rendered_bitmap 7 (world0 {[7%nat; 8%nat]})).
    + reflexivity.
    + cbn. set_solver.
Defined.

Lemma posconv_delegates_witness :
  to_page (mkPdfPosConv (Some 7%nat) canvas) 3 4 (world0 ∅)
  = (after_call (world0 ∅) (CDeviceToPage (Some 7%nat) canvas 3 4) [],
     inr (3, 25))
  /\ to_page (mkPdfPosConv None canvas) 3 4 (world0 ∅)
     = (after_call (world0 ∅) (CDeviceToPage None canvas 3 4) [],
        inl (PdfiumError "Failed to translate to page coordinates."))
  /\ snd (to_bitmap (mkPdfPosConv (Some 7%nat) canvas)
            (3 : @c_double RefLib) (25 : @c_double RefLib) (world0 ∅))
     = inr (3, 4)
  /\ snd (to_bitmap (mkPdfPosConv None canvas)
            (3 : @c_double RefLib) (25 : @c_double RefLib) (world0 ∅))
     = inl (PdfiumError "Failed to translate to bitmap coordinates.").
Proof.
  split; [|split; [|split]].
  - apply (proj1 (posconv_delegates (mkPdfPosConv (Some 7%nat) canvas) (world0 ∅)) 3 4).
  - apply (proj1 (posconv_delegates (mkPdfPosConv None canvas) (world0 ∅)) 3 4).
  - apply (proj2 (proj2 (proj2 (proj2 (posconv_delegates
             (mkPdfPosConv (Some 7%nat) canvas) (world0 ∅))
             (3 : @c_double RefLib) (25 : @c_double RefLib))))).
    + vm_compute. discriminate.
    + vm_compute. split; [discriminate | reflexivity].
    + vm_compute. split; [discriminate | reflexivity].
  - apply (proj1 (proj2 (proj2 (posconv_delegates
             (mkPdfPosConv None canvas) (world0 ∅))
             (3 : @c_double RefLib) (25 : @c_double RefLib)))).
    vm_compute. reflexivity.
Defined.

Lemma from_raw_null_pointer_witness :
  from_raw 5 false None (world0 ∅)
  = (after_call (after_getters (world0 ∅) 5) (CGetBuffer 5) [],
     inl (PdfiumError "Failed to get bitmap buffer (null pointer returned)"))
  /\ fst (from_raw 1 false (Some (PyArray 0 6)) red_blue_world)
     = after_getters red_blue_world 1.
Proof.
  destruct (from_raw_null_pointer (L := RefLib) (T := RefTables))
    as (Hnull & Hexternal).
  split.
  - apply (Hnull 5 false (world0 ∅)). vm_compute. reflexivity.
  - apply (Hexternal 1 false (PyArray 0 6) red_blue_world).
Defined.

Lemma from_pil_copies_witness :
  exists source : ref_image,
    pil_source red_blue = inr source /\
    buffer red_blue_bitmap
    = PyArray (length (w_heap (world0 ∅))) (Z.of_nat (length (ref_tobytes source))) /\
    w_heap (world0 ∅) !! length (w_heap (world0 ∅)) = None /\
    w_heap red_blue_world = w_heap (world0 ∅) ++ [ref_tobytes source] /\
    needs_free red_blue_bitmap = false.
Proof.
  apply (from_pil_copies (red_blue : @image RefPillow) (world0 ∅)
           red_blue_world red_blue_bitmap).
  exact from_pil_runs.
Defined.

(** C8, the claim as the specification states it, fails: [from_pil]
    accepts the image [red_blue], and the bitmap it returns is registered
    with the needs-free flag clear; its buffer is an object of the Python
    heap, not memory of the library. *)
Lemma from_pil_not_library_owned :
  exists (w' : World) (bm : PdfBitmap),
    from_pil red_blue (world0 ∅) = (w', inr bm) /\
    needs_free bm <> true /\
    buffer bm = PyArray 0 6 /\
    w_heap w' !! 0%nat = Some [0; 0; 255; 255; 0; 0].
Proof.
  exists red_blue_world, red_blue_bitmap.
  split; [exact from_pil_runs|].
  split; [discriminate|]. split; reflexivity.
Qed.

End OnReference.

(** * Further properties of the code *)

(** A closed decidable proposition, by evaluation. *)
Ltac decide_prop :=
  match goal with
  | |- ?P => apply (bool_decide_unpack P); vm_compute; exact I
  end.

(** ** [utilities.py] *)

Section UtilitiesFacts.

Import Utilities.

(** [translate_rotation] returns on the four right angles and on nothing
    else: the constant it returns is the number of quarter turns, and every
    other rotation raises [ValueError]. *)
Theorem translate_rotation_quarter_turns (rotation : Z) :
  (forall r : Z,
     translate_rotation rotation = inr r <-> 0 <= r <= 3 /\ rotation = 90 * r)
  /\ (translate_rotation rotation = inl ValueError <->
      ~ exists r : Z, 0 <= r <= 3 /\ rotation = 90 * r).
Proof.
  unfold translate_rotation, ret, raise.
  destruct (Z.eqb_spec rotation 0) as [->|H0].
  { split.
    - intros r. split; [intros [= <-]; lia | intros [Hr Heq]; f_equal; lia].
    - split; [discriminate | intros Hno; exfalso; apply Hno; exists 0; lia]. }
  destruct (Z.eqb_spec rotation 90) as [->|H90].
  { split.
    - intros r. split; [intros [= <-]; lia | intros [Hr Heq]; f_equal; lia].
    - split; [discriminate | intros Hno; exfalso; apply Hno; exists 1; lia]. }
  destruct (Z.eqb_spec rotation 180) as [->|H180].
  { split.
    - intros r. split; [intros [= <-]; lia | intros [Hr Heq]; f_equal; lia].
    - split; [discriminate | intros Hno; exfalso; apply Hno; exists 2; lia]. }
  destruct (Z.eqb_spec rotation 270) as [->|H270].
  { split.
    - intros r. split; [intros [= <-]; lia | intros [Hr Heq]; f_equal; lia].
    - split; [discriminate | intros Hno; exfalso; apply Hno; exists 3; lia]. }
  split.
  - intros r. split; [discriminate | intros [Hr Heq]; lia].
  - split; [intros _ (r & Hr & Heq); lia | reflexivity].
Qed.

Lemma translate_rotation_quarter_turns_witness :
  translate_rotation 270 = inr 3 /\ translate_rotation 45 = inl ValueError.
Proof.
  split.
  - apply (proj1 (translate_rotation_quarter_turns 270) 3). lia.
  - apply (proj2 (translate_rotation_quarter_turns 45)).
    intros (r & Hr & Heq). lia.
Defined.

(** The digits [_hex_digits] gives for a byte are two, and read back in
    base 16 they are the byte. *)
Theorem hex_digits_round_trip (c : Z) :
  0 <= c <= 255 ->
  String.length (_hex_digits c) = 2%nat /\ parse_digits 16 (_hex_digits c) = Some c.
Proof.
  intros Hc. rewrite hex_digits_byte by exact Hc.
  destruct (nibbles c Hc) as (H1 & H0 & Ec).
  split; [reflexivity|].
  unfold parse_digits. rewrite !parse_hex_char by assumption.
  cbn [parse_digits_from]. f_equal. lia.
Qed.

Lemma hex_digits_round_trip_witness :
  String.length (_hex_digits 10) = 2%nat /\ parse_digits 16 (_hex_digits 10) = Some 10.
Proof. apply (hex_digits_round_trip 10). lia. Defined.

(** Whatever passes the assertions of [colour_as_hex] is packed by the
    integer it denotes: a [bool] goes in as 1 or 0. *)
Theorem colour_as_hex_denoted (r g b a : pyval) (zr zg zb za : Z) :
  as_int r = Some zr -> as_int g = Some zg ->
  as_int b = Some zb -> as_int a = Some za ->
  0 <= zr <= 255 -> 0 <= zg <= 255 -> 0 <= zb <= 255 -> 0 <= za <= 255 ->
  colour_as_hex r g b a = inr (za * 2 ^ 24 + zr * 2 ^ 16 + zg * 2 ^ 8 + zb).
Proof.
  intros Er Eg Eb Ea Hr Hg Hb Ha. unfold colour_as_hex.
  assert (Hcheck : check_colours [a; r; g; b] = inr [za; zr; zg; zb]).
  { cbn [check_colours]. rewrite Ea, Er, Eg, Eb.
    repeat match goal with
    | |- context [py_assert ((0 <=? ?z) && (?z <=? 255))] =>
        replace ((0 <=? z) && (z <=? 255)) with true by lia; cbn
    end.
    reflexivity. }
  rewrite Hcheck. cbn [rbind].
  apply int_of_hxc_str; assumption.
Qed.

Lemma colour_as_hex_denoted_witness :
  colour_as_hex (VBool true) (VInt 2) (VBool false) (VInt 255) = inr 4278256128.
Proof.
  apply (colour_as_hex_denoted (VBool true) (VInt 2) (VBool false) (VInt 255)
           1 2 0 255); try reflexivity; lia.
Defined.

(** The value [colour_as_hex] returns fits 32 bits, and the four colours
    are read back off it: no two colours are packed alike. *)
Theorem colour_as_hex_unpacks (r g b a : Z) :
  0 <= r <= 255 -> 0 <= g <= 255 -> 0 <= b <= 255 -> 0 <= a <= 255 ->
  exists v : Z,
    colour_as_hex (VInt r) (VInt g) (VInt b) (VInt a) = inr v /\
    0 <= v < 2 ^ 32 /\
    v / 2 ^ 24 = a /\ (v / 2 ^ 16) mod 256 = r /\
    (v / 2 ^ 8) mod 256 = g /\ v mod 256 = b.
Proof.
  intros Hr Hg Hb Ha. eexists. split.
  - apply colour_as_hex_ints; assumption.
  - change (2 ^ 32) with 4294967296. change (2 ^ 24) with 16777216.
    change (2 ^ 16) with 65536. change (2 ^ 8) with 256.
    split; [lia|].
    repeat split.
    + symmetry. apply (Z.div_unique _ _ _ (r * 65536 + g * 256 + b)); lia.
    + replace ((a * 16777216 + r * 65536 + g * 256 + b) / 65536)
        with (a * 256 + r)
        by (apply (Z.div_unique _ _ _ (g * 256 + b)); lia).
      symmetry. apply (Z.mod_unique _ _ a); lia.
    + replace ((a * 16777216 + r * 65536 + g * 256 + b) / 256)
        with (a * 65536 + r * 256 + g)
        by (apply (Z.div_unique _ _ _ b); lia).
      symmetry. apply (Z.mod_unique _ _ (a * 256 + r)); lia.
    + symmetry. apply (Z.mod_unique _ _ (a * 65536 + r * 256 + g)); lia.
Qed.

Lemma colour_as_hex_unpacks_witness :
  exists v : Z,
    colour_as_hex (VInt 1) (VInt 2) (VInt 3) (VInt 4) = inr v /\
    0 <= v < 2 ^ 32 /\
    v / 2 ^ 24 = 4 /\ (v / 2 ^ 16) mod 256 = 1 /\
    (v / 2 ^ 8) mod 256 = 2 /\ v mod 256 = 3.
Proof. apply (colour_as_hex_unpacks 1 2 3 4); lia. Defined.

End UtilitiesFacts.

(** ** [version.py] *)

Section VersionMore.

Import Version.

Lemma py_getattr_dict (o : instance) (name : string) (v : pyval) :
  inst_dict o !! name = Some v -> py_getattr o name = inr v.
Proof. unfold py_getattr. intros ->. reflexivity. Qed.

Lemma get_method_bound (o : instance) (name : string) :
  inst_dict o !! name = None ->
  class_attr (inst_class o) name = Some (VFun name) ->
  get_method o name = inr tt.
Proof.
  intros Hd Hc. unfold get_method, py_getattr. rewrite Hd, Hc. cbn.
  rewrite String.eqb_refl. reflexivity.
Qed.

Lemma append_attr_str (o : instance) (name old text : string) :
  inst_dict o !! name = Some (VStr old) ->
  name ∉ data_descriptors ->
  append_attr o name text = inr (dict_store o name (VStr (old ++ text))).
Proof.
  intros Hd Hname. unfold append_attr. rewrite (py_getattr_dict _ _ _ Hd). cbn.
  by apply py_setattr_stores.
Qed.

Lemma mapM_py_str_ints (zs : list Z) :
  mapM py_str (map VInt zs) = inr (map py_str_int zs).
Proof.
  induction zs as [|z zs IH]; [reflexivity|].
  cbn. rewrite IH. reflexivity.
Qed.

(** [_craft_tag] joins the ciphers of [api_tag] by dots. *)
Lemma craft_tag_dotted (o : instance) (zs : list Z) :
  inst_dict o !! "api_tag"%string = Some (VTuple (map VInt zs)) ->
  _craft_tag o = inr (VStr (dotted zs)).
Proof.
  intros Hd. unfold _craft_tag. rewrite (py_getattr_dict _ _ _ Hd). cbn.
  rewrite mapM_py_str_ints. reflexivity.
Qed.

(** [_craft_desc] gives the local part of the version. *)
Lemma craft_desc_local (o : instance) (n : Z) (hash : option string)
    (suffix : list string) :
  inst_dict o !! "n_commits"%string = Some (VInt n) ->
  inst_dict o !! "hash"%string = Some (opt_val VStr hash) ->
  _craft_desc o suffix = inr (VStr (local_version n hash suffix)).
Proof.
  intros Hn Hh. unfold _craft_desc, local_version.
  rewrite !(py_getattr_dict _ _ _ Hn), (py_getattr_dict _ _ _ Hh).
  cbn [rbind py_gt_zero ret].
  destruct (0 <? n).
  - destruct hash; reflexivity.
  - unfold rbind, ret. destruct (app [] suffix); reflexivity.
Qed.

(** Lookups in an instance after some assignments. *)
Ltac lookup_attr :=
  cbn [dict_store inst_dict inst_class];
  repeat (rewrite lookup_insert_ne by done);
  first [eassumption | apply lookup_insert_eq | apply lookup_empty | reflexivity].

Ltac run_getattr v := rewrite (py_getattr_dict _ _ v) by lookup_attr.

Lemma str_app_nil_r (s : string) : (s ++ "")%string = s.
Proof.
  induction s as [|c s IH]; [reflexivity|].
  change (String c (s ++ "")%string = String c s). f_equal. exact IH.
Qed.

Lemma str_app_assoc (s1 s2 s3 : string) :
  ((s1 ++ s2) ++ s3)%string = (s1 ++ (s2 ++ s3))%string.
Proof.
  induction s1 as [|c s1 IH]; [reflexivity|].
  change (String c ((s1 ++ s2) ++ s3)%string = String c (s1 ++ (s2 ++ s3))%string).
  f_equal. exact IH.
Qed.

Lemma instance_eq (c : class_name) (d1 d2 : gmap string pyval) :
  d1 = d2 -> mkInstance c d1 = mkInstance c d2.
Proof. intros ->. reflexivity. Qed.

(** The hook of the wrapper's record on an instance that holds the fields
    of a descriptor: it sets [tag] and [desc], and nothing else. *)
Lemma hook_pypdfium2_run (self : instance) (zs : list Z) (beta : option Z)
    (n : Z) (hash : option string) (dirty : bool) (data_source : string)
    (is_editable : option bool) :
  inst_class self = _version_pypdfium2 ->
  inst_dict self !! "_craft_tag"%string = None ->
  inst_dict self !! "_craft_desc"%string = None ->
  inst_dict self !! "api_tag"%string = Some (VTuple (map VInt zs)) ->
  inst_dict self !! "beta"%string = Some (opt_val VInt beta) ->
  inst_dict self !! "n_commits"%string = Some (VInt n) ->
  inst_dict self !! "hash"%string = Some (opt_val VStr hash) ->
  inst_dict self !! "dirty"%string = Some (VBool dirty) ->
  inst_dict self !! "data_source"%string = Some (VStr data_source) ->
  inst_dict self !! "is_editable"%string = Some (opt_val VBool is_editable) ->
  _hook_pypdfium2 self
  = inr (dict_store
           (dict_store self "tag"
              (VStr (dotted zs
                     ++ match beta with Some b => "b" ++ py_str_int b | None => "" end)))
           "desc" (VStr (pypdfium2_desc n hash dirty data_source is_editable))).
Proof.
  intros Hcls Hm1 Hm2 Htag Hbeta Hn Hhash Hdirty Hsrc Hed.
  unfold _hook_pypdfium2, pypdfium2_desc.
  destruct (String.eqb data_source "git") eqn:Hgit.
  all: destruct beta as [b|], dirty, is_editable as [[|]|].
  all: cbn [opt_val] in *.
  all: repeat first
    [ rewrite get_method_bound
        by (first [lookup_attr | cbn [dict_store inst_class]; rewrite Hcls; reflexivity])
    | rewrite (craft_tag_dotted _ zs) by lookup_attr
    | rewrite (craft_desc_local _ n hash) by lookup_attr
    | rewrite py_setattr_stores by decide_prop
    | erewrite py_getattr_dict by lookup_attr
    | erewrite append_attr_str by first [lookup_attr | decide_prop]
    | rewrite Hgit
    | progress cbn [rbind ret py_str py_truthy py_ne_str negb opt_val] ].
  all: unfold dict_store; cbn [inst_dict inst_class].
  all: rewrite ?insert_insert_eq.
  all: rewrite ?str_app_assoc, ?str_app_nil_r.
  all: reflexivity.
Qed.

(** The loop over the items of a descriptor none of whose names is a data
    descriptor does not raise: it stores every item, a later one over an
    earlier one of the same name. *)
Lemma set_items_stores (self : instance) (items : list (string * pyval)) :
  (forall name, name ∈ data_descriptors -> name ∉ map fst items) ->
  set_items self items
  = inr (fold_left (fun o kv => dict_store o (fst kv) (snd kv)) items self).
Proof.
  revert self. induction items as [|[k v] items IH]; intros self Hplain;
    [reflexivity|].
  cbn [set_items fold_left fst snd]. rewrite py_setattr_stores; cycle 1.
  { intros Hk. apply (Hplain k Hk). cbn [map fst]. apply elem_of_cons. by left. }
  cbn [rbind]. apply IH.
  intros name Hname Hin. apply (Hplain name Hname).
  cbn [map fst]. apply elem_of_cons. by right.
Qed.

(** The loop stops at the first name that is a data descriptor, with the
    error of [object.__setattr__]: no record is constructed from such a
    descriptor. *)
Remark init_descriptor_key (c : class_name) (before after : list (string * pyval))
    (k : string) (v : pyval) :
  (forall name, name ∈ data_descriptors -> name ∉ map fst before) ->
  k ∈ data_descriptors ->
  __init__ c (before ++ (k, v) :: after)
  = inl (if String.eqb k "__weakref__" then AttributeError k else TypeError).
Proof.
  intros Hplain Hk. unfold __init__.
  assert (Hloop : forall self,
    set_items self (before ++ (k, v) :: after)
    = inl (if String.eqb k "__weakref__" then AttributeError k else TypeError)).
  { induction before as [|[k' v'] before IH]; intros self.
    - cbn [app set_items]. unfold py_setattr, object_setattr.
      rewrite no_class_setattr. unfold data_descriptors in Hk.
      apply elem_of_cons in Hk as [-> | Hk]; [reflexivity|].
      apply elem_of_cons in Hk as [-> | Hk]; [reflexivity|].
      apply elem_of_cons in Hk as [-> | Hk]; [reflexivity|].
      by apply elem_of_nil in Hk.
    - cbn [app set_items]. rewrite py_setattr_stores; cycle 1.
      { intros Hk'. apply (Hplain k' Hk'). cbn [map fst]. apply elem_of_cons. by left. }
      cbn [rbind]. apply IH.
      intros name Hname Hin. apply (Hplain name Hname).
      cbn [map fst]. apply elem_of_cons. by right. }
  rewrite Hloop. reflexivity.
Qed.

(** A loop that returned has stored every item. *)
Lemma set_items_returned (self o : instance) (items : list (string * pyval)) :
  set_items self items = inr o ->
  o = fold_left (fun o kv => dict_store o (fst kv) (snd kv)) items self.
Proof.
  revert self. induction items as [|[k v] items IH]; intros self.
  { intros [= <-]. reflexivity. }
  cbn [set_items fold_left fst snd]. intros Hrun.
  apply rbind_returned in Hrun as (self' & Hset & Hrun).
  apply py_setattr_returned in Hset as [_ ->]. apply IH, Hrun.
Qed.

(** The names of a descriptor given by its items are no data descriptors. *)
Ltac plain_names :=
  let Hd := fresh "Hd" in
  intros ? Hd; unfold data_descriptors in Hd;
  repeat (apply elem_of_cons in Hd as [-> | Hd]; [decide_prop|]);
  by apply elem_of_nil in Hd.

(** The class attribute [_TAG_FIELDS] of the two records. *)
Lemma tag_fields_attr (o : instance) :
  inst_class o <> _version_interface ->
  inst_dict o !! "_TAG_FIELDS"%string = None ->
  py_getattr o "_TAG_FIELDS" = inr (VTuple (map VStr (tag_fields (inst_class o)))).
Proof.
  intros Hc Hd. unfold py_getattr. rewrite Hd.
  destruct (inst_class o); [contradiction | reflexivity | reflexivity].
Qed.

(** The version of the wrapper, for a descriptor with the documented
    fields: construction returns, [api_tag] is the three ciphers, [tag] is
    the ciphers joined by dots with the beta cipher after a [b], [desc] is
    the local part (commits and hash, [dirty]), the data source unless it
    is git, and the editable mark; [version] is [tag] followed by [desc]. *)
Theorem pypdfium2_version_string (major minor patch : Z) (beta : option Z)
    (n_commits : Z) (hash : option string) (dirty : bool)
    (data_source : string) (is_editable : option bool) :
  exists o : instance,
    PYPDFIUM_INFO
      (pypdfium2_descriptor major minor patch beta n_commits hash dirty
         data_source is_editable) = inr o /\
    inst_dict o !! "api_tag"%string
    = Some (VTuple [VInt major; VInt minor; VInt patch]) /\
    inst_dict o !! "tag"%string
    = Some (VStr (pypdfium2_tag major minor patch beta)) /\
    inst_dict o !! "desc"%string
    = Some (VStr (pypdfium2_desc n_commits hash dirty data_source is_editable)) /\
    inst_dict o !! "version"%string
    = Some (VStr (pypdfium2_tag major minor patch beta
                  ++ pypdfium2_desc n_commits hash dirty data_source is_editable)).
Proof.
  unfold PYPDFIUM_INFO, __init__, pypdfium2_descriptor.
  rewrite set_items_stores by plain_names. cbn [rbind ret fold_left fst snd].
  rewrite tag_fields_attr by (first [discriminate | lookup_attr]).
  cbn [rbind ret py_iter dict_store inst_class tag_fields map].
  change (mapM (data_getitem _) [VStr "major"; VStr "minor"; VStr "patch"])
    with (@inr exn _ [VInt major; VInt minor; VInt patch]).
  cbn [rbind ret]. rewrite py_setattr_stores by decide_prop. cbn [rbind ret].
  unfold call_hook.
  rewrite get_method_bound by (first [lookup_attr | reflexivity]).
  cbn [rbind ret dict_store inst_class].
  rewrite (hook_pypdfium2_run _ [major; minor; patch] beta n_commits hash dirty
             data_source is_editable) by (first [reflexivity | lookup_attr]).
  cbn [rbind ret].
  erewrite py_getattr_dict by lookup_attr. cbn [rbind ret].
  erewrite py_getattr_dict by lookup_attr. cbn [rbind py_add ret].
  rewrite !py_setattr_stores by decide_prop. cbn [rbind ret].
  eexists. split; [reflexivity|].
  repeat split; lookup_attr.
Qed.

Lemma py_join_strs (sep : string) (strs : list string) :
  py_join sep (map VStr strs) = inr (String.concat sep strs).
Proof.
  unfold py_join.
  assert (Hmap : mapM (fun v => match v with VStr s => ret s | _ => raise TypeError end)
                   (map VStr strs) = inr strs).
  { induction strs as [|s strs IH]; [reflexivity|].
    cbn [map mapM rbind ret]. rewrite IH. reflexivity. }
  rewrite Hmap. reflexivity.
Qed.

Lemma truthy_strs (strs : list string) :
  py_truthy (VTuple (map VStr strs)) = match strs with [] => false | _ => true end.
Proof. destruct strs; reflexivity. Qed.

(** The hook of the library's record on an instance that holds the fields
    of a descriptor: it turns [flags] into a tuple and sets [tag] and
    [desc]. *)
Lemma hook_pdfium_run (self : instance) (zs : list Z) (n : Z)
    (hash : option string) (origin : string) (flags : list string) :
  inst_class self = _version_pdfium ->
  inst_dict self !! "_craft_tag"%string = None ->
  inst_dict self !! "_craft_desc"%string = None ->
  inst_dict self !! "api_tag"%string = Some (VTuple (map VInt zs)) ->
  inst_dict self !! "flags"%string = Some (VList (map VStr flags)) ->
  inst_dict self !! "n_commits"%string = Some (VInt n) ->
  inst_dict self !! "hash"%string = Some (opt_val VStr hash) ->
  inst_dict self !! "origin"%string = Some (VStr origin) ->
  _hook_pdfium self
  = inr (dict_store
           (dict_store
              (dict_store self "flags" (VTuple (map VStr flags)))
              "tag" (VStr (dotted zs)))
           "desc" (VStr (pdfium_desc n hash origin flags))).
Proof.
  intros Hcls Hm1 Hm2 Htag Hflags Hn Hhash Horigin.
  unfold _hook_pdfium, pdfium_desc.
  destruct (String.eqb origin "pdfium-binaries") eqn:Hbin.
  all: repeat first
    [ rewrite get_method_bound
        by (first [lookup_attr | cbn [dict_store inst_class]; rewrite Hcls; reflexivity])
    | rewrite (craft_tag_dotted _ zs) by lookup_attr
    | rewrite (craft_desc_local _ n hash) by lookup_attr
    | rewrite py_setattr_stores by decide_prop
    | rewrite py_join_strs
    | rewrite truthy_strs
    | erewrite py_getattr_dict by lookup_attr
    | progress cbn [rbind ret py_iter] ].
  all: destruct flags as [|flag flags].
  all: repeat first
    [ rewrite py_join_strs
    | rewrite py_setattr_stores by decide_prop
    | erewrite append_attr_str by first [lookup_attr | decide_prop]
    | erewrite py_getattr_dict by lookup_attr
    | rewrite Hbin
    | progress cbn [rbind ret py_str py_ne_str negb py_iter] ].
  all: unfold dict_store; cbn [inst_dict inst_class].
  all: rewrite ?insert_insert_eq.
  all: rewrite ?str_app_assoc, ?str_app_nil_r.
  all: reflexivity.
Qed.

(** The version of the library, for a descriptor with the documented
    fields: [tag] is the four ciphers joined by dots, [desc] the local part,
    the feature flags in braces when there are any and the origin unless
    the binary is one of pdfium-binaries; [flags] has become a tuple. *)
Theorem pdfium_version_string (major minor build patch : Z)
    (n_commits : Z) (hash : option string) (origin : string)
    (flags : list string) :
  exists o : instance,
    PDFIUM_INFO
      (pdfium_descriptor major minor build patch n_commits hash origin flags)
    = inr o /\
    inst_dict o !! "api_tag"%string
    = Some (VTuple [VInt major; VInt minor; VInt build; VInt patch]) /\
    inst_dict o !! "flags"%string = Some (VTuple (map VStr flags)) /\
    inst_dict o !! "tag"%string = Some (VStr (dotted [major; minor; build; patch])) /\
    inst_dict o !! "desc"%string
    = Some (VStr (pdfium_desc n_commits hash origin flags)) /\
    inst_dict o !! "version"%string
    = Some (VStr (dotted [major; minor; build; patch]
                  ++ pdfium_desc n_commits hash origin flags)).
Proof.
  unfold PDFIUM_INFO, __init__, pdfium_descriptor.
  rewrite set_items_stores by plain_names. cbn [rbind ret fold_left fst snd].
  rewrite tag_fields_attr by (first [discriminate | lookup_attr]).
  cbn [rbind ret py_iter dict_store inst_class tag_fields map].
  change (mapM (data_getitem _)
            [VStr "major"; VStr "minor"; VStr "build"; VStr "patch"])
    with (@inr exn _ [VInt major; VInt minor; VInt build; VInt patch]).
  cbn [rbind ret]. rewrite py_setattr_stores by decide_prop. cbn [rbind ret].
  unfold call_hook.
  rewrite get_method_bound by (first [lookup_attr | reflexivity]).
  cbn [rbind ret dict_store inst_class].
  rewrite (hook_pdfium_run _ [major; minor; build; patch] n_commits hash origin
             flags) by (first [reflexivity | lookup_attr]).
  cbn [rbind ret].
  erewrite py_getattr_dict by lookup_attr. cbn [rbind ret].
  erewrite py_getattr_dict by lookup_attr. cbn [rbind ret py_add].
  rewrite !py_setattr_stores by decide_prop. cbn [rbind ret].
  eexists. split; [reflexivity|].
  repeat split; lookup_attr.
Qed.

Lemma stored_class (self : instance) (items : list (string * pyval)) :
  inst_class (stored self items) = inst_class self.
Proof.
  revert self. induction items as [|[k v] items IH]; intros self; [reflexivity|].
  unfold stored in *. cbn [fold_left]. rewrite IH. reflexivity.
Qed.

Lemma stored_absent (self : instance) (items : list (string * pyval)) (k : string) :
  k ∉ map fst items ->
  inst_dict (stored self items) !! k = inst_dict self !! k.
Proof.
  revert self. induction items as [|[k' v] items IH]; intros self Hk; [reflexivity|].
  unfold stored in *. cbn [fold_left fst snd]. cbn [map fst] in Hk.
  apply not_elem_of_cons in Hk as [Hne Hk].
  rewrite IH by exact Hk. cbn [dict_store inst_dict].
  apply lookup_insert_ne. congruence.
Qed.

Lemma stored_present (self : instance) (items : list (string * pyval))
    (k : string) (v : pyval) :
  NoDup (map fst items) -> (k, v) ∈ items ->
  inst_dict (stored self items) !! k = Some v.
Proof.
  revert self. induction items as [|[k' v'] items IH]; intros self Hnd Hin.
  { by apply elem_of_nil in Hin. }
  cbn [map fst] in Hnd. apply NoDup_cons in Hnd as [Hfresh Hnd].
  unfold stored in *. cbn [fold_left fst snd].
  apply elem_of_cons in Hin as [[= -> ->]|Hin].
  - fold (stored (dict_store self k' v') items).
    rewrite stored_absent by exact Hfresh.
    apply lookup_insert_eq.
  - apply IH; assumption.
Qed.

(** [data[k]] finds the value of a key of the descriptor and raises
    [KeyError] on any other string. *)
Lemma data_getitem_present (data : list (string * pyval)) (k : string) :
  k ∈ map fst data -> exists v, data_getitem data (VStr k) = inr v /\ (k, v) ∈ data.
Proof.
  intros Hin. unfold data_getitem.
  destruct (find (fun kv => String.eqb (fst kv) k) data) as [[k' v]|] eqn:Hfind.
  - apply find_some in Hfind as [Hin' Heq]. apply String.eqb_eq in Heq.
    cbn in Heq. subst k'. exists v. split; [reflexivity|].
    by apply list_elem_of_In.
  - exfalso. apply list_elem_of_fmap in Hin as ([k' v] & -> & Hin).
    apply list_elem_of_In in Hin.
    pose proof (find_none _ _ Hfind _ Hin) as Hne. cbn in Hne.
    rewrite String.eqb_refl in Hne. discriminate.
Qed.

Lemma data_getitem_absent (data : list (string * pyval)) (k : string) :
  k ∉ map fst data -> data_getitem data (VStr k) = inl (KeyError (VStr k)).
Proof.
  intros Hout. unfold data_getitem.
  destruct (find (fun kv => String.eqb (fst kv) k) data) as [[k' v]|] eqn:Hfind;
    [|reflexivity].
  exfalso. apply find_some in Hfind as [Hin Heq]. apply String.eqb_eq in Heq.
  cbn in Heq. subst k'. apply Hout. apply list_elem_of_fmap.
  exists (k, v). split; [reflexivity | by apply list_elem_of_In].
Qed.

Lemma mapM_first_missing (data : list (string * pyval))
    (present : list string) (k : string) (rest : list string) :
  (forall f, f ∈ present -> f ∈ map fst data) -> k ∉ map fst data ->
  mapM (data_getitem data) (map VStr (present ++ k :: rest))
  = inl (KeyError (VStr k)).
Proof.
  intros Hpresent Hk. induction present as [|f present IH]; cbn [app map mapM].
  - rewrite data_getitem_absent by exact Hk. reflexivity.
  - destruct (data_getitem_present data f) as (v & -> & _).
    { apply Hpresent. apply elem_of_cons. by left. }
    cbn [rbind]. rewrite IH; [reflexivity|].
    intros f' Hf'. apply Hpresent. apply elem_of_cons. by right.
Qed.

(** A descriptor that lacks one of the ciphers of the tag does not
    construct a record: when its names can all be assigned (none is a data
    descriptor of the instance) and none shadows [_TAG_FIELDS], [__init__]
    raises [KeyError] for the first tag field that is missing, after it has
    stored the fields there are. *)
Theorem init_missing_cipher (c : class_name) (data : list (string * pyval))
    (present : list string) (k : string) (rest : list string) :
  c <> _version_interface ->
  (forall name, name ∈ data_descriptors -> name ∉ map fst data) ->
  "_TAG_FIELDS"%string ∉ map fst data ->
  tag_fields c = present ++ k :: rest ->
  (forall f, f ∈ present -> f ∈ map fst data) ->
  k ∉ map fst data ->
  __init__ c data = inl (KeyError (VStr k)).
Proof.
  intros Hc Hplain Hshadow Hfields Hpresent Hk. unfold __init__.
  rewrite set_items_stores by exact Hplain. cbn [rbind ret].
  fold (stored (mkInstance c ∅) data).
  rewrite tag_fields_attr.
  - rewrite stored_class. cbn [inst_class rbind ret py_iter].
    rewrite Hfields, mapM_first_missing by assumption. reflexivity.
  - rewrite stored_class. exact Hc.
  - rewrite stored_absent by exact Hshadow. apply lookup_empty.
Qed.

Lemma init_missing_cipher_witness :
  PYPDFIUM_INFO [("major", VInt 4); ("patch", VInt 0)]%string
  = inl (KeyError (VStr "minor")).
Proof.
  apply (init_missing_cipher _version_pypdfium2
           [("major", VInt 4); ("patch", VInt 0)]%string ["major"%string]
           "minor" ["patch"%string]).
  - discriminate.
  - plain_names.
  - decide_prop.
  - reflexivity.
  - intros f Hf. apply list_elem_of_singleton in Hf as ->. decide_prop.
  - decide_prop.
Defined.

Lemma same_but_refl (names : list string) (o : instance) : same_but names o o.
Proof. split; [reflexivity | intros; reflexivity]. Qed.

Lemma same_but_trans (names : list string) (o1 o2 o3 : instance) :
  same_but names o1 o2 -> same_but names o2 o3 -> same_but names o1 o3.
Proof.
  intros [Hc12 Hd12] [Hc23 Hd23]. split; [congruence|].
  intros k Hk. rewrite Hd23, Hd12 by exact Hk. reflexivity.
Qed.

Lemma setattr_same_but (names : list string) (o o' : instance) (name : string)
    (v : pyval) :
  name ∈ names -> py_setattr o name v = inr o' -> same_but names o o'.
Proof.
  intros Hin Hset. apply py_setattr_returned in Hset as [_ ->].
  split; [reflexivity|].
  intros k Hk. cbn [dict_store inst_dict]. apply lookup_insert_ne.
  intros ->. contradiction.
Qed.

Lemma append_same_but (names : list string) (o o' : instance) (name text : string) :
  name ∈ names -> append_attr o name text = inr o' -> same_but names o o'.
Proof.
  intros Hin Hrun. unfold append_attr in Hrun.
  apply rbind_returned in Hrun as (old & _ & Hrun).
  apply rbind_returned in Hrun as (new & _ & Hrun).
  apply (setattr_same_but names) in Hrun; assumption.
Qed.

(** Turns the steps of a run that returned into what each left unchanged. *)
Ltac frame_steps names :=
  repeat match goal with
  | H : rbind _ _ = inr _ |- _ => apply rbind_returned in H as (? & ? & H)
  | H : ret _ = inr _ |- _ => unfold ret in H; injection H as H; subst
  | H : py_setattr _ ?n _ = inr _ |- _ =>
      apply (setattr_same_but names) in H; [|decide_prop]
  | H : append_attr _ ?n _ = inr _ |- _ =>
      apply (append_same_but names) in H; [|decide_prop]
  | H : (if ?b then _ else _) = inr _ |- _ => destruct b
  | H : match ?x with _ => _ end = inr _ |- _ => destruct x
  end.

Ltac frame_chain :=
  solve [repeat first
    [ eassumption
    | apply same_but_refl
    | eapply same_but_trans; [eassumption|] ]].

(** The hooks leave every attribute but the ones they compute. *)
Lemma hook_pypdfium2_frame (self self' : instance) :
  _hook_pypdfium2 self = inr self' -> same_but derived_names self self'.
Proof.
  unfold _hook_pypdfium2. intros Hrun.
  frame_steps derived_names; frame_chain.
Qed.

Lemma hook_pdfium_frame (self self' : instance) :
  _hook_pdfium self = inr self' -> same_but derived_names self self'.
Proof.
  unfold _hook_pdfium. intros Hrun.
  frame_steps derived_names; frame_chain.
Qed.

Lemma call_hook_frame (self self' : instance) :
  call_hook self = inr self' -> same_but derived_names self self'.
Proof.
  unfold call_hook. intros Hrun.
  apply rbind_returned in Hrun as ([] & _ & Hrun).
  destruct (inst_class self); [discriminate | |].
  - apply hook_pypdfium2_frame, Hrun.
  - apply hook_pdfium_frame, Hrun.
Qed.

(** The steps of a construction that returned: the instance after the
    hook, and the record, which adds [version] and [__setattr__] to it. *)
Lemma init_returned (c : class_name) (data : list (string * pyval)) (o : instance) :
  __init__ c data = inr o ->
  exists hooked tag desc version,
    same_but derived_names (stored (mkInstance c ∅) data) hooked /\
    py_getattr hooked "tag" = inr tag /\
    py_getattr hooked "desc" = inr desc /\
    py_add tag desc = inr version /\
    o = dict_store (dict_store hooked "version" version)
          "__setattr__" (VFun "frozen_setattr").
Proof.
  unfold __init__. intros Hrun.
  apply rbind_returned in Hrun as (self0 & Hitems & Hrun).
  apply set_items_returned in Hitems as ->.
  fold (stored (mkInstance c ∅) data) in Hrun.
  apply rbind_returned in Hrun as (fields & _ & Hrun).
  apply rbind_returned in Hrun as (keys & _ & Hrun).
  apply rbind_returned in Hrun as (api_tag & _ & Hrun).
  apply rbind_returned in Hrun as (self1 & Hset & Hrun).
  apply rbind_returned in Hrun as (hooked & Hhook & Hrun).
  apply rbind_returned in Hrun as (tag & Htag & Hrun).
  apply rbind_returned in Hrun as (desc & Hdesc & Hrun).
  apply rbind_returned in Hrun as (version & Hadd & Hrun).
  apply rbind_returned in Hrun as (self2 & Hversion & Hrun).
  apply py_setattr_returned in Hversion as [_ ->].
  apply py_setattr_returned in Hrun as [_ ->].
  apply (setattr_same_but derived_names) in Hset; [|decide_prop].
  apply call_hook_frame in Hhook.
  exists hooked, tag, desc, version.
  split; [exact (same_but_trans _ _ _ _ Hset Hhook)|].
  repeat split; assumption.
Qed.

(** Every field of the descriptor is an attribute of the record, with its
    value, unless its name is one of the attributes the construction
    computes. *)
Theorem init_keeps_fields (c : class_name) (data : list (string * pyval))
    (o : instance) (k : string) (v : pyval) :
  __init__ c data = inr o ->
  NoDup (map fst data) -> (k, v) ∈ data -> k ∉ derived_names ->
  inst_dict o !! k = Some v.
Proof.
  intros Hinit Hnd Hin Hk.
  apply init_returned in Hinit as (hooked & tag & desc & version & Hsame & _ & _ & _ & ->).
  destruct Hsame as [_ Hsame].
  assert (Hv : k <> "version"%string) by (intros ->; apply Hk; decide_prop).
  assert (Hs : k <> "__setattr__"%string) by (intros ->; apply Hk; decide_prop).
  cbn [dict_store inst_dict].
  rewrite lookup_insert_ne by congruence.
  rewrite lookup_insert_ne by congruence.
  rewrite Hsame by exact Hk.
  apply stored_present; assumption.
Qed.

Lemma init_keeps_fields_witness :
  inst_dict (constructed (PYPDFIUM_INFO pypdfium2_json)) !! "data_source"%string
  = Some (VStr "git").
Proof.
  apply (init_keeps_fields _version_pypdfium2 pypdfium2_json).
  - vm_compute. reflexivity.
  - decide_prop.
  - unfold pypdfium2_json.
    repeat (apply elem_of_cons; first [left; reflexivity | right]).
  - decide_prop.
Defined.

Lemma py_getattr_plain (o : instance) (name : string) (v : pyval) :
  class_attr (inst_class o) name = None ->
  py_getattr o name = inr v -> inst_dict o !! name = Some v.
Proof.
  intros Hc. unfold py_getattr. rewrite Hc.
  destruct (inst_dict o !! name); [intros [= ->]; reflexivity | discriminate].
Qed.

(** On every record that was constructed, [tag] and [desc] are strings
    and [version] is [tag] followed by [desc]. *)
Theorem init_version_joined (c : class_name) (data : list (string * pyval))
    (o : instance) :
  __init__ c data = inr o ->
  exists tag desc : string,
    inst_dict o !! "tag"%string = Some (VStr tag) /\
    inst_dict o !! "desc"%string = Some (VStr desc) /\
    inst_dict o !! "version"%string = Some (VStr (tag ++ desc)).
Proof.
  intros Hinit.
  apply init_returned in Hinit as (hooked & tag & desc & version & _ & Htag & Hdesc & Hadd & ->).
  apply py_getattr_plain in Htag; [|destruct (inst_class hooked); reflexivity].
  apply py_getattr_plain in Hdesc; [|destruct (inst_class hooked); reflexivity].
  destruct tag as [| | | |t| | |], desc as [| | | |d| | |]; try discriminate.
  injection Hadd as <-.
  exists t, d. repeat split; lookup_attr.
Qed.

Lemma init_version_joined_witness :
  exists tag desc : string,
    inst_dict (constructed (PDFIUM_INFO pdfium_json)) !! "tag"%string
    = Some (VStr tag) /\
    inst_dict (constructed (PDFIUM_INFO pdfium_json)) !! "desc"%string
    = Some (VStr desc) /\
    inst_dict (constructed (PDFIUM_INFO pdfium_json)) !! "version"%string
    = Some (VStr (tag ++ desc)).
Proof.
  apply (init_version_joined _version_pdfium pdfium_json).
  vm_compute. reflexivity.
Defined.

Lemma data_value_unique (data : list (string * pyval)) (k : string) (v v' : pyval) :
  NoDup (map fst data) -> (k, v) ∈ data -> (k, v') ∈ data -> v = v'.
Proof.
  induction data as [|[k0 v0] data IH]; intros Hnd Hin Hin'.
  { by apply elem_of_nil in Hin. }
  cbn [map fst] in Hnd. apply NoDup_cons in Hnd as [Hfresh Hnd].
  apply elem_of_cons in Hin as [[= -> ->]|Hin];
    apply elem_of_cons in Hin' as [[= ?]|Hin'].
  - congruence.
  - exfalso. apply Hfresh. apply list_elem_of_fmap. exists (k0, v'). by split.
  - subst. exfalso. apply Hfresh. apply list_elem_of_fmap. exists (k0, v). by split.
  - apply IH; assumption.
Qed.

Lemma data_getitem_value (data : list (string * pyval)) (k : string) (v : pyval) :
  NoDup (map fst data) -> (k, v) ∈ data -> data_getitem data (VStr k) = inr v.
Proof.
  intros Hnd Hin.
  destruct (data_getitem_present data k) as (v' & -> & Hin').
  { apply list_elem_of_fmap. exists (k, v). by split. }
  f_equal. exact (data_value_unique _ _ _ _ Hnd Hin' Hin).
Qed.

(** A descriptor of the wrapper that has its three ciphers but no [beta]
    does not construct a record either, and fails otherwise than for a
    missing cipher: when its names can all be assigned (none is a data
    descriptor of the instance) and none shadows a name of the classes, the
    hook reads the attribute, and the error is [AttributeError]. *)
Theorem init_missing_beta (data : list (string * pyval)) (major minor patch : Z) :
  NoDup (map fst data) ->
  ("major"%string, VInt major) ∈ data ->
  ("minor"%string, VInt minor) ∈ data ->
  ("patch"%string, VInt patch) ∈ data ->
  "beta"%string ∉ map fst data ->
  (forall name, name ∈ data_descriptors -> name ∉ map fst data) ->
  (forall name, name ∈ class_names -> name ∉ map fst data) ->
  PYPDFIUM_INFO data = inl (AttributeError "beta").
Proof.
  intros Hnd Hmajor Hminor Hpatch Hbeta Hplain Hnames.
  assert (Hfields : "_TAG_FIELDS"%string ∉ map fst data)
    by (apply Hnames; decide_prop).
  assert (Hhook : "_hook"%string ∉ map fst data) by (apply Hnames; decide_prop).
  assert (Hcraft : "_craft_tag"%string ∉ map fst data) by (apply Hnames; decide_prop).
  unfold PYPDFIUM_INFO, __init__. rewrite set_items_stores by exact Hplain.
  cbn [rbind ret].
  fold (stored (mkInstance _version_pypdfium2 ∅) data).
  set (self := stored (mkInstance _version_pypdfium2 ∅) data).
  assert (Hclass : inst_class self = _version_pypdfium2) by apply stored_class.
  assert (Habsent : forall k, k ∉ map fst data -> inst_dict self !! k = None).
  { intros k Hk. subst self. rewrite stored_absent by exact Hk. apply lookup_empty. }
  rewrite tag_fields_attr by (first [rewrite Hclass; discriminate | auto]).
  rewrite Hclass. cbn [rbind ret py_iter tag_fields map mapM].
  rewrite !(data_getitem_value data _ _ Hnd) by eassumption.
  cbn [rbind ret]. rewrite py_setattr_stores by decide_prop. cbn [rbind ret].
  unfold call_hook.
  rewrite get_method_bound; cycle 1.
  { cbn [dict_store inst_dict]. rewrite lookup_insert_ne by done. auto. }
  { cbn [dict_store inst_class]. rewrite Hclass. reflexivity. }
  cbn [rbind ret dict_store inst_class]. rewrite Hclass.
  unfold _hook_pypdfium2.
  rewrite get_method_bound; cycle 1.
  { cbn [dict_store inst_dict]. rewrite lookup_insert_ne by done. auto. }
  { cbn [dict_store inst_class]. rewrite Hclass. reflexivity. }
  rewrite (craft_tag_dotted _ [major; minor; patch])
    by (cbn [dict_store inst_dict]; apply lookup_insert_eq).
  cbn [rbind ret]. rewrite py_setattr_stores by decide_prop. cbn [rbind ret].
  unfold py_getattr at 1. cbn [dict_store inst_dict inst_class].
  rewrite !lookup_insert_ne by done. rewrite (Habsent _ Hbeta), Hclass.
  reflexivity.
Qed.

Lemma init_missing_beta_witness :
  PYPDFIUM_INFO [("major", VInt 4); ("minor", VInt 30); ("patch", VInt 0)]%string
  = inl (AttributeError "beta").
Proof.
  apply (init_missing_beta
           [("major", VInt 4); ("minor", VInt 30); ("patch", VInt 0)]%string 4 30 0).
  - decide_prop.
  - repeat (apply elem_of_cons; first [left; reflexivity | right]).
  - repeat (apply elem_of_cons; first [left; reflexivity | right]).
  - repeat (apply elem_of_cons; first [left; reflexivity | right]).
  - decide_prop.
  - plain_names.
  - intros name Hin. unfold class_names in Hin.
    repeat (apply elem_of_cons in Hin as [->|Hin]; [decide_prop|]).
    by apply elem_of_nil in Hin.
Defined.

End VersionMore.

(** ** [_helpers/bitmap.py] *)

Section BitmapMore.

Import Bitmap BitmapViews.

Context {L : NativeLib} {T : InternalTables} {P : Pillow}.

(** [from_raw] only reads: whether it returns or raises, the state of the
    library, the Python heap and the pages are as before, and the trace
    has grown by the getters alone. *)
Theorem from_raw_reads_only (raw : handle) (rev : bool) (ex : option cbuffer)
    (w : World) :
  let w' := fst (from_raw raw rev ex w) in
  w_lib w' = w_lib w /\ w_heap w' = w_heap w /\ w_pages w' = w_pages w /\
  w_calls w'
  = w_calls w
    ++ [CGetWidth raw; CGetHeight raw; CGetFormat raw; CGetStride raw]
    ++ match ex with None => [CGetBuffer raw] | Some _ => [] end.
Proof.
  destruct ex as [b|]; cbn zeta.
  - rewrite from_raw_external. cbn. repeat split. 
  - rewrite from_raw_internal. cbn. repeat split.
    rewrite <- app_assoc. reflexivity.
Qed.

(** Every constructor ends in [from_raw]. *)
Lemma ctor_from_raw (c : ctor_call) (w w' : World) (bm : PdfBitmap) :
  run_ctor c w = (w', inr bm) ->
  exists (w1 : World) (raw : handle) (rev : bool) (ex : option cbuffer),
    from_raw raw rev ex w1 = (w', inr bm).
Proof.
  destruct c as [raw rev ex | width height format rev buf stride
                 | width height format rev packed | width height alpha rev];
    cbn [run_ctor]; intros Hrun.
  - eauto.
  - unfold new_native in Hrun.
    apply mbind_returned in Hrun as (? & ? & _ & Hrun).
    apply mbind_returned in Hrun as (? & ? & _ & Hrun).
    apply mbind_returned in Hrun as (? & ? & _ & Hrun).
    apply mbind_returned in Hrun as (? & ? & _ & Hrun). eauto.
  - unfold new_foreign in Hrun.
    apply mbind_returned in Hrun as (? & ? & _ & Hrun).
    apply mbind_returned in Hrun as (? & ? & _ & Hrun). eauto.
  - unfold new_foreign_simple in Hrun.
    apply mbind_returned in Hrun as (? & ? & _ & Hrun). eauto.
Qed.

(** The bitmap [from_raw] returns holds what the library answered. *)
Lemma from_raw_fields (raw : handle) (rev : bool) (ex : option cbuffer)
    (w w' : World) (bm : PdfBitmap) :
  from_raw raw rev ex w = (w', inr bm) ->
  w_lib w' = w_lib w /\
  exists buf free,
    PdfBitmap_init raw buf
      (FPDFBitmap_GetWidth (w_lib w) raw) (FPDFBitmap_GetHeight (w_lib w) raw)
      (FPDFBitmap_GetStride (w_lib w) raw) (FPDFBitmap_GetFormat (w_lib w) raw)
      rev free = inr bm.
Proof.
  destruct ex as [b|].
  - rewrite from_raw_external. intros [= <- Hinit]. split; [reflexivity|]. eauto.
  - rewrite from_raw_internal. cbn zeta. intros [= <- Hinit].
    split; [reflexivity|].
    destruct (_ =? 0); [discriminate|]. destruct (_ <? 0); [discriminate|]. eauto.
Qed.

Lemma ctor_fields (c : ctor_call) (w w' : World) (bm : PdfBitmap) :
  run_ctor c w = (w', inr bm) ->
  width bm = FPDFBitmap_GetWidth (w_lib w') (raw bm) /\
  height bm = FPDFBitmap_GetHeight (w_lib w') (raw bm) /\
  stride bm = FPDFBitmap_GetStride (w_lib w') (raw bm) /\
  format bm = FPDFBitmap_GetFormat (w_lib w') (raw bm) /\
  BitmapTypeToNChannels !! format bm = Some (n_channels bm) /\
  (if rev_byteorder bm then BitmapTypeToStrReverse else BitmapTypeToStr)
    !! format bm = Some (mode bm) /\
  _pos_args bm = None /\
  ac_obj (autoclose bm) = buffer bm.
Proof.
  intros Hrun.
  apply ctor_from_raw in Hrun as (w1 & raw & rev & ex & Hrun).
  apply from_raw_fields in Hrun as (-> & buf & free & Hinit).
  unfold PdfBitmap_init, py_getitem, rbind, ret, raise in Hinit.
  destruct (BitmapTypeToNChannels !! _) as [n|] eqn:Hn; [|discriminate].
  destruct ((if rev then _ else _) !! _) as [m|] eqn:Hm; [|discriminate].
  injection Hinit as <-. cbn. repeat split; assumption.
Qed.

(** Whichever constructor made a bitmap, its size, stride and format are
    what the library reports for its handle, its channel count and mode are
    the entries of the tables for that format and byte order, it has no
    render parameters yet, and the object its finalizer is tied to is its
    buffer. *)
Theorem ctor_attributes (c : ctor_call) (w w' : World) (bm : PdfBitmap) :
  run_ctor c w = (w', inr bm) ->
  width bm = FPDFBitmap_GetWidth (w_lib w') (raw bm) /\
  height bm = FPDFBitmap_GetHeight (w_lib w') (raw bm) /\
  stride bm = FPDFBitmap_GetStride (w_lib w') (raw bm) /\
  format bm = FPDFBitmap_GetFormat (w_lib w') (raw bm) /\
  BitmapTypeToNChannels !! format bm = Some (n_channels bm) /\
  (if rev_byteorder bm then BitmapTypeToStrReverse else BitmapTypeToStr)
    !! format bm = Some (mode bm) /\
  _pos_args bm = None /\
  ac_obj (autoclose bm) = buffer bm.
Proof. apply ctor_fields. Qed.

(** The run of [new_native] that returned: the stride and the buffer it
    settled on, the creation, then [from_raw] on the handle. *)
Lemma new_native_steps (width height format : Z) (rev : bool)
    (buf : option cbuffer) (stride : option Z) (w w' : World) (bm : PdfBitmap) :
  new_native width height format rev buf stride w = (w', inr bm) ->
  exists (bpc : Z) (b : cbuffer) (w1 : World),
    BitmapTypeToNChannels !! format = Some bpc /\
    width * bpc <= resolved_stride width bpc stride /\
    resolved_stride width bpc stride * height <= buffer_len b /\
    match buf with
    | Some given => b = given
    | None => b = PyArray (length (w_heap w)) (resolved_stride width bpc stride * height)
    end /\
    w_lib w1 = w_lib w /\
    w_calls w1 = w_calls w /\
    from_raw
      (fst (FPDFBitmap_CreateEx (w_lib w) width height format (Some b)
              (resolved_stride width bpc stride)))
      rev (Some b)
      (after_call w1
         (CCreateEx width height format (Some b) (resolved_stride width bpc stride))
         (snd (FPDFBitmap_CreateEx (w_lib w) width height format (Some b)
                 (resolved_stride width bpc stride))))
    = (w', inr bm).
Proof.
  unfold new_native. intros Hrun.
  apply mbind_returned in Hrun as (w0 & bpc & Hbpc & Hrun).
  apply lift_returned in Hbpc as [-> Hbpc].
  unfold py_getitem in Hbpc.
  destruct (BitmapTypeToNChannels !! format) as [bpc'|] eqn:Htable; [|discriminate].
  injection Hbpc as ->.
  apply mbind_returned in Hrun as (w0 & st & Hst & Hrun).
  assert (w0 = w /\ st = resolved_stride width bpc stride /\ width * bpc <= st)
    as (-> & -> & Hfit).
  { destruct stride as [s|]; cbn [resolved_stride].
    - apply mbind_returned in Hst as (w2 & [] & Hassert & Hst).
      apply lift_returned in Hassert as [-> Hassert].
      unfold py_assert in Hassert.
      destruct (Z.leb_spec (width * bpc) s); [|discriminate].
      injection Hst as <- <-. repeat split; first [reflexivity | assumption].
    - injection Hst as <- <-. repeat split; first [reflexivity | lia]. }
  clear Hst.
  apply mbind_returned in Hrun as (w1 & b & Hbuf & Hrun).
  apply mbind_returned in Hrun as (w2 & raw & Hcreate & Hrun).
  exists bpc, b, w1. split; [reflexivity|]. split; [exact Hfit|].
  assert (resolved_stride width bpc stride * height <= buffer_len b /\
          match buf with
          | Some given => b = given
          | None => b = PyArray (length (w_heap w))
                          (resolved_stride width bpc stride * height)
          end /\
          w_lib w1 = w_lib w /\ w_calls w1 = w_calls w)
    as (Hlen & Hgiven & Hlib & Hcalls).
  { destruct buf as [b0|].
    - apply mbind_returned in Hbuf as (w3 & [] & Hassert & Hbuf).
      apply lift_returned in Hassert as [-> Hassert].
      unfold py_assert in Hassert.
      destruct (Z.leb_spec (resolved_stride width bpc stride * height) (buffer_len b0));
        [|discriminate].
      injection Hbuf as <- <-. repeat split; first [reflexivity | assumption].
    - unfold new_c_ubyte_array in Hbuf.
      destruct (Z.ltb_spec (resolved_stride width bpc stride * height) 0);
        [discriminate|].
      injection Hbuf as <- <-. cbn. repeat split; first [reflexivity | lia]. }
  repeat split; try assumption.
  unfold native_call in Hcreate. rewrite Hlib in Hcreate.
  destruct (FPDFBitmap_CreateEx _ _ _ _ _ _) as [raw' s'].
  injection Hcreate as <- <-. exact Hrun.
Qed.

(** The invariant of a native bitmap. When the library reports the size,
    the format and the stride the bitmap was created with, a bitmap from
    [new_native] has the size asked for, a stride of at least [width]
    times its channel count, and a buffer of at least [stride * height]
    bytes. *)
Theorem new_native_invariant (width height format : Z) (rev : bool)
    (buf : option cbuffer) (stride : option Z) (w w' : World) (bm : PdfBitmap)
    (bpc : Z) :
  new_native width height format rev buf stride w = (w', inr bm) ->
  BitmapTypeToNChannels !! format = Some bpc ->
  creation_reported (w_lib w) width height format (Some (buffer bm))
    (resolved_stride width bpc stride) ->
  Bitmap.width bm = width /\ Bitmap.height bm = height /\
  n_channels bm = bpc /\
  Bitmap.stride bm = resolved_stride width bpc stride /\
  Bitmap.width bm * n_channels bm <= Bitmap.stride bm /\
  Bitmap.stride bm * Bitmap.height bm <= buffer_len (buffer bm).
Proof.
  intros Hrun Hbpc Hlib.
  apply new_native_steps in Hrun
    as (bpc' & b & w1 & Hbpc' & Hfit & Hlen & _ & Hw1 & _ & Hrun).
  assert (bpc' = bpc) as -> by congruence.
  rewrite from_raw_external in Hrun. injection Hrun as _ Hinit.
  apply PdfBitmap_init_fields in Hinit
    as (_ & Hb & Hwd & Hht & Hst & Hfmt & _ & Hn).
  rewrite Hb in Hlib. unfold creation_reported in Hlib.
  cbn [after_call w_lib] in Hwd, Hht, Hst, Hfmt, Hn.
  destruct (FPDFBitmap_CreateEx _ _ _ _ _ _) as [raw s'].
  cbn [fst snd] in Hwd, Hht, Hst, Hfmt, Hn.
  destruct Hlib as (Hgw & Hgh & Hgf & Hgs).
  rewrite Hgw in Hwd. rewrite Hgh in Hht. rewrite Hgs in Hst. rewrite Hgf in Hfmt.
  rewrite Hgf, Hbpc in Hn. injection Hn as Hn.
  rewrite Hwd, Hht, Hst, Hb, <- Hn. repeat split; assumption.
Qed.


(** The checks of [new_native] fail before anything is done, and only
    for their cause.  When [new_native] raises [AssertionError], the stride
    given is below [width * channels(format)] or the buffer given is
    shorter than [stride * height]; when it raises [ValueError], no buffer
    was given and [stride * height] is negative, which ctypes refuses.  In
    both cases the world is as it was: nothing allocated, the library not
    called. *)
Theorem new_native_failures (width height format : Z) (rev : bool)
    (buf : option cbuffer) (stride : option Z) (w w' : World) (e : exn)
    (bpc : Z) :
  BitmapTypeToNChannels !! format = Some bpc ->
  new_native width height format rev buf stride w = (w', inl e) ->
  (e = AssertionError ->
   w' = w /\
   ((exists s, stride = Some s /\ s < width * bpc) \/
    (exists b, buf = Some b /\
       buffer_len b < resolved_stride width bpc stride * height))) /\
  (e = ValueError ->
   w' = w /\ buf = None /\ resolved_stride width bpc stride * height < 0).
Proof.
  intros Hbpc.
  unfold new_native, mbind, lift, py_getitem, py_assert, mret, mraise, ret, raise.
  rewrite Hbpc.
  set (st := match stride with Some s => s | None => width * bpc end).
  assert (Hcont : forall (b : cbuffer) (w1 : World),
    (let (w2, r) := native_call (CCreateEx width height format (Some b) st)
                      (fun s => FPDFBitmap_CreateEx s width height format (Some b) st) w1 in
     match r with
     | inl e0 => (w2, inl e0)
     | inr raw => from_raw raw rev (Some b) w2
     end) = (w', inl e) -> e <> AssertionError /\ e <> ValueError).
  { clear Hbpc. intros b w1. unfold native_call.
    destruct (FPDFBitmap_CreateEx _ _ _ _ _ _) as [raw s'].
    rewrite from_raw_external. intros [= _ Hinit].
    unfold PdfBitmap_init, py_getitem, rbind, ret, raise in Hinit.
    destruct (BitmapTypeToNChannels !! _); [|injection Hinit as <-; by split].
    destruct (_ !! _); [discriminate | injection Hinit as <-; by split]. }
  destruct stride as [s|]; subst st; cbn [resolved_stride].
  - destruct (Z.leb_spec (width * bpc) s) as [Hs|Hs]; cycle 1.
    { intros [= <- <-]. split; [intros _|discriminate].
      split; [reflexivity|]. left. exists s. by split. }
    destruct buf as [b|].
    + destruct (Z.leb_spec (s * height) (buffer_len b)) as [Hb|Hb]; cycle 1.
      { intros [= <- <-]. split; [intros _|discriminate].
        split; [reflexivity|]. right. exists b. by split. }
      intros Hrun. destruct (Hcont _ _ Hrun). by split.
    + unfold new_c_ubyte_array, mraise.
      destruct (Z.ltb_spec (s * height) 0) as [Hneg|Hsize].
      { intros [= <- <-]. split; [discriminate|intros _]. by repeat split. }
      intros Hrun. destruct (Hcont _ _ Hrun). by split.
  - destruct buf as [b|].
    + destruct (Z.leb_spec (width * bpc * height) (buffer_len b)) as [Hb|Hb]; cycle 1.
      { intros [= <- <-]. split; [intros _|discriminate].
        split; [reflexivity|]. right. exists b. by split. }
      intros Hrun. destruct (Hcont _ _ Hrun). by split.
    + unfold new_c_ubyte_array, mraise.
      destruct (Z.ltb_spec (width * bpc * height) 0) as [Hneg|Hsize].
      { intros [= <- <-]. split; [discriminate|intros _]. by repeat split. }
      intros Hrun. destruct (Hcont _ _ Hrun). by split.
Qed.

(** What [from_pil] asks of the library: one bitmap, created over the
    copy of the pixel data, of the size of the image, in the format the
    tables give for its mode and fully packed; the bytes of the image
    suffice for it; and the bitmap is in normal byte order. *)
Theorem from_pil_creation (pil_image : image) (w w' : World) (bm : PdfBitmap) :
  from_pil pil_image w = (w', inr bm) ->
  exists (source : image) (format bpc : Z),
    pil_source pil_image = inr source /\
    match BitmapStrToConst !! im_mode pil_image with
    | Some f => format = f
    | None => BitmapStrReverseToConst !! im_mode source = Some format
    end /\
    BitmapTypeToNChannels !! format = Some bpc /\
    fst (im_size source) * bpc * snd (im_size source)
    <= Z.of_nat (length (im_tobytes source)) /\
    rev_byteorder bm = false /\
    w_calls w'
    = w_calls w
      ++ [CCreateEx (fst (im_size source)) (snd (im_size source)) format
            (Some (buffer bm)) (fst (im_size source) * bpc);
          CGetWidth (raw bm); CGetHeight (raw bm); CGetFormat (raw bm);
          CGetStride (raw bm)].
Proof.
  unfold from_pil, pil_source. intros Hrun.
  apply mbind_returned in Hrun as (w1 & [source format] & Hconv & Hrun).
  assert (w1 = w /\
          match BitmapStrToConst !! im_mode pil_image with
          | Some _ => ret pil_image
          | None => _pil_convert_for_pdfium pil_image
          end = inr source /\
          match BitmapStrToConst !! im_mode pil_image with
          | Some f => format = f
          | None => BitmapStrReverseToConst !! im_mode source = Some format
          end) as (-> & Hsource & Hformat).
  { destruct (BitmapStrToConst !! im_mode pil_image) as [f|].
    - injection Hconv as <- <- <-. repeat split.
    - apply mbind_returned in Hconv as (w2 & im2 & Hc & Hconv).
      apply lift_returned in Hc as [-> Hc].
      apply mbind_returned in Hconv as (w2 & f & Hf & Hconv).
      apply lift_returned in Hf as [-> Hf].
      injection Hconv as <- <- <-. repeat split; [exact Hc|].
      unfold py_getitem in Hf.
      destruct (BitmapStrReverseToConst !! im_mode im2); [|discriminate].
      injection Hf as ->. reflexivity. }
  clear Hconv. exists source, format.
  destruct (im_size source) as [wd ht]. cbn [fst snd].
  apply mbind_returned in Hrun as (w1 & b & Hbytes & Hrun).
  unfold tobytes, mbind, py_alloc, mret in Hbytes. injection Hbytes as <- <-.
  apply new_native_steps in Hrun
    as (bpc & b & w1 & Hbpc & _ & Hlen & -> & _ & Hcalls & Hrun).
  cbn [resolved_stride buffer_len] in Hlen, Hrun.
  exists bpc.
  rewrite from_raw_external in Hrun. injection Hrun as <- Hinit.
  assert (Hrev : rev_byteorder bm = false).
  { unfold PdfBitmap_init, rbind in Hinit.
    destruct (py_getitem _ _ _); [discriminate|].
    destruct (py_getitem _ _ _); [discriminate|].
    injection Hinit as <-. reflexivity. }
  apply PdfBitmap_init_fields in Hinit as (Hraw & Hb & _).
  repeat split; try assumption.
  cbn [after_getters after_call w_calls]. rewrite Hcalls, Hraw, Hb.
  cbn [w_calls]. rewrite <- app_assoc. reflexivity.
Qed.

(** [to_pil] on a bitmap in reverse byte order, whichever constructor
    made it: the call of [frombuffer] is made, with the mode of the bitmap
    both as the mode of the image and as the mode of the raw data, over the
    buffer of the bitmap with its size and stride, top line first, and the
    image is marked writable. *)
Theorem to_pil_reverse (c : ctor_call) (w w' : World) (bm : PdfBitmap) :
  run_ctor c w = (w', inr bm) ->
  rev_byteorder bm = true ->
  to_pil bm
  = inr (mkFrombufferCall (mode bm) (width bm, height bm) (buffer bm) "raw"
           (mode bm) (stride bm) 1 false).
Proof.
  intros Hrun Hrev.
  apply ctor_fields in Hrun as (_ & _ & _ & _ & _ & Hmode & _).
  rewrite Hrev in Hmode. unfold to_pil, py_getitem. rewrite Hmode. reflexivity.
Qed.

(** The modes [_pil_convert_for_pdfium] returns, for an imaging library
    whose [convert] and [merge] give an image of the mode asked for: one of
    L, RGB, RGBA and RGBX, or else the image came in with a mode that
    starts with RGB and goes out as it is. *)
Theorem pil_convert_modes (pil_image out : image) :
  (forall im m im', im_convert im m = inr im' -> im_mode im' = m) ->
  (forall m bands im', im_merge m bands = inr im' -> im_mode im' = m) ->
  _pil_convert_for_pdfium pil_image = inr out ->
  im_mode out ∈ ["L"; "RGB"; "RGBA"; "RGBX"]%string \/
  (String.prefix "RGB" (im_mode pil_image) = true /\ out = pil_image).
Proof.
  intros Hconvert Hmerge. unfold _pil_convert_for_pdfium. intros Hrun.
  apply rbind_returned in Hrun as (im1 & Hfirst & Hrun).
  assert (Hmode1 : im_mode im1 ∈ ["L"; "RGB"; "RGBA"; "RGBX"]%string \/
                   (String.prefix "RGB" (im_mode pil_image) = true /\ im1 = pil_image)).
  { destruct (String.eqb (im_mode pil_image) "1").
    - left. rewrite (Hconvert _ _ _ Hfirst). decide_prop.
    - destruct (String.prefix "RGB" (im_mode pil_image)) eqn:Hprefix.
      + right. injection Hfirst as <-. split; reflexivity.
      + destruct (str_contains "A" (im_mode pil_image)).
        * left. rewrite (Hconvert _ _ _ Hfirst). decide_prop.
        * left. rewrite (Hconvert _ _ _ Hfirst). decide_prop. }
  destruct (String.eqb (im_mode im1) "RGB").
  { left. destruct (im_split im1) as [|r [|g [|b [|? ?]]]]; try discriminate.
    rewrite (Hmerge _ _ _ Hrun). decide_prop. }
  destruct (String.eqb (im_mode im1) "RGBA").
  { left. destruct (im_split im1) as [|r [|g [|b [|a [|? ?]]]]]; try discriminate.
    rewrite (Hmerge _ _ _ Hrun). decide_prop. }
  destruct (String.eqb (im_mode im1) "RGBX").
  { left. destruct (im_split im1) as [|r [|g [|b [|a [|? ?]]]]]; try discriminate.
    rewrite (Hmerge _ _ _ Hrun). decide_prop. }
  injection Hrun as <-. exact Hmode1.
Qed.

End BitmapMore.

(** ** [get_posconv] *)

Section PosConvMore.

Import Bitmap.

Context {L : NativeLib}.

(** [get_posconv] in full, for any page argument, [None] included. It
    never changes the world. When it returns a converter, the page passed
    in is a page object, alive, and the very page the bitmap recorded, and
    the converter holds it with the recorded parameters.  When it raises,
    the exception is [RuntimeError], except that [None] passed for the page
    while the recorded page is dead gets past the identity test and fails
    the assertion of the converter's constructor. *)
Theorem get_posconv_outcomes (bm : PdfBitmap) (page : page_ref) (w : World) :
  fst (get_posconv bm page w) = w /\
  match snd (get_posconv bm page w) with
  | inr conv =>
      exists (p : nat) (args : PosArgs),
        page = Some p /\ _pos_args bm = Some (p, args) /\ p ∈ w_pages w /\
        conv = mkPdfPosConv (Some p) args
  | inl e =>
      e = RuntimeError "This bitmap does not belong to the given page." \/
      (e = AssertionError /\ page = None /\
       exists ref args, _pos_args bm = Some (ref, args) /\ ref ∉ w_pages w)
  end.
Proof.
  unfold get_posconv.
  destruct (_pos_args bm) as [[ref args]|]; [|cbn; auto].
  unfold mbind, weakref_call, mraise, lift, page_is.
  destruct (decide (ref ∈ w_pages w)) as [Halive|Hdead].
  - destruct (decide (Some ref = page)) as [<-|Hne].
    + rewrite bool_decide_eq_true_2 by reflexivity. cbn.
      split; [reflexivity|]. exists ref, args. auto.
    + rewrite bool_decide_eq_false_2 by exact Hne. cbn. auto.
  - destruct page as [p|].
    + rewrite bool_decide_eq_false_2 by discriminate. cbn. auto.
    + rewrite bool_decide_eq_true_2 by reflexivity. cbn.
      split; [reflexivity|]. right. repeat split. exists ref, args. auto.
Qed.

End PosConvMore.

(** ** [build_pdfium.py] *)

Section BuildFacts.

Import BuildPdfium.

(** The lines of the settings after the first, each after a line feed. *)
Lemma config_loop_lines (items : dict) (acc : string) :
  config_loop items acc newline
  = (let* lines := Version.mapM config_line items in
     ret (acc ++ String.concat "" (map (fun l => newline ++ l) lines))%string)%result.
Proof.
  revert acc. induction items as [|[k v] items IH]; intros acc.
  - cbn [config_loop Version.mapM rbind ret map]. rewrite str_app_nil_r. reflexivity.
  - cbn [config_loop Version.mapM]. unfold config_line at 1. cbn [fst snd].
    destruct (config_value v) as [e|text]; [reflexivity|].
    cbn [rbind ret]. rewrite IH.
    destruct (Version.mapM config_line items) as [e|lines]; [reflexivity|].
    cbn [rbind ret map]. f_equal.
    destruct lines as [|l lines].
    + cbn [map]. change (String.concat "" [?x]) with x.
      rewrite !str_app_assoc, !str_app_nil_r. reflexivity.
    + change (String.concat "" (?x :: map ?f (l :: lines)))
        with (x ++ "" ++ String.concat "" (map f (l :: lines)))%string.
      rewrite !str_app_assoc. reflexivity.
Qed.

Lemma concat_newline (l : string) (lines : list string) :
  String.concat newline (l :: lines)
  = (l ++ String.concat "" (map (fun l' => newline ++ l') lines))%string.
Proof.
  revert l. induction lines as [|l' lines IH]; intros l.
  - cbn [map]. change (String.concat newline [l]) with l.
    change (String.concat "" []) with ""%string.
    rewrite str_app_nil_r. reflexivity.
  - change (String.concat newline (l :: l' :: lines))
      with (l ++ newline ++ String.concat newline (l' :: lines))%string.
    rewrite IH. cbn [map].
    destruct (map (fun l'0 => (newline ++ l'0)%string) lines) as [|x xs] eqn:Hmap.
    + change (String.concat "" [?x]) with x. change (String.concat "" []) with ""%string.
      rewrite !str_app_nil_r. reflexivity.
    + change (String.concat "" (?y :: x :: xs))
        with (y ++ "" ++ String.concat "" (x :: xs))%string.
      rewrite !str_app_assoc. reflexivity.
Qed.

Lemma create_config_lines (config_dict : dict) :
  _create_config_str config_dict
  = (let* lines := Version.mapM config_line config_dict in
     ret (String.concat newline lines))%result.
Proof.
  unfold _create_config_str. destruct config_dict as [|[k v] items]; [reflexivity|].
  cbn [config_loop Version.mapM]. unfold config_line at 1. cbn [fst snd].
  destruct (config_value v) as [e|text]; [reflexivity|].
  cbn [rbind ret]. rewrite config_loop_lines.
  destruct (Version.mapM config_line items) as [e|lines]; [reflexivity|].
  cbn [rbind ret]. rewrite concat_newline.
  f_equal. rewrite !str_app_assoc. reflexivity.
Qed.


(** Splits on the three tests [main] and the tables make of
    [sys.platform]. *)
Ltac platform_cases platform :=
  unfold main_config_str, main_config_dict, DefaultConfig, SyslibsConfig;
  destruct (String.prefix "linux" platform),
           (String.prefix "win32" platform),
           (String.prefix "darwin" platform).

(** One key after the other: either it is the key looked up, and both
    sides are evaluated, or it is not and its test is false. *)
Ltac lookup_cases k :=
  repeat match goal with
  | |- context [String.eqb ?key k] =>
      destruct (String.eqb_spec key k) as [<-|];
      [vm_compute; reflexivity|]
  end.

(** The tables compose by precedence in the dictionary [main] builds: a
    setting of [SyslibsConfig] (when system libraries are asked for) goes
    before one of [NativebuildConfig] (on a native build), which goes
    before one of [DefaultConfig].  The one setting two tables share is
    [use_custom_libcxx] on Linux: it is true unless system libraries are
    asked for. *)
Theorem main_config_precedence (platform : string)
    (b_nativebuild b_use_syslibs : bool) :
  (forall k : string,
     dict_get (main_config_dict platform b_nativebuild b_use_syslibs) k
     = match (if b_use_syslibs then dict_get (SyslibsConfig platform) k else None) with
       | Some v => Some v
       | None =>
           match (if b_nativebuild then dict_get NativebuildConfig k else None) with
           | Some v => Some v
           | None => dict_get (DefaultConfig platform) k
           end
       end)
  /\ (String.prefix "linux" platform = true ->
      dict_get (main_config_dict platform b_nativebuild b_use_syslibs)
        "use_custom_libcxx"
      = Some (VBool (negb b_use_syslibs))).
Proof.
  split.
  - intros k. platform_cases platform; destruct b_nativebuild, b_use_syslibs;
      unfold NativebuildConfig;
      cbn [dict_update fold_left dict_set fst snd
           String.eqb Ascii.eqb Bool.eqb];
      cbn [dict_get]; lookup_cases k; reflexivity.
  - intros Hlinux. unfold main_config_dict, DefaultConfig, SyslibsConfig.
    rewrite Hlinux. destruct b_nativebuild, b_use_syslibs; reflexivity.
Qed.

Lemma main_config_precedence_witness :
  dict_get (main_config_dict "linux" true true) "use_custom_libcxx"
  = Some (VBool false).
Proof.
  apply (proj2 (main_config_precedence "linux" true true)). reflexivity.
Defined.

(** The configuration text of [main] without an argument file is always
    produced, whatever the platform and the options: every setting of the
    dictionary has a text, no setting occurs twice, and the text is the
    lines of the settings joined by line feeds. *)
Theorem main_config_str_total (platform : string)
    (b_nativebuild b_use_syslibs : bool) :
  NoDup (map fst (main_config_dict platform b_nativebuild b_use_syslibs)) /\
  exists lines : list string,
    Version.mapM config_line (main_config_dict platform b_nativebuild b_use_syslibs)
    = inr lines /\
    length lines = length (main_config_dict platform b_nativebuild b_use_syslibs) /\
    main_config_str platform None b_nativebuild b_use_syslibs
    = inr (String.concat newline lines).
Proof.
  unfold main_config_str. rewrite create_config_lines.
  platform_cases platform; destruct b_nativebuild, b_use_syslibs.
  all: split; [decide_prop|].
  all: eexists; split; [vm_compute; reflexivity|].
  all: split; reflexivity.
Qed.

End BuildFacts.

Section FindLibFacts.

Import BuildPdfium.

Variable join : string -> string -> string.
Variable isfile : string -> bool.
Variable Libnames : list string.
Variable PDFiumBuildDir : string.

Lemma find_over_app {A} (f : A -> bool) (l1 l2 : list A) :
  find f (l1 ++ l2)
  = match find f l1 with
    | Some x => Some x
    | None => find f l2
    end.
Proof.
  induction l1 as [|x l1 IH]; [reflexivity|].
  cbn [app find]. destruct (f x); [reflexivity | exact IH].
Qed.

(** The loop over the names, from any value of [libpath]. *)
Lemma search_from (directory : string) (names : list string) (start : option string) :
  fold_left
    (fun libpath lname =>
       let path := join directory lname in
       if isfile path then Some path else libpath)
    names start
  = match find (fun lname => isfile (join directory lname)) (rev names) with
    | Some lname => Some (join directory lname)
    | None => start
    end.
Proof.
  revert start. induction names as [|n names IH]; intros start; [reflexivity|].
  cbn [fold_left rev]. rewrite IH, find_over_app.
  destruct (find _ (rev names)) as [l|]; [reflexivity|].
  cbn [find]. destruct (isfile (join directory n)); reflexivity.
Qed.

Lemma search_libnames_last (directory : string) :
  search_libnames join isfile Libnames directory
  = option_map (join directory)
      (find (fun lname => isfile (join directory lname)) (rev Libnames)).
Proof.
  unfold search_libnames. rewrite search_from.
  destruct (find _ _); reflexivity.
Qed.

(** [find_lib] returns files that exist, and it raises exactly when there
    is none to return: a path it returns is a file, under
    [PDFiumBuildDir] by the given name or under the directory by one of
    [Libnames]; it raises [RuntimeError] if and only if the given name, if
    any, is no file of [PDFiumBuildDir] and no name of [Libnames] is a file
    of the directory. *)
Theorem find_lib_sound (srcname : option string) (directory : string) :
  (forall path : string,
     snd (find_lib join isfile Libnames PDFiumBuildDir srcname directory) = inr path ->
     isfile path = true /\
     ((exists name, srcname = Some name /\ path = join PDFiumBuildDir name) \/
      (exists lname, lname ∈ Libnames /\ path = join directory lname)))
  /\ (snd (find_lib join isfile Libnames PDFiumBuildDir srcname directory)
      = inl (RuntimeError "Build artifact not found.") <->
      (forall name, srcname = Some name -> isfile (join PDFiumBuildDir name) = false) /\
      (forall lname, lname ∈ Libnames -> isfile (join directory lname) = false)).
Proof.
  assert (Hsearch :
    match search_libnames join isfile Libnames directory with
    | Some path =>
        isfile path = true /\ exists lname, lname ∈ Libnames /\ path = join directory lname
    | None => forall lname, lname ∈ Libnames -> isfile (join directory lname) = false
    end).
  { rewrite search_libnames_last.
    destruct (find _ (rev Libnames)) as [l|] eqn:Hfind; cbn [option_map].
    - apply find_some in Hfind as [Hin Hfile]. split; [exact Hfile|].
      exists l. split; [|reflexivity].
      apply list_elem_of_In. apply in_rev. exact Hin.
    - intros lname Hin.
      apply (find_none _ _ Hfind). apply in_rev. rewrite rev_involutive.
      by apply list_elem_of_In. }
  unfold find_lib.
  destruct srcname as [name|].
  - destruct (isfile (join PDFiumBuildDir name)) eqn:Hname.
    + split.
      * intros path [= <-]. split; [exact Hname|]. left. eauto.
      * split; [discriminate|]. intros [Hno _].
        rewrite (Hno name eq_refl) in Hname. discriminate.
    + destruct (search_libnames join isfile Libnames directory) as [p|]; cbn [snd].
      * destruct Hsearch as (Hfile & l & Hin & ->). split.
        -- intros path [= <-]. split; [exact Hfile|]. right. eauto.
        -- split; [discriminate|]. intros [_ Hno].
           rewrite (Hno l Hin) in Hfile. discriminate.
      * split; [discriminate|]. split; [|reflexivity].
        intros _. split; [|exact Hsearch]. intros name' [= <-]. exact Hname.
  - destruct (search_libnames join isfile Libnames directory) as [p|]; cbn [snd].
    + destruct Hsearch as (Hfile & l & Hin & ->). split.
      * intros path [= <-]. split; [exact Hfile|]. right. eauto.
      * split; [discriminate|]. intros [_ Hno].
        rewrite (Hno l Hin) in Hfile. discriminate.
    + split; [discriminate|]. split; [|reflexivity].
      intros _. split; [discriminate | exact Hsearch].
Qed.

(** Which file [find_lib] picks. A given name that is a file of
    [PDFiumBuildDir] is returned without a look at [Libnames], whatever
    directory was passed.  Otherwise, among the names of [Libnames] that
    are files of the directory, the last one in the list is returned; a
    given name that is no file costs one line of warning. *)
Theorem find_lib_choice (srcname : option string) (directory : string) :
  (forall name,
     srcname = Some name -> isfile (join PDFiumBuildDir name) = true ->
     find_lib join isfile Libnames PDFiumBuildDir srcname directory
     = ([], inr (join PDFiumBuildDir name)))
  /\ (forall before lname after,
     (forall name, srcname = Some name -> isfile (join PDFiumBuildDir name) = false) ->
     Libnames = before ++ lname :: after ->
     isfile (join directory lname) = true ->
     (forall l, l ∈ after -> isfile (join directory l) = false) ->
     find_lib join isfile Libnames PDFiumBuildDir srcname directory
     = (match srcname with
        | Some _ => ["Warning: The file of given srcname does not exist."%string]
        | None => []
        end,
        inr (join directory lname))).
Proof.
  split.
  - intros name -> Hfile. unfold find_lib. rewrite Hfile. reflexivity.
  - intros before lname after Hname Hsplit Hfile Hafter.
    assert (Hlast : search_libnames join isfile Libnames directory
                    = Some (join directory lname)).
    { rewrite search_libnames_last, Hsplit, rev_app_distr. cbn [rev].
      rewrite <- app_assoc, find_over_app.
      destruct (find _ (rev after)) as [l|] eqn:Hfind.
      - exfalso. apply find_some in Hfind as [Hin Hl].
        rewrite Hafter in Hl; [discriminate|].
        apply list_elem_of_In. apply in_rev. exact Hin.
      - cbn [app find]. rewrite Hfile. reflexivity. }
    unfold find_lib. rewrite Hlast.
    destruct srcname as [name|]; [|reflexivity].
    rewrite (Hname name eq_refl). reflexivity.
Qed.

End FindLibFacts.

Lemma find_lib_sound_witness :
  ref_isfile "out/pdfium.dll" = true
  /\ snd (BuildPdfium.find_lib ref_join ref_isfile ["libpdfium.a"%string] "out"
            (Some "libpdfium.a"%string) "out")
     = inl (RuntimeError "Build artifact not found.").
Proof.
  split.
  - apply (proj1 (find_lib_sound ref_join ref_isfile ref_libnames "out" None "out")
             "out/pdfium.dll").
    vm_compute. reflexivity.
  - apply (proj2 (find_lib_sound ref_join ref_isfile ["libpdfium.a"%string] "out"
                    (Some "libpdfium.a"%string) "out")).
    split.
    + intros name [= <-]. vm_compute. reflexivity.
    + intros lname Hin. apply list_elem_of_singleton in Hin as ->.
      vm_compute. reflexivity.
Defined.

Lemma find_lib_choice_witness :
  BuildPdfium.find_lib ref_join ref_isfile ref_libnames "out"
    (Some "libpdfium.so"%string) "elsewhere"
  = ([], inr "out/libpdfium.so"%string)
  /\ BuildPdfium.find_lib ref_join ref_isfile ref_libnames "out"
       (Some "pdfium.so"%string) "out"
     = (["Warning: The file of given srcname does not exist."%string],
        inr "out/pdfium.dll"%string).
Proof.
  split.
  - apply (proj1 (find_lib_choice ref_join ref_isfile ref_libnames "out"
                    (Some "libpdfium.so"%string) "elsewhere") "libpdfium.so"%string).
    + reflexivity.
    + vm_compute. reflexivity.
  - apply (proj2 (find_lib_choice ref_join ref_isfile ref_libnames "out"
                    (Some "pdfium.so"%string) "out")
             ["libpdfium.so"; "libpdfium.dylib"]%string "pdfium.dll"%string []).
    + intros name [= <-]. vm_compute. reflexivity.
    + reflexivity.
    + vm_compute. reflexivity.
    + intros l Hin. by apply elem_of_nil in Hin.
Defined.

(** ** The further theorems on the reference implementations *)

Section OnReferenceMore.

Import Bitmap BitmapViews Reference.

#[local] Existing Instances RefLib RefTables RefPillow.

(** [from_pil] on [red_blue], from its call of [new_native] on. *)
Lemma red_blue_new_native :
  new_native 2 1 2 false (Some (PyArray 0 6)) None
    (heap_grown (world0 ∅) [0; 0; 255; 255; 0; 0])
  = (red_blue_world, inr red_blue_bitmap).
Proof. vm_compute. reflexivity. Qed.

Lemma ctor_attributes_witness :
  width foreign_bitmap = ref_get r_width (w_lib foreign_world) (raw foreign_bitmap) /\
  height foreign_bitmap = ref_get r_height (w_lib foreign_world) (raw foreign_bitmap) /\
  stride foreign_bitmap = ref_get r_stride (w_lib foreign_world) (raw foreign_bitmap) /\
  format foreign_bitmap = ref_get r_format (w_lib foreign_world) (raw foreign_bitmap) /\
  BitmapTypeToNChannels !! format foreign_bitmap = Some (n_channels foreign_bitmap) /\
  (if rev_byteorder foreign_bitmap then BitmapTypeToStrReverse else BitmapTypeToStr)
    !! format foreign_bitmap = Some (mode foreign_bitmap) /\
  _pos_args foreign_bitmap = None /\
  ac_obj (autoclose foreign_bitmap) = buffer foreign_bitmap.
Proof.
  exact (ctor_attributes (NewForeign 3 3 2 true false) (world0 ∅)
           foreign_world foreign_bitmap new_foreign_runs).
Defined.

Lemma new_native_invariant_witness :
  width red_blue_bitmap = 2 /\ height red_blue_bitmap = 1 /\
  n_channels red_blue_bitmap = 3 /\
  stride red_blue_bitmap = resolved_stride 2 3 None /\
  width red_blue_bitmap * n_channels red_blue_bitmap <= stride red_blue_bitmap /\
  stride red_blue_bitmap * height red_blue_bitmap
  <= buffer_len (buffer red_blue_bitmap).
Proof.
  apply (new_native_invariant 2 1 2 false (Some (PyArray 0 6)) None
           (heap_grown (world0 ∅) [0; 0; 255; 255; 0; 0])
           red_blue_world red_blue_bitmap 3).
  - exact red_blue_new_native.
  - vm_compute. reflexivity.
  - vm_compute. repeat split; reflexivity.
Defined.


Lemma new_native_failures_witness :
  world0 ∅ = world0 ∅ /\
  ((exists s, Some 15 = Some s /\ s < 4 * 4) \/
   (exists b : cbuffer, None = Some b /\ buffer_len b < 15 * 2)).
Proof.
  apply (new_native_failures 4 2 4 false None (Some 15) (world0 ∅) (world0 ∅)
           AssertionError 4).
  - vm_compute. reflexivity.
  - vm_compute. reflexivity.
  - reflexivity.
Defined.

Lemma from_pil_creation_witness :
  exists (source : ref_image) (format bpc : Z),
    pil_source red_blue = inr source /\
    match BitmapStrToConst !! ri_mode red_blue with
    | Some f => format = f
    | None => BitmapStrReverseToConst !! ri_mode source = Some format
    end /\
    BitmapTypeToNChannels !! format = Some bpc /\
    fst (ri_size source) * bpc * snd (ri_size source)
    <= Z.of_nat (length (ref_tobytes source)) /\
    rev_byteorder red_blue_bitmap = false /\
    w_calls red_blue_world
    = w_calls (world0 ∅)
      ++ [CCreateEx (fst (ri_size source)) (snd (ri_size source)) format
            (Some (buffer red_blue_bitmap)) (fst (ri_size source) * bpc);
          CGetWidth (raw red_blue_bitmap); CGetHeight (raw red_blue_bitmap);
          CGetFormat (raw red_blue_bitmap); CGetStride (raw red_blue_bitmap)].
Proof.
  exact (from_pil_creation (red_blue : @image RefPillow) (world0 ∅)
           red_blue_world red_blue_bitmap from_pil_runs).
Defined.

Lemma to_pil_reverse_witness :
  to_pil foreign_bitmap
  = inr (mkFrombufferCall "RGB" (3, 3) (PtrView 4096 36) "raw" "RGB" 12 1 false).
Proof.
  apply (to_pil_reverse (NewForeign 3 3 2 true false) (world0 ∅)
           foreign_world foreign_bitmap).
  - exact new_foreign_runs.
  - reflexivity.
Defined.

Lemma pil_convert_modes_witness :
  ri_mode (mkRefImage "RGB" (2, 1) [[0; 255]; [0; 0]; [255; 0]])
    ∈ ["L"; "RGB"; "RGBA"; "RGBX"]%string \/
  (String.prefix "RGB" (ri_mode red_blue) = true /\
   mkRefImage "RGB" (2, 1) [[0; 255]; [0; 0]; [255; 0]] = red_blue).
Proof.
  apply (pil_convert_modes (P := RefPillow) red_blue
           (mkRefImage "RGB" (2, 1) [[0; 255]; [0; 0]; [255; 0]])).
  - intros im m im'. cbn. unfold ref_convert, ret. intros [= <-]. reflexivity.
  - intros m bands im'. cbn. unfold ref_merge, ret, raise.
    destruct bands as [|first bands]; [discriminate|].
    destruct (Nat.eqb _ _); [|discriminate]. intros [= <-]. reflexivity.
  - vm_compute. reflexivity.
Defined.

End OnReferenceMore.
